(** * A command line todo application: model of [cli.py] and its properties

    The development embeds [cli.py] in Rocq.  Python values are an
    inductive type, the interpreter's exceptions are a sum type, and the
    commands run in a small state-and-exception monad over a world made of
    the module globals, the file system, the log file and the terminal.

    The three storage encodings are modelled down to the text of the file:
    [json.dump]/[json.load], [csv.DictWriter]/[csv.DictReader] and
    [str.splitlines] are functions on strings.

    Scope of the model.
    - A character is a code point below 256 ([ascii]); a file holds already
      decoded text.
    - Python floats are left out: a JSON number with a fraction or an
      exponent, [NaN] and [Infinity] are outside the modelled fragment and
      are reported as undecodable, as are [\u] escapes above [00ff].
    - The JSON decoder recurses on fuel; [json_loads] supplies twice the
      length of the text, and [json_loads_dumps] shows that this is enough
      for every text the encoder writes.
    - The limits of the interpreter on the digits of an [int] (4300), on
      nesting (the recursion limit) and on the length of a field that the
      [csv] reader takes (131072) are not modelled; [within_limits] and
      [cells_within] mark the values well inside them.
    - [in_fragment] marks the texts on which the modelled decoder is the
      real one: none of the constructs that are left out, and well inside
      the limits.
    - The file system records, path by path, what [open] finds there: a
      regular file, a directory, a file that cannot be opened for writing,
      a place where no file can be created (the directory of the path is
      missing, or the path is empty), or nothing, which is a place where a
      file can be created.  Files that cannot be read, paths below a regular
      file, and failures in the middle of reading or writing, are left out.
      The platform is POSIX (a written line feed stays a line feed).
    - The log file [todo_app.log] is kept apart from the files of the store:
      no path of the store names it.

    Layout: the Python values and their operations; the three encodings;
    the world and the monad; the program ([load_todos], [save_todos] and
    the commands); the vocabulary of the statements; then the properties,
    the commands first and the round trips of the encodings after them;
    last, what the commands leave alone, what [signin] does, and the
    commands on stores that are missing, malformed or misconfigured. *)

From Stdlib Require Import ZArith NArith String Ascii List Bool Lia.
From Stdlib Require Import DecimalString DecimalN.
From stdpp Require Import gmap strings.

Import ListNotations.
Local Open Scope string_scope.
Local Open Scope Z_scope.

(* stdpp freezes string concatenation under [simpl]; the proofs below compute
   with it. *)
#[local] Arguments String.append !s1 s2 : simpl nomatch.

(** ** Characters and strings *)

Definition LF : ascii := Ascii.ascii_of_nat 10.
Definition CR : ascii := Ascii.ascii_of_nat 13.
Definition TAB : ascii := Ascii.ascii_of_nat 9.
Definition BS : ascii := Ascii.ascii_of_nat 8.
Definition FF : ascii := Ascii.ascii_of_nat 12.
Definition DQUOTE : ascii := Ascii.ascii_of_nat 34.

Definition code (c : ascii) : N := Ascii.N_of_ascii c.

Definition char (c : ascii) : string := String c EmptyString.

(** [sep.join(parts)] *)
Fixpoint join (sep : string) (parts : list string) : string :=
  match parts with
  | [] => ""
  | [p] => p
  | p :: ps => p ++ sep ++ join sep ps
  end.

Fixpoint contains_char (c : ascii) (s : string) : bool :=
  match s with
  | EmptyString => false
  | String a s' => Ascii.eqb a c || contains_char c s'
  end.

Fixpoint string_forallb (p : ascii -> bool) (s : string) : bool :=
  match s with
  | EmptyString => true
  | String a s' => p a && string_forallb p s'
  end.

Fixpoint spaces (n : nat) : string :=
  match n with
  | O => ""
  | S n' => String " " (spaces n')
  end.

(** Decimal numerals: [str(n)] for a Python [int]. *)
Definition str_of_N (n : N) : string := NilEmpty.string_of_uint (N.to_uint n).

Definition str_of_Z (z : Z) : string :=
  if z <? 0 then String "-" (str_of_N (Z.abs_N z)) else str_of_N (Z.to_N z).

Definition hex_digit (n : N) : ascii :=
  Ascii.ascii_of_N (if (n <? 10)%N then 48 + n else 87 + n)%N.

(** Two lowercase hexadecimal digits of a code point. *)
Definition hex2 (c : ascii) : string :=
  String (hex_digit (code c / 16)) (String (hex_digit (code c mod 16)) "").

(** ** Python values

    The values a todo collection can hold: what [json.load] returns, the
    rows of [csv.DictReader] (whose keys are header strings or [None], the
    reader's [restkey]), and the lines of a text file. *)

Inductive key :=
| KNone
| KStr (s : string).

#[warnings="-register-all"]
Inductive value :=
| VNone
| VBool (b : bool)
| VInt (z : Z)
| VStr (s : string)
| VList (items : list value)
| VDict (d : list (key * value)).

Inductive exn :=
| TypeError
| KeyError
| IndexError
| AttributeError
| ValueError
| FileNotFoundError
| IsADirectoryError
| PermissionError
| JSONDecodeError
| CsvError
| UsageError.

Inductive result (A : Type) :=
| Ok (a : A)
| Raise (e : exn).
Arguments Ok {A} a.
Arguments Raise {A} e.

Definition key_eqb (a b : key) : bool :=
  match a, b with
  | KNone, KNone => true
  | KStr s, KStr t => String.eqb s t
  | _, _ => false
  end.

Definition value_of_key (k : key) : value :=
  match k with
  | KNone => VNone
  | KStr s => VStr s
  end.

(** [d.get(k)] on the association list of a dict. *)
Fixpoint dict_get (d : list (key * value)) (k : key) : option value :=
  match d with
  | [] => None
  | (k', v) :: d' => if key_eqb k' k then Some v else dict_get d' k
  end.

(** [d[k] = v]: an existing key keeps its position. *)
Fixpoint dict_set (d : list (key * value)) (k : key) (v : value) : list (key * value) :=
  match d with
  | [] => [(k, v)]
  | (k', v') :: d' => if key_eqb k' k then (k', v) :: d' else (k', v') :: dict_set d' k v
  end.

(** [dict(pairs)] *)
Definition dict_of_pairs (pairs : list (key * value)) : list (key * value) :=
  fold_left (fun d kv => dict_set d (fst kv) (snd kv)) pairs [].

(** *** [repr] and [str] *)

(** Characters of the Latin-1 range that [str.isprintable] accepts. *)
Definition printable (c : ascii) : bool :=
  let n := code c in
  ((32 <=? n) && (n <? 127) || (161 <=? n) && negb (n =? 173))%N.

Definition repr_char (quote : ascii) (c : ascii) : string :=
  if Ascii.eqb c quote || Ascii.eqb c "\" then String "\" (char c)
  else if Ascii.eqb c TAB then "\t"
  else if Ascii.eqb c LF then "\n"
  else if Ascii.eqb c CR then "\r"
  else if printable c then char c
  else String "\" (String "x" (hex2 c)).

Fixpoint repr_chars (quote : ascii) (s : string) : string :=
  match s with
  | EmptyString => ""
  | String c s' => repr_char quote c ++ repr_chars quote s'
  end.

(** [repr(s)] for a [str]: single quotes unless the text has a single quote
    and no double quote. *)
Definition repr_str (s : string) : string :=
  let quote : ascii :=
    if contains_char "'" s && negb (contains_char DQUOTE s) then DQUOTE else "'"%char in
  String quote (repr_chars quote s ++ char quote).

Definition repr_key (k : key) : string :=
  match k with
  | KNone => "None"
  | KStr s => repr_str s
  end.

Fixpoint repr (v : value) : string :=
  match v with
  | VNone => "None"
  | VBool b => if b then "True" else "False"
  | VInt z => str_of_Z z
  | VStr s => repr_str s
  | VList items => "[" ++ join ", " (List.map repr items) ++ "]"
  | VDict d =>
      "{" ++ join ", " (List.map (fun kv => repr_key (fst kv) ++ ": " ++ repr (snd kv)) d) ++ "}"
  end.

(** [str(v)], which is what an f-string field [{v}] renders. *)
Definition str (v : value) : string :=
  match v with
  | VStr s => s
  | _ => repr v
  end.

(** *** Operations the commands apply to a collection *)

(** [v[k]] for a string subscript [k]. *)
Definition getitem (v : value) (k : string) : result value :=
  match v with
  | VDict d =>
      match dict_get d (KStr k) with
      | Some x => Ok x
      | None => Raise KeyError
      end
  | _ => Raise TypeError
  end.

(** [v == s] where [s] is a [str]. *)
Definition eq_str (v : value) (s : string) : bool :=
  match v with
  | VStr t => String.eqb t s
  | _ => false
  end.

Fixpoint chars_of (s : string) : list value :=
  match s with
  | EmptyString => []
  | String c s' => VStr (char c) :: chars_of s'
  end.

(** The items a [for] loop over [v] visits. *)
Definition iter (v : value) : result (list value) :=
  match v with
  | VList items => Ok items
  | VDict d => Ok (List.map (fun kv => value_of_key (fst kv)) d)
  | VStr s => Ok (chars_of s)
  | _ => Raise TypeError
  end.

(** [len(v)] *)
Definition len (v : value) : result Z :=
  match v with
  | VList items => Ok (Z.of_nat (List.length items))
  | VDict d => Ok (Z.of_nat (List.length d))
  | VStr s => Ok (Z.of_nat (String.length s))
  | _ => Raise TypeError
  end.

(** [v.append(x)] *)
Definition append (v : value) (x : value) : result value :=
  match v with
  | VList items => Ok (VList (items ++ [x]))
  | _ => Raise AttributeError
  end.

(** The list without its element at position [i]. *)
Fixpoint remove_nth (i : nat) (items : list value) : list value :=
  match items, i with
  | [], _ => []
  | _ :: rest, O => rest
  | x :: rest, S i' => x :: remove_nth i' rest
  end.

(** [items.pop(idx)] on a list: a negative index counts from the end, an
    index outside [-n .. n-1] raises [IndexError]. *)
Definition list_pop (items : list value) (idx : Z) : result (list value) :=
  let n := Z.of_nat (List.length items) in
  let i := if idx <? 0 then idx + n else idx in
  if (i <? 0) || (n <=? i) then Raise IndexError
  else Ok (remove_nth (Z.to_nat i) items).

(** [v.pop(idx)] with an [int] argument.  On a dict [pop] takes a key, and
    no key here is an [int]; the other types have no [pop]. *)
Definition pop (v : value) (idx : Z) : result value :=
  match v with
  | VList items =>
      match list_pop items idx with
      | Ok items' => Ok (VList items')
      | Raise e => Raise e
      end
  | VDict _ => Raise KeyError
  | _ => Raise AttributeError
  end.


(** ** The line-oriented text encoding *)

(** The characters [str.splitlines] breaks a line at (those below 256). *)
Definition is_linebreak (c : ascii) : bool :=
  let n := code c in
  ((10 <=? n) && (n <=? 13) || (28 <=? n) && (n <=? 30) || (n =? 133))%N.

(** [s.splitlines()], scanning [s] with the current [line]; a line feed
    right after a carriage return belongs to the same break. *)
Fixpoint splitlines_from (line : string) (after_cr : bool) (s : string) : list string :=
  match s with
  | EmptyString => if String.eqb line "" then [] else [line]
  | String c s' =>
      if after_cr && Ascii.eqb c LF then splitlines_from "" false s'
      else if is_linebreak c then line :: splitlines_from "" (Ascii.eqb c CR) s'
      else splitlines_from (line ++ char c) false s'
  end.

Definition splitlines (s : string) : list string := splitlines_from "" false s.

(** What reading in text mode does to the line ends (universal newlines):
    [\r\n] and a lone [\r] both arrive as [\n]. *)
Fixpoint universal_newlines (after_cr : bool) (s : string) : string :=
  match s with
  | EmptyString => ""
  | String c s' =>
      if Ascii.eqb c CR then String LF (universal_newlines true s')
      else if after_cr && Ascii.eqb c LF then universal_newlines false s'
      else String c (universal_newlines false s')
  end.

(** ** The structured-record encoding: [json] *)

(** [json.encoder.encode_basestring_ascii] *)
Definition json_escape (c : ascii) : string :=
  if Ascii.eqb c "\" then "\\"
  else if Ascii.eqb c DQUOTE then String "\" (char DQUOTE)
  else if Ascii.eqb c BS then "\b"
  else if Ascii.eqb c FF then "\f"
  else if Ascii.eqb c LF then "\n"
  else if Ascii.eqb c CR then "\r"
  else if Ascii.eqb c TAB then "\t"
  else if ((32 <=? code c) && (code c <? 127))%N then char c
  else "\u00" ++ hex2 c.

Fixpoint json_escape_all (s : string) : string :=
  match s with
  | EmptyString => ""
  | String c s' => json_escape c ++ json_escape_all s'
  end.

Definition json_string (s : string) : string :=
  String DQUOTE (json_escape_all s ++ char DQUOTE).

(** A key that is not a [str] is written as its JSON literal. *)
Definition json_key (k : key) : string :=
  match k with
  | KNone => "null"
  | KStr s => s
  end.

Definition newline_indent (level : nat) : string :=
  String LF (spaces (4 * level)).

(** [json.dumps(v, indent=4)], at nesting depth [level]. *)
Fixpoint json_encode (level : nat) (v : value) : string :=
  match v with
  | VNone => "null"
  | VBool b => if b then "true" else "false"
  | VInt z => str_of_Z z
  | VStr s => json_string s
  | VList [] => "[]"
  | VList items =>
      "[" ++ newline_indent (S level)
          ++ join ("," ++ newline_indent (S level)) (List.map (json_encode (S level)) items)
          ++ newline_indent level ++ "]"
  | VDict [] => "{}"
  | VDict d =>
      "{" ++ newline_indent (S level)
          ++ join ("," ++ newline_indent (S level))
               (List.map (fun kv => json_string (json_key (fst kv)) ++ ": "
                                      ++ json_encode (S level) (snd kv)) d)
          ++ newline_indent level ++ "}"
  end.

Definition json_dumps (v : value) : string := json_encode 0 v.

(** *** Decoding *)

Definition is_ws (c : ascii) : bool :=
  Ascii.eqb c " " || Ascii.eqb c TAB || Ascii.eqb c LF || Ascii.eqb c CR.

Fixpoint skip_ws (s : string) : string :=
  match s with
  | EmptyString => ""
  | String c s' => if is_ws c then skip_ws s' else s
  end.

Definition is_digit (c : ascii) : bool := ((48 <=? code c) && (code c <=? 57))%N.

Definition hex_value (c : ascii) : option N :=
  let n := code c in
  if ((48 <=? n) && (n <=? 57))%N then Some (n - 48)%N
  else if ((97 <=? n) && (n <=? 102))%N then Some (n - 87)%N
  else if ((65 <=? n) && (n <=? 70))%N then Some (n - 55)%N
  else None.

(** The character a [\uXXXX] escape denotes, when it is below 256. *)
Definition unicode_escape (h1 h2 h3 h4 : ascii) : option ascii :=
  match hex_value h1, hex_value h2, hex_value h3, hex_value h4 with
  | Some a, Some b, Some c, Some d =>
      if ((a =? 0) && (b =? 0))%N then Some (Ascii.ascii_of_N (16 * c + d)) else None
  | _, _, _, _ => None
  end.

Definition simple_escape (e : ascii) : option ascii :=
  if Ascii.eqb e DQUOTE then Some DQUOTE
  else if Ascii.eqb e "\" then Some "\"%char
  else if Ascii.eqb e "/" then Some "/"%char
  else if Ascii.eqb e "b" then Some BS
  else if Ascii.eqb e "f" then Some FF
  else if Ascii.eqb e "n" then Some LF
  else if Ascii.eqb e "r" then Some CR
  else if Ascii.eqb e "t" then Some TAB
  else None.

Definition cons_char (c : ascii) (r : option (string * string)) : option (string * string) :=
  match r with
  | Some (t, rest) => Some (String c t, rest)
  | None => None
  end.

(** [json.decoder.scanstring] in strict mode, from just after the opening
    quote: the decoded text and what follows the closing quote. *)
Fixpoint scan_string (s : string) : option (string * string) :=
  match s with
  | EmptyString => None
  | String c s' =>
      if Ascii.eqb c DQUOTE then Some ("", s')
      else if Ascii.eqb c "\" then
        match s' with
        | EmptyString => None
        | String e s'' =>
            if Ascii.eqb e "u" then
              match s'' with
              | String h1 (String h2 (String h3 (String h4 s3))) =>
                  match unicode_escape h1 h2 h3 h4 with
                  | Some a => cons_char a (scan_string s3)
                  | None => None
                  end
              | _ => None
              end
            else
              match simple_escape e with
              | Some a => cons_char a (scan_string s'')
              | None => None
              end
        end
      else if (code c <? 32)%N then None
      else cons_char c (scan_string s')
  end.

(** The longest run of decimal digits at the head of [s]. *)
Fixpoint take_digits (s : string) : Decimal.uint * string :=
  match s with
  | EmptyString => (Decimal.Nil, "")
  | String c s' =>
      let (d, rest) := take_digits s' in
      match DecimalString.uint_of_char c (Some d) with
      | Some d' => (d', rest)
      | None => (Decimal.Nil, s)
      end
  end.

(** Whether a fraction or an exponent may start here. *)
Definition float_follows (s : string) : bool :=
  match s with
  | String c _ => Ascii.eqb c "." || Ascii.eqb c "e" || Ascii.eqb c "E"
  | EmptyString => false
  end.

(** An integer literal: an optional minus sign, then a single zero or a
    run of digits that starts with a nonzero digit. *)
Definition scan_digits (negative : bool) (s : string) : option (Z * string) :=
  let finish (n : N) (rest : string) :=
    if float_follows rest then None
    else Some (if negative then - Z.of_N n else Z.of_N n, rest) in
  match s with
  | EmptyString => None
  | String c s' =>
      if Ascii.eqb c "0" then finish 0%N s'
      else if is_digit c then
        let (d, rest) := take_digits s in finish (N.of_uint d) rest
      else None
  end.

Definition scan_int (s : string) : option (Z * string) :=
  match s with
  | EmptyString => None
  | String c s' => if Ascii.eqb c "-" then scan_digits true s' else scan_digits false s
  end.

Fixpoint strip_prefix (p s : string) : option string :=
  match p, s with
  | EmptyString, _ => Some s
  | String a p', String b s' => if Ascii.eqb a b then strip_prefix p' s' else None
  | String _ _, EmptyString => None
  end.

(** The literals [null], [true] and [false], or else an integer. *)
Definition scan_literal (s : string) : option (value * string) :=
  match strip_prefix "null" s with
  | Some rest => Some (VNone, rest)
  | None =>
      match strip_prefix "true" s with
      | Some rest => Some (VBool true, rest)
      | None =>
          match strip_prefix "false" s with
          | Some rest => Some (VBool false, rest)
          | None =>
              match scan_int s with
              | Some (z, rest) => Some (VInt z, rest)
              | None => None
              end
          end
      end
  end.

(** Whether [s] begins with the character [c]. *)
Definition starts_with (c : ascii) (s : string) : bool :=
  match s with
  | String a _ => Ascii.eqb a c
  | EmptyString => false
  end.

Definition tail (s : string) : string :=
  match s with
  | String _ s' => s'
  | EmptyString => ""
  end.

(** [scan_once]: one JSON value at the head of [s], and the rest.
    [scan_items] reads the items of an array up to its closing bracket,
    [scan_members] the members of an object up to its closing brace.
    Each call spends one unit of [fuel]. *)
Fixpoint scan_once (fuel : nat) (s : string) : option (value * string) :=
  match fuel with
  | O => None
  | S fuel' =>
      match s with
      | EmptyString => None
      | String c s' =>
          if Ascii.eqb c DQUOTE then
            match scan_string s' with
            | Some (t, rest) => Some (VStr t, rest)
            | None => None
            end
          else if Ascii.eqb c "{" then
            let s1 := skip_ws s' in
            if starts_with "}" s1 then Some (VDict [], tail s1)
            else
              match scan_members fuel' s1 with
              | Some (pairs, rest) => Some (VDict (dict_of_pairs pairs), rest)
              | None => None
              end
          else if Ascii.eqb c "[" then
            let s1 := skip_ws s' in
            if starts_with "]" s1 then Some (VList [], tail s1)
            else
              match scan_items fuel' s1 with
              | Some (items, rest) => Some (VList items, rest)
              | None => None
              end
          else scan_literal s
      end
  end
with scan_items (fuel : nat) (s : string) : option (list value * string) :=
  match fuel with
  | O => None
  | S fuel' =>
      match scan_once fuel' s with
      | Some (v, rest) =>
          let r := skip_ws rest in
          if starts_with "," r then
            match scan_items fuel' (skip_ws (tail r)) with
            | Some (items, rest') => Some (v :: items, rest')
            | None => None
            end
          else if starts_with "]" r then Some ([v], tail r)
          else None
      | None => None
      end
  end
with scan_members (fuel : nat) (s : string) : option (list (key * value) * string) :=
  match fuel with
  | O => None
  | S fuel' =>
      if starts_with DQUOTE s then
        match scan_string (tail s) with
        | Some (k, rest) =>
            let r := skip_ws rest in
            if starts_with ":" r then
              match scan_once fuel' (skip_ws (tail r)) with
              | Some (v, rest') =>
                  let r' := skip_ws rest' in
                  if starts_with "," r' then
                    match scan_members fuel' (skip_ws (tail r')) with
                    | Some (pairs, rest'') => Some ((KStr k, v) :: pairs, rest'')
                    | None => None
                    end
                  else if starts_with "}" r' then Some ([(KStr k, v)], tail r')
                  else None
              | None => None
              end
            else None
        | None => None
        end
      else None
  end.

(** [json.loads(s)]: one value, with only white space around it. *)
Definition json_loads (s : string) : result value :=
  match scan_once (2 * String.length s + 1) (skip_ws s) with
  | Some (v, rest) =>
      match skip_ws rest with
      | EmptyString => Ok v
      | _ => Raise JSONDecodeError
      end
  | None => Raise JSONDecodeError
  end.

(** ** The tabular encoding: [csv] with the default (excel) dialect *)

Definition fieldnames : list string := ["name"; "description"; "priority"].

(** The text the writer emits for one field value: [None] is empty, a
    [str] is itself, anything else goes through [str()]. *)
Definition csv_text (v : value) : string :=
  match v with
  | VNone => ""
  | _ => str v
  end.

(** A character that forces the field into quotes: the delimiter, the
    quote, or a character of the line terminator. *)
Definition csv_special (c : ascii) : bool :=
  Ascii.eqb c "," || Ascii.eqb c DQUOTE || Ascii.eqb c CR || Ascii.eqb c LF.

Fixpoint double_quotes (s : string) : string :=
  match s with
  | EmptyString => ""
  | String c s' =>
      if Ascii.eqb c DQUOTE then String DQUOTE (String DQUOTE (double_quotes s'))
      else String c (double_quotes s')
  end.

(** One field under [QUOTE_MINIMAL]. *)
Definition csv_field (s : string) : string :=
  if string_forallb (fun c => negb (csv_special c)) s then s
  else String DQUOTE (double_quotes s ++ char DQUOTE).

Definition CRLF : string := String CR (char LF).

(** [writer.writerow(fields)]; a record of one empty field is written as
    a pair of quotes. *)
Definition csv_row (fields : list string) : string :=
  match fields with
  | [EmptyString] => String DQUOTE (char DQUOTE)
  | _ => join "," (List.map csv_field fields)
  end ++ CRLF.

(** [DictWriter._dict_to_list]: a row that is no dict has no [keys]; a key
    outside [fieldnames] is refused; a missing field is written empty. *)
Definition dict_to_list (row : value) : result (list value) :=
  match row with
  | VDict d =>
      if forallb (fun kv => existsb (fun f => key_eqb (fst kv) (KStr f)) fieldnames) d
      then Ok (List.map (fun f => match dict_get d (KStr f) with
                                  | Some v => v
                                  | None => VStr ""
                                  end) fieldnames)
      else Raise ValueError
  | _ => Raise AttributeError
  end.

(** *** Reading *)

(** The lines a file opened with [newline=''] hands to the reader: they
    end at [\n], [\r] or [\r\n] and keep their ends. *)
Fixpoint lines_keepends_from (line : string) (s : string) : list string :=
  match s with
  | EmptyString => if String.eqb line "" then [] else [line]
  | String c s' =>
      if Ascii.eqb c LF then (line ++ char LF) :: lines_keepends_from "" s'
      else if Ascii.eqb c CR then
        match s' with
        | String c' s'' =>
            if Ascii.eqb c' LF then (line ++ CRLF) :: lines_keepends_from "" s''
            else (line ++ char CR) :: lines_keepends_from "" s'
        | EmptyString => [line ++ char CR]
        end
      else lines_keepends_from (line ++ char c) s'
  end.

Definition lines_keepends (s : string) : list string := lines_keepends_from "" s.

(** The states of the reader's automaton (no escape character is set, so
    the escape states are never entered). *)
Inductive reader_state :=
| START_RECORD
| START_FIELD
| IN_FIELD
| IN_QUOTED_FIELD
| QUOTE_IN_QUOTED_FIELD
| EAT_CRNL.

Record parser := {
  state : reader_state;
  field : string;          (* the field being collected *)
  fields : list string     (* the fields of the record so far *)
}.

Definition parse_reset : parser :=
  {| state := START_RECORD; field := ""; fields := [] |}.

Definition parse_save_field (p : parser) (next : reader_state) : parser :=
  {| state := next; field := ""; fields := fields p ++ [field p] |}.

Definition parse_add_char (p : parser) (c : ascii) (next : reader_state) : parser :=
  {| state := next; field := field p ++ char c; fields := fields p |}.

Definition goto (p : parser) (next : reader_state) : parser :=
  {| state := next; field := field p; fields := fields p |}.

Definition is_newline (c : ascii) : bool := Ascii.eqb c LF || Ascii.eqb c CR.

Definition state_eqb (a b : reader_state) : bool :=
  match a, b with
  | START_RECORD, START_RECORD | START_FIELD, START_FIELD | IN_FIELD, IN_FIELD
  | IN_QUOTED_FIELD, IN_QUOTED_FIELD | QUOTE_IN_QUOTED_FIELD, QUOTE_IN_QUOTED_FIELD
  | EAT_CRNL, EAT_CRNL => true
  | _, _ => false
  end.

(** At the start of a field. *)
Definition start_field (p : parser) (c : option ascii) : parser :=
  match c with
  | None => parse_save_field p START_RECORD
  | Some a =>
      if is_newline a then parse_save_field p EAT_CRNL
      else if Ascii.eqb a DQUOTE then goto p IN_QUOTED_FIELD
      else if Ascii.eqb a "," then parse_save_field p START_FIELD
      else parse_add_char p a IN_FIELD
  end.

(** [parse_process_char]; [None] is the end-of-line mark the reader feeds
    after the characters of each line. *)
Definition parse_process_char (p : parser) (c : option ascii) : result parser :=
  match state p with
  | START_RECORD =>
      match c with
      | None => Ok p
      | Some a => if is_newline a then Ok (goto p EAT_CRNL) else Ok (start_field p c)
      end
  | START_FIELD => Ok (start_field p c)
  | IN_FIELD =>
      match c with
      | None => Ok (parse_save_field p START_RECORD)
      | Some a =>
          if is_newline a then Ok (parse_save_field p EAT_CRNL)
          else if Ascii.eqb a "," then Ok (parse_save_field p START_FIELD)
          else Ok (parse_add_char p a IN_FIELD)
      end
  | IN_QUOTED_FIELD =>
      match c with
      | None => Ok p
      | Some a =>
          if Ascii.eqb a DQUOTE then Ok (goto p QUOTE_IN_QUOTED_FIELD)
          else Ok (parse_add_char p a IN_QUOTED_FIELD)
      end
  | QUOTE_IN_QUOTED_FIELD =>
      match c with
      | None => Ok (parse_save_field p START_RECORD)
      | Some a =>
          if Ascii.eqb a DQUOTE then Ok (parse_add_char p a IN_QUOTED_FIELD)
          else if Ascii.eqb a "," then Ok (parse_save_field p START_FIELD)
          else if is_newline a then Ok (parse_save_field p EAT_CRNL)
          else Ok (parse_add_char p a IN_FIELD)
      end
  | EAT_CRNL =>
      match c with
      | None => Ok (goto p START_RECORD)
      | Some a => if is_newline a then Ok p else Raise CsvError
      end
  end.

Fixpoint feed_chars (p : parser) (line : string) : result parser :=
  match line with
  | EmptyString => Ok p
  | String c line' =>
      match parse_process_char p (Some c) with
      | Ok p' => feed_chars p' line'
      | Raise e => Raise e
      end
  end.

(** One line and its end-of-line mark. *)
Definition feed_line (p : parser) (line : string) : result parser :=
  match feed_chars p line with
  | Ok p' => parse_process_char p' None
  | Raise e => Raise e
  end.

(** [list(csv.reader(lines))]: a record is complete when a line leaves the
    automaton in [START_RECORD]; input that ends inside a record yields what
    was collected. *)
Fixpoint read_records (p : parser) (lines : list string) : result (list (list string)) :=
  match lines with
  | [] =>
      if negb (String.eqb (field p) "") || state_eqb (state p) IN_QUOTED_FIELD
      then Ok [fields (parse_save_field p START_RECORD)]
      else Ok []
  | line :: rest =>
      match feed_line p line with
      | Raise e => Raise e
      | Ok p' =>
          if state_eqb (state p') START_RECORD then
            match read_records parse_reset rest with
            | Ok records => Ok (fields p' :: records)
            | Raise e => Raise e
            end
          else read_records p' rest
      end
  end.

Definition csv_reader (text : string) : result (list (list string)) :=
  read_records parse_reset (lines_keepends text).

(** [dict(zip(names, row))] *)
Fixpoint zip_dict (d : list (key * value)) (names row : list string) : list (key * value) :=
  match names, row with
  | n :: names', x :: row' => zip_dict (dict_set d (KStr n) (VStr x)) names' row'
  | _, _ => d
  end.

(** A row of [DictReader]: surplus fields are collected under the key
    [None], missing ones are [None]. *)
Definition row_dict (names row : list string) : value :=
  let d := zip_dict [] names row in
  let lf := List.length names in
  let lr := List.length row in
  if (lf <? lr)%nat then
    VDict (dict_set d KNone (VList (List.map VStr (skipn lf row))))
  else
    VDict (fold_left (fun d n => dict_set d (KStr n) VNone) (skipn lr names) d).

Definition is_blank (row : list string) : bool :=
  match row with
  | [] => true
  | _ => false
  end.

(** [list(csv.DictReader(f))]: the first record names the fields, blank
    records are skipped. *)
Definition dict_reader (text : string) : result (list value) :=
  match csv_reader text with
  | Raise e => Raise e
  | Ok [] => Ok []
  | Ok (names :: rows) =>
      Ok (List.map (row_dict names) (List.filter (fun r => negb (is_blank r)) rows))
  end.

(** *** The reader as one pass over the text

    [run] feeds the automaton character by character and places the
    end-of-line marks itself; [read_records_run] below shows that it computes
    what [read_records] computes on the lines of the text. *)

Inductive line_status :=
| Fresh      (* at the start of a line *)
| Mid        (* inside a line *)
| AfterCR.   (* after a carriage return that may still be followed by a line feed *)

(** The end-of-line mark, then [k] on the automaton that goes on: a
    completed record is emitted and the automaton reset. *)
Definition end_line (p : parser) (k : parser -> result (list (list string)))
    : result (list (list string)) :=
  match parse_process_char p None with
  | Raise e => Raise e
  | Ok p' =>
      if state_eqb (state p') START_RECORD then
        match k parse_reset with
        | Ok records => Ok (fields p' :: records)
        | Raise e => Raise e
        end
      else k p'
  end.

Definition status_after (c : ascii) : line_status :=
  if Ascii.eqb c CR then AfterCR else Mid.

Fixpoint run (p : parser) (st : line_status) (s : string) : result (list (list string)) :=
  match s with
  | EmptyString =>
      match st with
      | Fresh => read_records p []
      | _ => end_line p (fun p' => read_records p' [])
      end
  | String c s' =>
      let step (p0 : parser) :=
        match parse_process_char p0 (Some c) with
        | Raise e => Raise e
        | Ok p1 =>
            if Ascii.eqb c LF then end_line p1 (fun p' => run p' Fresh s')
            else run p1 (status_after c) s'
        end in
      match st with
      | AfterCR => if Ascii.eqb c LF then step p else end_line p step
      | _ => step p
      end
  end.

(** The status of a line of which [line] has been read, when [line] does
    not end in a carriage return. *)
Definition status_of (line : string) : line_status :=
  if String.eqb line "" then Fresh else Mid.

(** The two readers agree on the rest [s] of a text. *)
Definition reads_as_run (s : string) : Prop :=
  forall p0 line p,
    feed_chars p0 line = Ok p ->
    state p <> EAT_CRNL ->
    read_records p0 (lines_keepends_from line s) = run p (status_of line) s.

(** A record of the tabular encoding: the three fields, in the order of
    the header, each a string. *)
Definition record_of (cells : string * string * string) : value :=
  VDict [(KStr "name", VStr (fst (fst cells)));
         (KStr "description", VStr (snd (fst cells)));
         (KStr "priority", VStr (snd cells))].

Definition csv_record (v : value) : bool :=
  match v with
  | VDict [(KStr k1, VStr _); (KStr k2, VStr _); (KStr k3, VStr _)] =>
      String.eqb k1 "name" && String.eqb k2 "description" && String.eqb k3 "priority"
  | _ => false
  end.

Definition cells_of (cells : string * string * string) : list string :=
  [fst (fst cells); snd (fst cells); snd cells].

(** The text of the rows below the header. *)
Fixpoint table_text (rows : list (string * string * string)) : string :=
  match rows with
  | [] => ""
  | r :: rest => csv_row (cells_of r) ++ table_text rest
  end.

(** [Ok (x :: records)] when [r] is [Ok records]. *)
Definition cons_record (x : list string) (r : result (list (list string)))
    : result (list (list string)) :=
  match r with
  | Ok records => Ok (x :: records)
  | Raise e => Raise e
  end.

(** ** The world the commands run in *)

(** What a path holds, as [open] finds it.  A path that the file system
    maps to nothing holds no file, and one can be created there; the empty
    path, at which [open] creates nothing, holds [NoEntry]. *)
Inductive node :=
| File (text : string)       (* a regular file, open to reading and writing *)
| Directory
| ReadOnly (text : string)   (* a regular file that cannot be opened for writing *)
| NoEntry.                   (* no file, and none can be created: the directory
                                of the path is missing, or the path is empty *)

(** A record of the log file.  An [Error] keeps the exception that an
    f-string interpolates after the message. *)
Inductive log_record :=
| Info (message : string)
| Error (message : string) (cause : option exn).

Record World := {
  current_file_path : option string;   (* the module global; [None] at start *)
  fs : gmap string node;               (* the files, by path *)
  log : list log_record;               (* todo_app.log *)
  terminal : list string               (* the lines echoed so far *)
}.

(** The [DEFAULT] section of [config.ini]; an absent key is [None]. *)
Record Config := {
  FileName : option string;
  StorageType : option string
}.

(** *** Computations: a state over [World], with exceptions *)

Definition M (A : Type) : Type := World -> result A * World.

Definition ret {A} (a : A) : M A := fun w => (Ok a, w).

Definition bind {A B} (m : M A) (f : A -> M B) : M B :=
  fun w =>
    match m w with
    | (Ok a, w') => f a w'
    | (Raise e, w') => (Raise e, w')
    end.

Definition raise {A} (e : exn) : M A := fun w => (Raise e, w).

Definition lift {A} (r : result A) : M A := fun w => (r, w).

(** [try: body / except ...: handler] *)
Definition try_except {A} (body : M A) (handler : exn -> M A) : M A :=
  fun w =>
    match body w with
    | (Ok a, w') => (Ok a, w')
    | (Raise e, w') => handler e w'
    end.

Notation "x <- m ;; k" := (bind m (fun x => k))
  (at level 100, m at next level, right associativity).
Notation "m ;;; k" := (bind m (fun _ => k))
  (at level 100, right associativity).

(** A [for] loop that runs [body] on each item in turn. *)
Fixpoint for_each {A} (items : list A) (body : A -> M unit) : M unit :=
  match items with
  | [] => ret tt
  | x :: rest => body x ;;; for_each rest body
  end.

Definition add_log (r : log_record) (w : World) : World :=
  {| current_file_path := current_file_path w; fs := fs w;
     log := log w ++ [r]; terminal := terminal w |}.

Definition add_line (line : string) (w : World) : World :=
  {| current_file_path := current_file_path w; fs := fs w;
     log := log w; terminal := terminal w ++ [line] |}.

Definition set_fs (files : gmap string node) (w : World) : World :=
  {| current_file_path := current_file_path w; fs := files;
     log := log w; terminal := terminal w |}.

Definition logging_info (message : string) : M unit :=
  fun w => (Ok tt, add_log (Info message) w).

Definition logging_error (message : string) (cause : option exn) : M unit :=
  fun w => (Ok tt, add_log (Error message cause) w).

(** [click.echo(line)] *)
Definition echo (line : string) : M unit :=
  fun w => (Ok tt, add_line line w).

(** What [open(path, 'r')] followed by [read()] gives on what the path
    holds. *)
Definition read_node (n : option node) : result string :=
  match n with
  | Some (File text) | Some (ReadOnly text) => Ok text
  | Some Directory => Raise IsADirectoryError
  | Some NoEntry | None => Raise FileNotFoundError
  end.

(** The exception that [open(path, 'w')] raises on what the path holds, if
    any. *)
Definition write_error (n : option node) : option exn :=
  match n with
  | Some Directory => Some IsADirectoryError
  | Some (ReadOnly _) => Some PermissionError
  | Some NoEntry => Some FileNotFoundError
  | Some (File _) | None => None
  end.

(** [open(path, 'r')] followed by [read()], before any newline translation. *)
Definition read_file (path : string) : M string :=
  fun w => (read_node (fs w !! path), w).

(** [open(path, 'w')]: the file is created or emptied. *)
Definition open_write (path : string) : M unit :=
  fun w =>
    match write_error (fs w !! path) with
    | Some e => (Raise e, w)
    | None => (Ok tt, set_fs (<[path := File ""]> (fs w)) w)
    end.

(** [open(path, 'w')] succeeds in [w]. *)
Definition writable (w : World) (path : string) : Prop :=
  write_error (fs w !! path) = None.

(** [f.write(text)] on the file opened at [path]. *)
Definition write (path : string) (text : string) : M unit :=
  fun w =>
    match fs w !! path with
    | Some (File old) => (Ok tt, set_fs (<[path := File (old ++ text)]> (fs w)) w)
    | _ => (Ok tt, w)
    end.

(** ** The program *)

Definition PRIORITIES : list (string * string) :=
  [("o", "Optional"); ("l", "Low"); ("m", "Medium"); ("h", "High"); ("c", "Crucial")].

(** [PRIORITIES[k]] *)
Definition priorities_get (k : string) : result string :=
  match List.find (fun kv => String.eqb (fst kv) k) PRIORITIES with
  | Some kv => Ok (snd kv)
  | None => Raise KeyError
  end.

Definition config_get (entry : option string) : M string :=
  match entry with
  | Some s => ret s
  | None => raise KeyError
  end.

(** [current_file_path if current_file_path else config['DEFAULT']['FileName']] *)
Definition filename_of (cfg : Config) : M string :=
  fun w =>
    match current_file_path w with
    | Some (String c p) => (Ok (String c p), w)
    | _ => config_get (FileName cfg) w
    end.

(** Loads todos from a file based on the specified format (json, csv, or
    txt).  The file name is looked up before the [try]; whatever the body
    raises is logged and the initial [[]] is returned. *)
Definition load_todos (cfg : Config) (format : string) : M value :=
  filename <- filename_of cfg ;;
  try_except
    (if String.eqb format "json" then
       text <- read_file filename ;;
       lift (json_loads (universal_newlines false text))
     else if String.eqb format "csv" then
       text <- read_file filename ;;
       rows <- lift (dict_reader text) ;;
       ret (VList rows)
     else
       text <- read_file filename ;;
       ret (VList (List.map VStr (splitlines (universal_newlines false text)))))
    (fun e =>
       match e with
       | FileNotFoundError =>
           logging_info "No todo file found, starting a new one." ;;;
           ret (VList [])
       | _ =>
           logging_error "Failed to load todos: " (Some e) ;;;
           ret (VList [])
       end).

(** Saves todos to a file based on the specified format (json, csv, or
    txt).  What was written before an exception stays in the file. *)
Definition save_todos (cfg : Config) (todos : value) (format : string) : M unit :=
  filename <- filename_of cfg ;;
  try_except
    (if String.eqb format "json" then
       open_write filename ;;;
       write filename (json_dumps todos)
     else if String.eqb format "csv" then
       open_write filename ;;;
       write filename (csv_row fieldnames) ;;;
       rows <- lift (iter todos) ;;
       for_each rows (fun row =>
         cells <- lift (dict_to_list row) ;;
         write filename (csv_row (List.map csv_text cells)))
     else
       open_write filename ;;;
       items <- lift (iter todos) ;;
       for_each items (fun todo => write filename (str todo ++ char LF)))
    (fun e => logging_error "Failed to save todos: " (Some e)).

(** [signin]; [answer] is what the user types at the prompt. *)
Definition signin (answer : string) : M unit :=
  fun w =>
    logging_info ("File path set to " ++ answer)
      {| current_file_path := Some answer; fs := fs w; log := log w; terminal := terminal w |}.

(** Greets the user by name. *)
Definition hello (name : string) : M unit :=
  echo ("Hello " ++ name ++ "!") ;;;
  logging_info ("Greeted " ++ name).

(** Adds a new todo item with specified details. *)
Definition add_todo (cfg : Config) (name description priority : string) : M unit :=
  format <- config_get (StorageType cfg) ;;
  todos <- load_todos cfg format ;;
  label <- lift (priorities_get priority) ;;
  let new_todo := VDict [(KStr "name", VStr name);
                         (KStr "description", VStr description);
                         (KStr "priority", VStr label)] in
  todos' <- (if String.eqb format "txt" then
               lift (append todos
                       (VStr (name ++ ": " ++ description ++ " [Priority: " ++ label ++ "]")))
             else lift (append todos new_todo)) ;;
  save_todos cfg todos' format ;;;
  logging_info "Added new todo.".

(** Deletes a todo item by its index. *)
Definition delete_todo (cfg : Config) (idx : Z) : M unit :=
  format <- config_get (StorageType cfg) ;;
  todos <- load_todos cfg format ;;
  n <- lift (len todos) ;;
  if idx <? n then
    todos' <- lift (pop todos idx) ;;
    save_todos cfg todos' format ;;;
    logging_info ("Deleted todo at index " ++ str_of_Z idx)
  else
    echo "Invalid todo index." ;;;
    logging_error "Attempt to delete non-existent todo index." None.

(** The truth value of the optional [priority] argument. *)
Definition given (priority : option string) : option string :=
  match priority with
  | Some (String c k) => Some (String c k)
  | _ => None
  end.

(** The list comprehension of [list_todos]. *)
Fixpoint filter_priority (items : list value) (priority : string) : result (list value) :=
  match items with
  | [] => Ok []
  | todo :: rest =>
      match getitem todo "priority" with
      | Raise e => Raise e
      | Ok p =>
          match priorities_get priority with
          | Raise e => Raise e
          | Ok label =>
              match filter_priority rest priority with
              | Raise e => Raise e
              | Ok kept => Ok (if eq_str p label then todo :: kept else kept)
              end
          end
      end
  end.

(** The line [list_todos] echoes for the entry at position [idx]. *)
Definition todo_line (format : string) (idx : nat) (todo : value) : result string :=
  if String.eqb format "txt" then
    Ok ("(" ++ str_of_Z (Z.of_nat idx) ++ ") - " ++ str todo)
  else
    match getitem todo "name" with
    | Raise e => Raise e
    | Ok name =>
        match getitem todo "description" with
        | Raise e => Raise e
        | Ok description =>
            match getitem todo "priority" with
            | Raise e => Raise e
            | Ok priority =>
                Ok ("(" ++ str_of_Z (Z.of_nat idx) ++ ") - " ++ str name ++ ": "
                        ++ str description ++ " [Priority: " ++ str priority ++ "]")
            end
        end
    end.

(** [for idx, todo in enumerate(items)], counting from [idx]. *)
Fixpoint echo_todos (format : string) (idx : nat) (items : list value) : M unit :=
  match items with
  | [] => ret tt
  | todo :: rest =>
      line <- lift (todo_line format idx todo) ;;
      echo line ;;;
      echo_todos format (S idx) rest
  end.

(** Lists all todos or those filtered by priority. *)
Definition list_todos (cfg : Config) (priority : option string) : M unit :=
  format <- config_get (StorageType cfg) ;;
  todos <- load_todos cfg format ;;
  filtered_todos <- match given priority with
                    | Some k =>
                        items <- lift (iter todos) ;;
                        kept <- lift (filter_priority items k) ;;
                        ret (VList kept)
                    | None => ret todos
                    end ;;
  items <- lift (iter filtered_todos) ;;
  echo_todos format 0 items ;;;
  logging_info "Listed todos successfully.".

(** *** The command line

    [click] fills in the default of an omitted argument and refuses a
    priority outside the keys of [PRIORITIES] before the command runs. *)

Definition is_choice (k : string) : bool :=
  existsb (fun kv => String.eqb (fst kv) k) PRIORITIES.

(** The [priority] argument, [default="m"]. *)
Definition priority_argument (priority : option string) : string :=
  match priority with
  | Some k => k
  | None => "m"
  end.

Definition add_todo_cli (cfg : Config) (priority : option string)
    (name description : string) : M unit :=
  let priority := priority_argument priority in
  if is_choice priority then add_todo cfg name description priority
  else raise UsageError.

Definition delete_todo_cli (cfg : Config) (idx : Z) : M unit := delete_todo cfg idx.

Definition list_todos_cli (cfg : Config) (priority : option string) : M unit :=
  match priority with
  | Some k => if is_choice k then list_todos cfg priority else raise UsageError
  | None => list_todos cfg None
  end.

(** One invocation of the program: the command and its arguments. *)
Inductive command :=
| Signin (answer : string)
| Hello (name : string)
| AddTodo (priority : option string) (name description : string)
| DeleteTodo (idx : Z)
| ListTodos (priority : option string).

(** The command group. *)
Definition mycommands (cfg : Config) (c : command) : M unit :=
  match c with
  | Signin answer => signin answer
  | Hello name => hello name
  | AddTodo priority name description => add_todo_cli cfg priority name description
  | DeleteTodo idx => delete_todo_cli cfg idx
  | ListTodos priority => list_todos_cli cfg priority
  end.

(** One run of the program: loading the module sets [current_file_path] to
    [None], then the command group runs the command of the command line.
    The files, the log file and the terminal outlive the run. *)
Definition main (cfg : Config) (c : command) : M unit :=
  fun w =>
    mycommands cfg c
      {| current_file_path := None; fs := fs w; log := log w; terminal := terminal w |}.

(** ** What the storage functions compute

    The text-to-collection and collection-to-text halves of [load_todos]
    and [save_todos], as pure functions; the lemmas [load_todos_eq] and
    [save_todos_eq] below connect them to the monadic definitions. *)

(** What [load_todos] makes of the text of the file. *)
Definition decode (format : string) (text : string) : result value :=
  if String.eqb format "json" then json_loads (universal_newlines false text)
  else if String.eqb format "csv" then
    match dict_reader text with
    | Ok rows => Ok (VList rows)
    | Raise e => Raise e
    end
  else Ok (VList (List.map VStr (splitlines (universal_newlines false text)))).

(** The rows [writerows] gets onto the file before a row is refused. *)
Fixpoint csv_rows_text (rows : list value) : string * option exn :=
  match rows with
  | [] => ("", None)
  | row :: rest =>
      match dict_to_list row with
      | Raise e => ("", Some e)
      | Ok cells =>
          let (text, e) := csv_rows_text rest in
          (csv_row (List.map csv_text cells) ++ text, e)
      end
  end.

(** The lines the text branch of [save_todos] writes. *)
Fixpoint lines_text (items : list value) : string :=
  match items with
  | [] => ""
  | todo :: rest => (str todo ++ char LF) ++ lines_text rest
  end.

(** The text [save_todos] leaves in the file, and the exception that cut
    the writing short, if any. *)
Definition encode (format : string) (todos : value) : string * option exn :=
  if String.eqb format "json" then (json_dumps todos, None)
  else if String.eqb format "csv" then
    match iter todos with
    | Raise e => (csv_row fieldnames, Some e)
    | Ok rows =>
        let (text, e) := csv_rows_text rows in
        (csv_row fieldnames ++ text, e)
    end
  else
    match iter todos with
    | Raise e => ("", Some e)
    | Ok items => (lines_text items, None)
    end.

(** The world after a save attempt failed with [e]: the failure is logged. *)
Definition log_failure (message : string) (e : option exn) (w : World) : World :=
  match e with
  | Some x => add_log (Error message (Some x)) w
  | None => w
  end.

(** ** Vocabulary of the statements *)

(** The entry [add_todo] appends: a line of text in the line-oriented
    encoding, a record otherwise. *)
Definition new_entry (format name description label : string) : value :=
  if String.eqb format "txt" then
    VStr (name ++ ": " ++ description ++ " [Priority: " ++ label ++ "]")
  else
    VDict [(KStr "name", VStr name);
           (KStr "description", VStr description);
           (KStr "priority", VStr label)].

Definition has_field (todo : value) (f : string) : bool :=
  match getitem todo f with
  | Ok _ => true
  | Raise _ => false
  end.

(** An entry of the data model: a mapping with the three fields. *)
Definition is_record (todo : value) : bool :=
  has_field todo "name" && has_field todo "description" && has_field todo "priority".

(** Whether the priority of [todo] is the display name [label]. *)
Definition has_priority (label : string) (todo : value) : bool :=
  match getitem todo "priority" with
  | Ok p => eq_str p label
  | Raise _ => false
  end.

Definition field_text (todo : value) (f : string) : string :=
  match getitem todo f with
  | Ok v => str v
  | Raise _ => ""
  end.

(** The line that shows the record [todo] under the index [idx]. *)
Definition record_line (idx : nat) (todo : value) : string :=
  "(" ++ str_of_Z (Z.of_nat idx) ++ ") - " ++ field_text todo "name" ++ ": "
      ++ field_text todo "description" ++ " [Priority: " ++ field_text todo "priority" ++ "]".

(** The lines that show [items], numbered from [idx]. *)
Fixpoint record_lines (idx : nat) (items : list value) : list string :=
  match items with
  | [] => []
  | todo :: rest => record_line idx todo :: record_lines (S idx) rest
  end.

(** The world after the lines have been echoed. *)
Definition add_lines (lines : list string) (w : World) : World :=
  {| current_file_path := current_file_path w; fs := fs w;
     log := log w; terminal := (terminal w ++ lines)%list |}.

(** No key occurs twice in the association list of a dict. *)
Fixpoint unique_keys (d : list (key * value)) : bool :=
  match d with
  | [] => true
  | kv :: d' => negb (existsb (fun kv' => key_eqb (fst kv') (fst kv)) d') && unique_keys d'
  end.

Definition is_str_key (k : key) : bool :=
  match k with
  | KStr _ => true
  | KNone => false
  end.

(** A value as [json.load] builds them: every dict has distinct keys, all
    of them strings. *)
Fixpoint json_clean (v : value) : bool :=
  match v with
  | VList items => forallb json_clean items
  | VDict d =>
      forallb (fun kv => is_str_key (fst kv) && json_clean (snd kv)) d && unique_keys d
  | _ => true
  end.


(** Text after which an integer literal ends: nothing, or a character that
    is no digit and starts no fraction or exponent. *)
Definition ends_number (rest : string) : bool :=
  match rest with
  | EmptyString => true
  | String c _ => negb (is_digit c) && negb (float_follows rest)
  end.

(** A character an integer literal can begin with. *)
Definition number_start (c : ascii) : bool := is_digit c || Ascii.eqb c "-".

(** The text of one member of an object at depth [level]. *)
Definition json_member (level : nat) (kv : key * value) : string :=
  json_string (json_key (fst kv)) ++ ": " ++ json_encode level (snd kv).

(** The separator between the items of an array or object at depth [level]. *)
Definition item_separator (level : nat) : string := "," ++ newline_indent level.

(** [v] is read back from its text at any depth, before any rest, given
    fuel for its length. *)
Definition scans_back (v : value) : Prop :=
  forall level rest fuel,
    json_clean v = true ->
    ends_number rest = true ->
    (String.length (json_encode level v) <= fuel)%nat ->
    scan_once fuel (json_encode level v ++ rest) = Some (v, rest).

(** A string with no carriage return. *)
Definition no_cr (s : string) : bool :=
  string_forallb (fun c => negb (Ascii.eqb c CR)) s.

(** A member of a clean dict: a string key and a clean value. *)
Definition clean_member (kv : key * value) : bool :=
  is_str_key (fst kv) && json_clean (snd kv).

(** A string with no character that [splitlines] breaks at. *)
Definition no_break (s : string) : bool :=
  string_forallb (fun c => negb (is_linebreak c)) s.

(** A character other than the break characters that are not the line
    feed: carriage return, vertical tab, form feed, the three separators
    and next-line. *)
Definition no_hard_break (c : ascii) : bool :=
  negb (is_linebreak c) || Ascii.eqb c LF.

(** A string entry whose only break characters are line feeds. *)
Definition soft_line (v : value) : bool :=
  match v with
  | VStr s => string_forallb no_hard_break s
  | _ => false
  end.

(** The collections each encoding is meant to hold: clean JSON values;
    lists of three-field records of strings; lists of strings with no break
    character but the line feed. *)
Definition storable (format : string) (todos : value) : bool :=
  if String.eqb format "json" then json_clean todos
  else if String.eqb format "csv" then
    match todos with
    | VList items => forallb csv_record items
    | _ => false
    end
  else
    match todos with
    | VList items => forallb soft_line items
    | _ => false
    end.

(** A string entry with no break character. *)
Definition one_line (v : value) : bool :=
  match v with
  | VStr s => no_break s
  | _ => false
  end.

(** The entries that a save followed by a load returns as they were. *)
Definition reloadable (format : string) (items : list value) : bool :=
  if String.eqb format "json" then forallb json_clean items
  else if String.eqb format "csv" then forallb csv_record items
  else forallb one_line items.

(** *** What the encodings store *)

(** A row whose keys are all among the field names: [DictWriter] accepts
    it. *)
Definition csv_accepted (row : value) : bool :=
  match dict_to_list row with
  | Ok _ => true
  | Raise _ => false
  end.

(** The three cells [DictWriter] writes for a row it accepts. *)
Definition csv_cells (row : value) : string * string * string :=
  match dict_to_list row with
  | Ok [a; b; c] => (csv_text a, csv_text b, csv_text c)
  | _ => ("", "", "")
  end.

(** An entry as the next load returns it.  In the tabular encoding a row
    comes back as the record of the three cells that were written: a missing
    field as the empty text, a value as its text, the fields in the order of
    the header.  In the other encodings a loaded entry comes back as it
    is. *)
Definition reread (format : string) (todo : value) : value :=
  if String.eqb format "csv" then record_of (csv_cells todo) else todo.

(** The loaded entries that [save_todos] writes whole: any clean JSON
    value; a row that [DictWriter] accepts; a line of text. *)
Definition savable (format : string) (items : list value) : bool :=
  if String.eqb format "json" then forallb json_clean items
  else if String.eqb format "csv" then forallb csv_accepted items
  else forallb one_line items.

(** The key [json.load] returns for what [json.dump] wrote for [k]. *)
Definition key_reread (k : key) : key := KStr (json_key k).

(** A value as [json.load] returns it from the text [json.dump] wrote:
    every key is the string that was written for it. *)
Fixpoint json_reread (v : value) : value :=
  match v with
  | VList items => VList (List.map json_reread items)
  | VDict d => VDict (List.map (fun kv => (key_reread (fst kv), json_reread (snd kv))) d)
  | _ => v
  end.

(** No two keys of a mapping are written as the same JSON key, at any
    depth. *)
Fixpoint json_distinct (v : value) : bool :=
  match v with
  | VList items => forallb json_distinct items
  | VDict d =>
      forallb (fun kv => json_distinct (snd kv)) d
      && unique_keys (List.map (fun kv => (key_reread (fst kv), snd kv)) d)
  | _ => true
  end.

(** The nesting depth of a value. *)
Fixpoint depth (v : value) : nat :=
  match v with
  | VList items => S (list_max (List.map depth items))
  | VDict d => S (list_max (List.map (fun kv => depth (snd kv)) d))
  | _ => O
  end.

(** Every [int] has at most 4300 digits, which is as far as the interpreter
    converts between [int] and text. *)
Fixpoint ints_within (v : value) : bool :=
  match v with
  | VInt z => Z.abs z <? 10 ^ 4300
  | VList items => forallb ints_within items
  | VDict d => forallb (fun kv => ints_within (snd kv)) d
  | _ => true
  end.

(** A value well inside the limits of the interpreter, which the model of
    [json] does not have: the digits of an [int], and nesting far below the
    recursion limit of 1000. *)
Definition within_limits (v : value) : bool :=
  ints_within v && (depth v <=? 100)%nat.

(** An entry whose text has no break character but the line feed. *)
Definition soft_entry (v : value) : bool := string_forallb no_hard_break (str v).

(** [csv.field_size_limit()]: the longest field the reader takes. *)
Definition field_limit : N := 131072.

(** A row whose cells the reader takes: none is longer than the limit, which
    the model of [csv] does not have. *)
Definition cells_within (row : value) : bool :=
  let within (cell : string) := (N.of_nat (String.length cell) <=? field_limit)%N in
  let '(a, b, c) := csv_cells row in
  within a && within b && within c.

(** The collections for which saving, loading and saving again writes the
    text of the first save: in the structured-record encoding, those with
    no two keys written alike, within the limits; in the tabular encoding,
    those with no cell beyond the limit of the reader; in the line-oriented
    encoding, those whose entries have no break character but the line
    feed. *)
Definition resaved_alike (format : string) (todos : value) : bool :=
  if String.eqb format "json" then json_distinct todos && within_limits todos
  else if String.eqb format "csv" then
    match iter todos with
    | Ok items => forallb cells_within items
    | Raise _ => true
    end
  else
    match iter todos with
    | Ok items => forallb soft_entry items
    | Raise _ => true
    end.

(** [sub] occurs in [s]. *)
Fixpoint occurs (sub s : string) : bool :=
  String.prefix sub s
  || match s with
     | EmptyString => false
     | String _ s' => occurs sub s'
     end.

(** A digit directly followed by [.], [e] or [E] occurs in [s]: every JSON
    number with a fraction or an exponent has one. *)
Fixpoint float_like (s : string) : bool :=
  match s with
  | String c s' => (is_digit c && float_follows s') || float_like s'
  | EmptyString => false
  end.

(** A [\u] that is not the start of an escape below [\u0100] occurs in
    [s]. *)
Fixpoint wide_escape (s : string) : bool :=
  match s with
  | String c s' =>
      (Ascii.eqb c "\" && String.prefix "u" s' && negb (String.prefix "u00" s'))
      || wide_escape s'
  | EmptyString => false
  end.

(** The length of the longest run of digits in [s], [run] digits having
    just been read. *)
Fixpoint longest_digits (run : N) (s : string) : N :=
  match s with
  | String c s' =>
      if is_digit c then longest_digits (N.succ run) s'
      else N.max run (longest_digits 0%N s')
  | EmptyString => run
  end.

(** The deepest nesting of brackets and braces outside string literals that
    a reader of [s] from the left meets, [d] being open. *)
Fixpoint deepest (in_string escaped : bool) (d : N) (s : string) : N :=
  match s with
  | String c s' =>
      N.max d
        (if in_string then
           if escaped then deepest true false d s'
           else if Ascii.eqb c "\" then deepest true true d s'
           else if Ascii.eqb c DQUOTE then deepest false false d s'
           else deepest true false d s'
         else if Ascii.eqb c DQUOTE then deepest true false d s'
         else if Ascii.eqb c "[" || Ascii.eqb c "{" then deepest false false (N.succ d) s'
         else if Ascii.eqb c "]" || Ascii.eqb c "}" then deepest false false (N.pred d) s'
         else deepest false false d s')
  | EmptyString => d
  end.

(** Texts on which the modelled decoders are the real ones.  A JSON text
    with none of the constructs the model leaves out (no number with a
    fraction or an exponent, no [NaN] or [Infinity], no [\u] escape of
    [\u0100] or above) and well inside the limits of the interpreter (no
    more than 4300 digits in a row, nesting of at most 100). *)
Definition in_fragment (format : string) (text : string) : bool :=
  if String.eqb format "json" then
    negb (float_like text) && negb (occurs "NaN" text)
    && negb (occurs "Infinity" text) && negb (wide_escape text)
    && (longest_digits 0 text <=? 4300)%N && (deepest false false 0 text <=? 100)%N
  else true.

(** *** What a computation leaves alone *)

(** [m] takes every world to one that [R] relates to it. *)
Definition preserves {A} (R : World -> World -> Prop) (m : M A) : Prop :=
  forall w, R w (snd (m w)).

(** The files and the signed-in path are as before. *)
Definition files_kept (w w' : World) : Prop :=
  fs w' = fs w /\ current_file_path w' = current_file_path w.

(** The signed-in path is as before, and so is every file but the one the
    file name resolves to. *)
Definition others_kept (cfg : Config) (w w' : World) : Prop :=
  current_file_path w' = current_file_path w
  /\ forall p, fst (filename_of cfg w) <> Ok p -> fs w' !! p = fs w !! p.

(** Two worlds with the same files and the same signed-in path. *)
Definition same_store (w w' : World) : Prop :=
  current_file_path w = current_file_path w' /\ fs w = fs w'.

(** The result of [m] and the store it leaves depend on the store alone,
    not on the log or the terminal. *)
Definition respects {A} (m : M A) : Prop :=
  forall w w', same_store w w' ->
    fst (m w) = fst (m w') /\ same_store (snd (m w)) (snd (m w')).

(** *** Sample worlds *)

Definition sample_cfg (format : string) : Config :=
  {| FileName := Some "todos"; StorageType := Some format |}.

(** A world whose only file is the configured one, holding [text]. *)
Definition sample_world (text : string) : World :=
  {| current_file_path := None; fs := {[ "todos" := File text ]};
     log := []; terminal := [] |}.

(** A world with no file at all. *)
Definition empty_world : World :=
  {| current_file_path := None; fs := ∅; log := []; terminal := [] |}.

(** Three records, of priorities Low, High and High. *)
Definition sample_records : list value :=
  [new_entry "json" "A" "first" "Low";
   new_entry "json" "B" "second" "High";
   new_entry "json" "C" "third" "High"].

(** One entry with a carriage return inside. *)
Definition cr_entry : value := VList [VStr ("a" ++ char CR ++ "b")].


Definition three_lines : string :=
  "a" ++ char LF ++ "b" ++ char LF ++ "c" ++ char LF.

(** A world where the configured path is a directory. *)
Definition directory_world : World :=
  {| current_file_path := None; fs := {[ "todos" := Directory ]}; log := []; terminal := [] |}.

(** A world with a second file, and with records in the log and on the
    terminal. *)
Definition busy_world (text : string) : World :=
  {| current_file_path := None;
     fs := <[ "notes" := File "n" ]> {[ "todos" := File text ]};
     log := [Info "Added new todo."]; terminal := ["(0) - a"] |}.

(** A row that [DictReader] built from a line of four fields. *)
Definition wide_row : value := row_dict fieldnames ["x"; "y"; "z"; "u"].

(** A record, an entry with a name only, and a record. *)
Definition partial_records : list value :=
  [new_entry "json" "A" "first" "Low";
   VDict [(KStr "name", VStr "B")];
   new_entry "json" "C" "third" "High"].

(** A world where no file can be created at the configured path. *)
Definition no_entry_world : World :=
  {| current_file_path := None; fs := {[ "todos" := NoEntry ]}; log := []; terminal := [] |}.

(** A world with no directory [nodir]: no file can be created at
    [nodir/mine]. *)
Definition missing_directory_world : World :=
  {| current_file_path := None; fs := {[ "nodir/mine" := NoEntry ]};
     log := []; terminal := [] |}.

(** A world whose file cannot be opened for writing. *)
Definition read_only_world (text : string) : World :=
  {| current_file_path := None; fs := {[ "todos" := ReadOnly text ]};
     log := []; terminal := [] |}.

(** A table whose first row has a fourth field. *)
Definition wide_table : string :=
  csv_row fieldnames ++ csv_row ["a"; "b"; "c"; "d"] ++ csv_row ["e"; "f"; "g"].



(** A configuration with no entry, as when [config.ini] is missing. *)
Definition no_config : Config := {| FileName := None; StorageType := None |}.

(** * Properties *)

(** Case analysis on the 256 characters. *)
Ltac each_char c := destruct c as [[] [] [] [] [] [] [] []].

(** ** The monad and the world *)

Lemma bind_ok {A B} (m : M A) (f : A -> M B) w a w' :
  m w = (Ok a, w') -> bind m f w = f a w'.
Proof. intros H. unfold bind. now rewrite H. Qed.

Lemma bind_raise {A B} (m : M A) (f : A -> M B) w e w' :
  m w = (Raise e, w') -> bind m f w = (Raise e, w').
Proof. intros H. unfold bind. now rewrite H. Qed.

Lemma filename_of_stable cfg w w' path :
  filename_of cfg w = (Ok path, w) ->
  current_file_path w' = current_file_path w ->
  filename_of cfg w' = (Ok path, w').
Proof.
  unfold filename_of, config_get. intros H Hp. rewrite Hp.
  destruct (current_file_path w) as [[|c p]|]; destruct (FileName cfg);
    unfold ret, raise in *; congruence.
Qed.

Lemma json_loads_raises text e : json_loads text = Raise e -> e = JSONDecodeError.
Proof.
  unfold json_loads. destruct (scan_once _ _) as [[v rest]|]; [|congruence].
  destruct (skip_ws rest); congruence.
Qed.

Lemma feed_chars_raises line : forall p e, feed_chars p line = Raise e -> e = CsvError.
Proof.
  induction line as [|c line IH]; intros p e; simpl; [congruence|].
  destruct (parse_process_char p (Some c)) as [p'|e'] eqn:E; [apply IH|].
  intros [= <-]. unfold parse_process_char in E.
  destruct (state p); simpl in E;
    repeat match type of E with
           | context [if ?b then _ else _] => destruct b
           end; congruence.
Qed.

Lemma feed_line_raises p line e : feed_line p line = Raise e -> e = CsvError.
Proof.
  unfold feed_line. destruct (feed_chars p line) as [p'|e'] eqn:E.
  - unfold parse_process_char. destruct (state p'); congruence.
  - intros [= <-]. eapply feed_chars_raises, E.
Qed.

Lemma read_records_raises lines : forall p e, read_records p lines = Raise e -> e = CsvError.
Proof.
  induction lines as [|l lines IH]; intros p e; simpl.
  - destruct (_ || _); congruence.
  - destruct (feed_line p l) as [p'|e'] eqn:E.
    + destruct (state_eqb _ _); [|apply IH].
      destruct (read_records parse_reset lines) eqn:E'; [congruence|].
      intros [= <-]. eapply IH, E'.
    + intros [= <-]. eapply feed_line_raises, E.
Qed.

Lemma dict_reader_raises text e : dict_reader text = Raise e -> e = CsvError.
Proof.
  unfold dict_reader, csv_reader.
  destruct (read_records _ _) as [[|names rows]|e'] eqn:E; try congruence.
  intros [= <-]. eapply read_records_raises, E.
Qed.

Lemma decode_raises format text e :
  decode format text = Raise e -> e = JSONDecodeError \/ e = CsvError.
Proof.
  unfold decode. destruct (String.eqb format "json").
  - intros H. left. eapply json_loads_raises, H.
  - destruct (String.eqb format "csv"); [|congruence].
    destruct (dict_reader text) eqn:E; [congruence|].
    intros [= <-]. right. eapply dict_reader_raises, E.
Qed.

(** [load_todos] in one equation: the file is absent, a directory, or a
    text that [decode] accepts or refuses. *)
Lemma load_todos_eq cfg format w path :
  filename_of cfg w = (Ok path, w) ->
  load_todos cfg format w =
    match read_node (fs w !! path) with
    | Raise FileNotFoundError =>
        (Ok (VList []), add_log (Info "No todo file found, starting a new one.") w)
    | Raise e => (Ok (VList []), add_log (Error "Failed to load todos: " (Some e)) w)
    | Ok text =>
        match decode format text with
        | Ok v => (Ok v, w)
        | Raise e => (Ok (VList []), add_log (Error "Failed to load todos: " (Some e)) w)
        end
    end.
Proof.
  intros Hf. unfold load_todos. rewrite (bind_ok _ _ _ _ _ Hf).
  unfold try_except, decode.
  destruct (String.eqb format "json") eqn:Ej; [|destruct (String.eqb format "csv") eqn:Ec];
    unfold bind at 1, read_file;
    destruct (read_node (fs w !! path)) as [text|[]] eqn:El; try reflexivity.
  - unfold lift. destruct (json_loads _) as [v|e] eqn:E; [reflexivity|].
    apply json_loads_raises in E. subst. reflexivity.
  - unfold bind, lift, ret. destruct (dict_reader text) as [v|e] eqn:E; [reflexivity|].
    apply dict_reader_raises in E. subst. reflexivity.
Qed.

(** [load_todos] on a regular file whose text is decoded. *)
Lemma load_todos_file cfg format w path text v :
  filename_of cfg w = (Ok path, w) ->
  fs w !! path = Some (File text) ->
  decode format text = Ok v ->
  load_todos cfg format w = (Ok v, w).
Proof. intros Hf Hfile Hd. now rewrite (load_todos_eq _ _ _ _ Hf), Hfile; cbn [read_node]; rewrite Hd. Qed.

(** ** Strings *)

Lemma append_nil_r (s : string) : s ++ "" = s.
Proof. induction s; simpl; congruence. Qed.

Lemma append_assoc (a b c : string) : (a ++ b) ++ c = a ++ (b ++ c).
Proof. induction a; simpl; congruence. Qed.

Lemma append_length (a b : string) :
  String.length (a ++ b) = (String.length a + String.length b)%nat.
Proof. induction a; simpl; congruence. Qed.

(** ** Writing the file *)

Lemma set_fs_set_fs f g w : set_fs f (set_fs g w) = set_fs f w.
Proof. reflexivity. Qed.

Lemma write_opened path old text files w :
  write path text (set_fs (<[path := File old]> files) w)
  = (Ok tt, set_fs (<[path := File (old ++ text)]> files) w).
Proof.
  unfold write. simpl. rewrite lookup_insert_eq, insert_insert_eq. reflexivity.
Qed.

Lemma open_write_ok path w :
  writable w path ->
  open_write path w = (Ok tt, set_fs (<[path := File ""]> (fs w)) w).
Proof. unfold open_write, writable. now intros ->. Qed.

Lemma open_write_refused path w e :
  write_error (fs w !! path) = Some e -> open_write path w = (Raise e, w).
Proof. unfold open_write. now intros ->. Qed.

Lemma write_rows path rows : forall old files w,
  for_each rows (fun row =>
      cells <- lift (dict_to_list row) ;;
      write path (csv_row (List.map csv_text cells)))
    (set_fs (<[path := File old]> files) w)
  = (match snd (csv_rows_text rows) with
     | None => Ok tt
     | Some e => Raise e
     end,
     set_fs (<[path := File (old ++ fst (csv_rows_text rows))]> files) w).
Proof.
  induction rows as [|row rows IH]; intros old files w; simpl.
  - now rewrite append_nil_r.
  - unfold bind at 1. unfold bind at 1. unfold lift at 1.
    destruct (dict_to_list row) as [cells|e]; simpl.
    + rewrite write_opened, IH.
      destruct (csv_rows_text rows) as [text e]. simpl. now rewrite append_assoc.
    + now rewrite append_nil_r.
Qed.

Lemma write_lines path items : forall old files w,
  for_each items (fun todo => write path (str todo ++ char LF))
    (set_fs (<[path := File old]> files) w)
  = (Ok tt, set_fs (<[path := File (old ++ lines_text items)]> files) w).
Proof.
  induction items as [|todo items IH]; intros old files w; simpl.
  - now rewrite append_nil_r.
  - unfold bind at 1. rewrite write_opened, IH. now rewrite append_assoc.
Qed.

(** [save_todos] in one equation: when the file cannot be opened for
    writing the refusal is logged; otherwise the file holds what [encode]
    produced, and an exception that cut the writing short is logged. *)
Lemma save_todos_eq cfg todos format w path :
  filename_of cfg w = (Ok path, w) ->
  save_todos cfg todos format w =
    match write_error (fs w !! path) with
    | Some e => (Ok tt, add_log (Error "Failed to save todos: " (Some e)) w)
    | None =>
        (Ok tt, log_failure "Failed to save todos: " (snd (encode format todos))
                  (set_fs (<[path := File (fst (encode format todos))]> (fs w)) w))
    end.
Proof.
  intros Hf. unfold save_todos. rewrite (bind_ok _ _ _ _ _ Hf).
  unfold try_except, encode.
  destruct (write_error (fs w !! path)) as [e|] eqn:El.
  { assert (Ho := open_write_refused _ _ _ El).
    destruct (String.eqb format "json"); [|destruct (String.eqb format "csv")];
      rewrite (bind_raise _ _ _ _ _ Ho); reflexivity. }
  assert (Ho := open_write_ok _ _ El).
  destruct (String.eqb format "json"); [|destruct (String.eqb format "csv")];
    rewrite (bind_ok _ _ _ _ _ Ho).
  - rewrite write_opened. reflexivity.
  - unfold bind at 1. rewrite write_opened. unfold bind at 1, lift at 1.
    destruct (iter todos) as [rows|e]; [|reflexivity].
    rewrite write_rows. destruct (csv_rows_text rows) as [text [e|]]; reflexivity.
  - unfold bind at 1, lift at 1. destruct (iter todos) as [items|e]; [|reflexivity].
    rewrite write_lines. reflexivity.
Qed.

(** What [save_todos] leaves when the file can be written. *)
Lemma save_todos_written cfg todos format w path :
  filename_of cfg w = (Ok path, w) ->
  writable w path ->
  save_todos cfg todos format w
  = (Ok tt, log_failure "Failed to save todos: " (snd (encode format todos))
              (set_fs (<[path := File (fst (encode format todos))]> (fs w)) w)).
Proof. intros Hf Hw. rewrite (save_todos_eq _ _ _ _ _ Hf). unfold writable in Hw. now rewrite Hw. Qed.

(** ** Loading *)

Lemma filename_of_world cfg w r w' : filename_of cfg w = (r, w') -> w' = w.
Proof.
  unfold filename_of, config_get, ret, raise.
  destruct (current_file_path w) as [[|c p]|]; destruct (FileName cfg); congruence.
Qed.

(** A load that returns went through a resolved path, and touches nothing
    but the log. *)
Lemma load_todos_inv cfg format w v w1 :
  load_todos cfg format w = (Ok v, w1) ->
  exists path,
    filename_of cfg w = (Ok path, w)
    /\ fs w1 = fs w /\ current_file_path w1 = current_file_path w
    /\ terminal w1 = terminal w.
Proof.
  intros H. destruct (filename_of cfg w) as [[path|e] w'] eqn:Hf.
  - pose proof (filename_of_world _ _ _ _ Hf) as ->. exists path. split; [reflexivity|].
    rewrite (load_todos_eq _ _ _ _ Hf) in H.
    destruct (read_node (fs w !! path)) as [text|[]]; [destruct (decode format text)|..];
      injection H as _ <-; auto.
  - unfold load_todos in H. rewrite (bind_raise _ _ _ _ _ Hf) in H. discriminate.
Qed.

(** A load that returns entries read them from a file; the world is as
    before. *)
Lemma load_todos_entries cfg format w v w1 :
  load_todos cfg format w = (Ok v, w1) ->
  v <> VList [] ->
  w1 = w /\ exists path text,
    filename_of cfg w = (Ok path, w) /\ read_node (fs w !! path) = Ok text
    /\ decode format text = Ok v.
Proof.
  intros H Hne. destruct (load_todos_inv _ _ _ _ _ H) as (path & Hf & _).
  rewrite (load_todos_eq _ _ _ _ Hf) in H.
  destruct (read_node (fs w !! path)) as [text|[]] eqn:El; [|congruence..].
  destruct (decode format text) as [v'|e] eqn:Ed; [|congruence].
  injection H as -> ->. split; [reflexivity|]. eauto.
Qed.

(** ** Deleting *)

Lemma remove_nth_length i : forall items,
  (i < List.length items)%nat ->
  List.length (remove_nth i items) = (List.length items - 1)%nat.
Proof.
  induction i as [|i IH]; intros [|x items] Hi; simpl in *; try lia.
  rewrite IH by lia. lia.
Qed.

Lemma remove_nth_split i : forall items,
  remove_nth i items = (firstn i items ++ skipn (S i) items)%list.
Proof.
  induction i as [|i IH]; intros [|x items]; simpl; try reflexivity.
  now rewrite IH.
Qed.

Section Deleting.

(** The setting of the claims on [delete_todo]: the configured format, and
    the collection [items] that the command's [load_todos] returns. *)
Variables (cfg : Config) (format : string) (w w1 : World) (items : list value).
Hypothesis configured : StorageType cfg = Some format.
Hypothesis loaded : load_todos cfg format w = (Ok (VList items), w1).

(** The steps of [delete_todo] up to the bounds check. *)
Lemma delete_todo_loaded idx :
  delete_todo cfg idx w =
    (if idx <? Z.of_nat (List.length items) then
       todos' <- lift (pop (VList items) idx) ;;
       save_todos cfg todos' format ;;;
       logging_info ("Deleted todo at index " ++ str_of_Z idx)
     else
       echo "Invalid todo index." ;;;
       logging_error "Attempt to delete non-existent todo index." None) w1.
Proof.
  unfold delete_todo. rewrite configured. unfold config_get.
  unfold bind at 1. unfold ret at 1. cbv beta iota.
  rewrite (bind_ok _ _ _ _ _ loaded). reflexivity.
Qed.

(** [delete_todo] once [pop] has returned [kept]. *)
Lemma delete_todo_popped kept idx :
  (idx <? Z.of_nat (List.length items)) = true ->
  list_pop items idx = Ok kept ->
  delete_todo cfg idx w =
    (save_todos cfg (VList kept) format ;;;
     logging_info ("Deleted todo at index " ++ str_of_Z idx)) w1.
Proof.
  intros Hlt Hp. rewrite delete_todo_loaded, Hlt.
  unfold bind at 1, lift at 1. simpl. now rewrite Hp.
Qed.

(** C10: for a loaded collection of [n] entries and an index [idx < -n],
    [delete_todo] passes the check [idx < n], [pop] raises [IndexError], and
    the command ends with that exception: nothing is saved, nothing echoed. *)
Theorem delete_todo_index_error idx :
  idx < - Z.of_nat (List.length items) ->
  delete_todo cfg idx w = (Raise IndexError, w1)
  /\ fs w1 = fs w /\ terminal w1 = terminal w.
Proof.
  intros Hi. split.
  - rewrite delete_todo_loaded.
    replace (idx <? Z.of_nat (List.length items)) with true
      by (symmetry; apply Z.ltb_lt; lia).
    unfold bind at 1, lift at 1, pop, list_pop.
    replace (idx <? 0) with true by (symmetry; apply Z.ltb_lt; lia).
    replace (idx + Z.of_nat (List.length items) <? 0) with true
      by (symmetry; apply Z.ltb_lt; lia).
    reflexivity.
  - destruct (load_todos_inv _ _ _ _ _ loaded) as (path & _ & Hfs & _ & Ht). auto.
Qed.

(** X1: for a loaded collection of [n] entries and an index [idx >= n],
    [delete_todo] saves nothing: it echoes [Invalid todo index.], logs the
    attempt as an error and ends normally, the files being as they were. *)
Lemma delete_todo_index_too_large idx :
  Z.of_nat (List.length items) <= idx ->
  delete_todo cfg idx w
  = (Ok tt, add_log (Error "Attempt to delete non-existent todo index." None)
              (add_line "Invalid todo index." w1))
  /\ fs w1 = fs w.
Proof.
  intros Hi. split.
  - rewrite delete_todo_loaded.
    replace (idx <? Z.of_nat (List.length items)) with false
      by (symmetry; apply Z.ltb_ge; lia).
    reflexivity.
  - destruct (load_todos_inv _ _ _ _ _ loaded) as (path & _ & Hfs & _). auto.
Qed.

End Deleting.

Lemma delete_todo_index_error_witness :
  delete_todo (sample_cfg "txt") (-4) (sample_world three_lines)
  = (Raise IndexError, sample_world three_lines).
Proof.
  refine (proj1 (delete_todo_index_error (sample_cfg "txt") "txt"
            (sample_world three_lines) (sample_world three_lines)
            [VStr "a"; VStr "b"; VStr "c"] _ _ (-4) _)).
  - reflexivity.
  - vm_compute. reflexivity.
  - simpl. lia.
Defined.

Lemma delete_todo_index_too_large_witness :
  delete_todo (sample_cfg "txt") 3 (sample_world three_lines)
  = (Ok tt, add_log (Error "Attempt to delete non-existent todo index." None)
              (add_line "Invalid todo index." (sample_world three_lines))).
Proof.
  refine (proj1 (delete_todo_index_too_large (sample_cfg "txt") "txt"
            (sample_world three_lines) (sample_world three_lines)
            [VStr "a"; VStr "b"; VStr "c"] _ _ 3 _)).
  - reflexivity.
  - vm_compute. reflexivity.
  - simpl. lia.
Defined.

(** C1, at the inputs where the code departs from it: on a store of three
    entries, [delete_todo] with index [-1] removes the last entry, rewrites
    the file and echoes nothing; with index [-5] it ends in [IndexError]
    without the report of an invalid index. *)
Theorem delete_todo_negative_not_rejected :
  (let r := delete_todo (sample_cfg "txt") (-1) (sample_world three_lines) in
   fst r = Ok tt
   /\ fs (snd r) !! "todos" = Some (File ("a" ++ char LF ++ "b" ++ char LF))
   /\ terminal (snd r) = [])
  /\ (let r := delete_todo (sample_cfg "txt") (-5) (sample_world three_lines) in
      fst r = Raise IndexError /\ terminal (snd r) = []).
Proof. vm_compute. repeat split; reflexivity. Qed.

(** ** Loading never raises *)

(** C8, as the code has it: once a file name is resolved (a path is signed
    in, or [FileName] is configured), [load_todos] returns a collection
    whatever the path holds and leaves the files alone; where there is no
    file it returns the empty collection and logs an info record, not an
    error; a file whose text cannot be decoded in the configured format (a
    JSON text being one of the modelled fragment) gives the same empty
    collection and an error record that carries the exception, so the
    returned value does not tell the two apart. *)
Theorem load_todos_never_raises cfg format w path :
  filename_of cfg w = (Ok path, w) ->
  (exists v w1, load_todos cfg format w = (Ok v, w1) /\ fs w1 = fs w)
  /\ (read_node (fs w !! path) = Raise FileNotFoundError ->
      load_todos cfg format w
      = (Ok (VList []), add_log (Info "No todo file found, starting a new one.") w))
  /\ (forall text e,
        read_node (fs w !! path) = Ok text ->
        in_fragment format text = true ->
        decode format text = Raise e ->
        load_todos cfg format w
        = (Ok (VList []), add_log (Error "Failed to load todos: " (Some e)) w)).
Proof.
  intros Hf. rewrite (load_todos_eq _ _ _ _ Hf). repeat split.
  - destruct (read_node (fs w !! path)) as [text|[]]; [destruct (decode format text)|..];
      eauto.
  - now intros ->.
  - intros text e -> _ ->. reflexivity.
Qed.

Lemma load_todos_never_raises_witness :
  load_todos (sample_cfg "json") "json" (sample_world "[1,")
  = (Ok (VList []),
     add_log (Error "Failed to load todos: " (Some JSONDecodeError)) (sample_world "[1,")).
Proof.
  refine (proj2 (proj2 (load_todos_never_raises (sample_cfg "json") "json"
            (sample_world "[1,") "todos" _)) "[1," JSONDecodeError _ _ _).
  - reflexivity.
  - reflexivity.
  - reflexivity.
  - vm_compute. reflexivity.
Defined.

(** C8 as the specification words it fails: with no [FileName] configured
    and no path signed in, the lookup of the file name, which comes before
    the [try], raises [KeyError] to the caller of [load_todos]. *)
Lemma load_todos_raises_unconfigured :
  load_todos no_config "json" empty_world = (Raise KeyError, empty_world).
Proof. reflexivity. Qed.

(** ** Listing *)

Lemma is_choice_inv k :
  is_choice k = true -> k = "o" \/ k = "l" \/ k = "m" \/ k = "h" \/ k = "c".
Proof.
  unfold is_choice, PRIORITIES, existsb, fst.
  rewrite !orb_true_iff, !String.eqb_eq. intuition (auto; discriminate).
Qed.

Lemma is_choice_given k : is_choice k = true -> given (Some k) = Some k.
Proof. intros H. destruct (is_choice_inv k H) as [->|[->|[->|[->| ->]]]]; reflexivity. Qed.

Lemma priorities_get_choice k label : priorities_get k = Ok label -> is_choice k = true.
Proof.
  unfold priorities_get, is_choice, PRIORITIES, List.find, existsb, fst.
  repeat (destruct (String.eqb _ k); [reflexivity|]). discriminate.
Qed.

(** The steps of [list_todos] up to the filter. *)
Lemma list_todos_loaded cfg format w w1 todos priority :
  StorageType cfg = Some format ->
  load_todos cfg format w = (Ok todos, w1) ->
  list_todos cfg priority w =
    (filtered_todos <- match given priority with
                       | Some k =>
                           items <- lift (iter todos) ;;
                           kept <- lift (filter_priority items k) ;;
                           ret (VList kept)
                       | None => ret todos
                       end ;;
     items <- lift (iter filtered_todos) ;;
     echo_todos format 0 items ;;;
     logging_info "Listed todos successfully.") w1.
Proof.
  intros Hc Hl. unfold list_todos. rewrite Hc. unfold config_get.
  unfold bind at 1. unfold ret at 1. cbv beta iota.
  rewrite (bind_ok _ _ _ _ _ Hl). reflexivity.
Qed.

(** In the line-oriented encoding, which is used for every format other
    than [json] and [csv], every loaded entry is a string. *)
Lemma load_todos_strings cfg format w w1 items :
  format <> "json" -> format <> "csv" ->
  load_todos cfg format w = (Ok (VList items), w1) ->
  exists lines, items = List.map VStr lines.
Proof.
  intros Hj Hc Hl. destruct items as [|x items]; [now exists []|].
  destruct (load_todos_entries _ _ _ _ _ Hl) as (_ & path & text & _ & _ & Hd);
    [discriminate|].
  unfold decode in Hd. apply String.eqb_neq in Hj, Hc. rewrite Hj, Hc in Hd.
  injection Hd as Hd. eauto.
Qed.

Lemma load_todos_txt_strings cfg w w1 items :
  load_todos cfg "txt" w = (Ok (VList items), w1) ->
  exists lines, items = List.map VStr lines.
Proof. apply load_todos_strings; discriminate. Qed.

(** C3: in line-text mode (the configured format is [txt], or anything
    else that is neither [json] nor [csv]), where every loaded entry is a
    plain string, [list_todos] with a priority filter on a collection that
    has an entry ends in an uncaught [TypeError] raised by the filtering
    step; nothing is echoed. *)
Theorem list_todos_filter_line_text cfg format w w1 items k :
  StorageType cfg = Some format ->
  format <> "json" -> format <> "csv" ->
  load_todos cfg format w = (Ok (VList items), w1) ->
  items <> [] ->
  is_choice k = true ->
  list_todos_cli cfg (Some k) w = (Raise TypeError, w1)
  /\ terminal w1 = terminal w.
Proof.
  intros Hc Hj Hcsv Hl Hne Hk. split.
  - unfold list_todos_cli. rewrite Hk.
    rewrite (list_todos_loaded _ _ _ _ _ _ Hc Hl), (is_choice_given _ Hk).
    destruct (load_todos_strings _ _ _ _ _ Hj Hcsv Hl) as [lines ->].
    destruct lines as [|l lines]; [now elim Hne|]. reflexivity.
  - destruct (load_todos_inv _ _ _ _ _ Hl) as (path & _ & _ & _ & Ht). exact Ht.
Qed.

Lemma list_todos_filter_line_text_witness :
  list_todos_cli (sample_cfg "txt") (Some "h") (sample_world three_lines)
  = (Raise TypeError, sample_world three_lines).
Proof.
  refine (proj1 (list_todos_filter_line_text (sample_cfg "txt") "txt"
            (sample_world three_lines) (sample_world three_lines)
            [VStr "a"; VStr "b"; VStr "c"] "h" _ _ _ _ _ _)).
  - reflexivity.
  - discriminate.
  - discriminate.
  - vm_compute. reflexivity.
  - discriminate.
  - reflexivity.
Defined.

(** With no entry to filter, the same command lists nothing and ends
    normally. *)
Lemma list_todos_filter_line_text_empty cfg format w w1 k :
  StorageType cfg = Some format ->
  load_todos cfg format w = (Ok (VList []), w1) ->
  is_choice k = true ->
  list_todos_cli cfg (Some k) w
  = (Ok tt, add_log (Info "Listed todos successfully.") w1).
Proof.
  intros Hc Hl Hk. unfold list_todos_cli. rewrite Hk.
  rewrite (list_todos_loaded _ _ _ _ _ _ Hc Hl), (is_choice_given _ Hk).
  reflexivity.
Qed.

Lemma add_lines_cons line lines w :
  add_lines lines (add_line line w) = add_lines (line :: lines) w.
Proof. unfold add_lines, add_line. simpl. now rewrite <- List.app_assoc. Qed.

Lemma add_lines_nil w : add_lines [] w = w.
Proof. destruct w. unfold add_lines. simpl. now rewrite List.app_nil_r. Qed.

Lemma filter_priority_records k label : forall items,
  priorities_get k = Ok label ->
  forallb is_record items = true ->
  filter_priority items k = Ok (List.filter (has_priority label) items).
Proof.
  intros items Hk. induction items as [|todo items IH]; intros Hr; simpl in *.
  - reflexivity.
  - apply andb_true_iff in Hr as [Ht Hr]. rewrite Hk, (IH Hr).
    unfold has_priority. unfold is_record, has_field in Ht.
    destruct (getitem todo "priority"); [reflexivity|].
    rewrite andb_false_r in Ht. discriminate.
Qed.

Lemma todo_line_record format idx todo :
  String.eqb format "txt" = false ->
  is_record todo = true ->
  todo_line format idx todo = Ok (record_line idx todo).
Proof.
  intros Hf Hr. unfold todo_line, record_line, field_text. rewrite Hf.
  unfold is_record, has_field in Hr.
  destruct (getitem todo "name"); [|discriminate].
  destruct (getitem todo "description"); [|discriminate].
  destruct (getitem todo "priority"); [reflexivity|discriminate].
Qed.

Lemma echo_todos_records format : forall items idx w,
  String.eqb format "txt" = false ->
  forallb is_record items = true ->
  echo_todos format idx items w = (Ok tt, add_lines (record_lines idx items) w).
Proof.
  induction items as [|todo items IH]; intros idx w Hf Hr; simpl in *.
  - unfold ret. now rewrite add_lines_nil.
  - apply andb_true_iff in Hr as [Ht Hr].
    unfold bind at 1, lift. rewrite (todo_line_record _ _ _ Hf Ht).
    unfold bind at 1, echo. rewrite (IH _ _ Hf Hr). now rewrite add_lines_cons.
Qed.

Lemma forallb_filter {A} (p q : A -> bool) items :
  forallb p items = true -> forallb p (List.filter q items) = true.
Proof.
  induction items as [|x items IH]; simpl; [reflexivity|].
  intros [Hx Hr]%andb_true_iff. destruct (q x); simpl; [rewrite Hx|]; auto.
Qed.

(** C6: on a collection of records, [list_todos] with a priority filter
    echoes exactly the entries whose priority is the display name of the
    key, in their order and numbered from 0, and ends normally; when no
    entry matches, nothing is echoed. *)
Theorem list_todos_filter cfg format w w1 items k label :
  StorageType cfg = Some format ->
  load_todos cfg format w = (Ok (VList items), w1) ->
  forallb is_record items = true ->
  priorities_get k = Ok label ->
  let shown := List.filter (has_priority label) items in
  list_todos_cli cfg (Some k) w
  = (Ok tt, add_log (Info "Listed todos successfully.")
              (add_lines (record_lines 0 shown) w1))
  /\ (shown = [] -> terminal (snd (list_todos_cli cfg (Some k) w)) = terminal w).
Proof.
  intros Hc Hl Hr Hk shown.
  assert (Hch := priorities_get_choice _ _ Hk).
  assert (E : list_todos_cli cfg (Some k) w
              = (Ok tt, add_log (Info "Listed todos successfully.")
                          (add_lines (record_lines 0 shown) w1))).
  { unfold shown, list_todos_cli. rewrite Hch.
    rewrite (list_todos_loaded _ _ _ _ _ _ Hc Hl), (is_choice_given _ Hch).
    unfold bind at 1. unfold bind at 1. unfold lift at 1, iter.
    unfold bind at 1. unfold lift at 1.
    rewrite (filter_priority_records _ _ _ Hk Hr).
    unfold ret at 1. unfold bind at 1. unfold lift at 1, iter.
    destruct (String.eqb format "txt") eqn:Ef.
    - apply String.eqb_eq in Ef. subst format.
      destruct (load_todos_txt_strings _ _ _ _ Hl) as [lines ->].
      destruct lines as [|l lines]; [|discriminate].
      simpl. unfold bind, ret, logging_info. now rewrite add_lines_nil.
    - unfold bind at 1.
      rewrite (echo_todos_records _ _ _ _ Ef (forallb_filter _ _ _ Hr)).
      reflexivity. }
  split; [exact E|].
  intros Hs. rewrite E, Hs. simpl.
  destruct (load_todos_inv _ _ _ _ _ Hl) as (path & _ & _ & _ & Ht).
  now rewrite List.app_nil_r.
Qed.

Lemma list_todos_filter_witness :
  list_todos_cli (sample_cfg "json") (Some "h") (sample_world (json_dumps (VList sample_records)))
  = (Ok tt, add_log (Info "Listed todos successfully.")
              (add_lines ["(0) - B: second [Priority: High]"; "(1) - C: third [Priority: High]"]
                 (sample_world (json_dumps (VList sample_records))))).
Proof.
  refine (proj1 (list_todos_filter (sample_cfg "json") "json"
            (sample_world (json_dumps (VList sample_records)))
            (sample_world (json_dumps (VList sample_records)))
            sample_records "h" "High" _ _ _ _)).
  - reflexivity.
  - vm_compute. reflexivity.
  - reflexivity.
  - reflexivity.
Defined.

(** ** Adding *)

(** The steps of [add_todo] up to the save. *)
Lemma add_todo_eq cfg format w w1 items name description k label :
  StorageType cfg = Some format ->
  load_todos cfg format w = (Ok (VList items), w1) ->
  priorities_get k = Ok label ->
  add_todo cfg name description k w =
    (save_todos cfg (VList (items ++ [new_entry format name description label])) format ;;;
     logging_info "Added new todo.") w1.
Proof.
  intros Hc Hl Hk. unfold add_todo. rewrite Hc. unfold config_get.
  unfold bind at 1. unfold ret at 1. cbv beta iota.
  rewrite (bind_ok _ _ _ _ _ Hl).
  unfold bind at 1. unfold lift at 1. rewrite Hk.
  unfold new_entry. destruct (String.eqb format "txt"); reflexivity.
Qed.

(** The world after [add_todo] found [items] and the save went through. *)
Lemma add_todo_saved cfg format w w1 items name description k label path text :
  StorageType cfg = Some format ->
  load_todos cfg format w = (Ok (VList items), w1) ->
  priorities_get k = Ok label ->
  filename_of cfg w = (Ok path, w) ->
  writable w path ->
  encode format (VList (items ++ [new_entry format name description label])) = (text, None) ->
  add_todo cfg name description k w
  = (Ok tt, add_log (Info "Added new todo.") (set_fs (<[path := File text]> (fs w)) w1)).
Proof.
  intros Hc Hl Hk Hf Hd He.
  rewrite (add_todo_eq _ _ _ _ _ _ _ _ _ Hc Hl Hk).
  destruct (load_todos_inv _ _ _ _ _ Hl) as (path' & Hf' & Hfs & Hp & _).
  assert (Hf1 : filename_of cfg w1 = (Ok path, w1))
    by (eapply filename_of_stable; eauto).
  assert (Hw1 : writable w1 path) by (unfold writable in *; now rewrite Hfs).
  unfold bind. rewrite (save_todos_written _ _ _ _ _ Hf1 Hw1), Hfs, He. reflexivity.
Qed.

(** Listing without a filter, on a collection of records. *)
Lemma list_todos_all_records cfg format w w1 items :
  StorageType cfg = Some format ->
  load_todos cfg format w = (Ok (VList items), w1) ->
  String.eqb format "txt" = false ->
  forallb is_record items = true ->
  list_todos cfg None w
  = (Ok tt, add_log (Info "Listed todos successfully.")
              (add_lines (record_lines 0 items) w1)).
Proof.
  intros Hc Hl Hf Hr. rewrite (list_todos_loaded _ _ _ _ _ _ Hc Hl). simpl.
  unfold bind at 1. unfold ret at 1. unfold bind at 1. unfold lift at 1, iter.
  unfold bind at 1. now rewrite (echo_todos_records _ _ _ _ Hf Hr).
Qed.

Lemma echo_todos_txt : forall lines idx w,
  echo_todos "txt" idx (List.map VStr lines) w
  = (Ok tt, add_lines (List.map (fun p => "(" ++ str_of_Z (Z.of_nat (fst p)) ++ ") - " ++ snd p)
                         (List.combine (seq idx (List.length lines)) lines)) w).
Proof.
  induction lines as [|l lines IH]; intros idx w; simpl.
  - unfold ret. now rewrite add_lines_nil.
  - unfold bind at 1, lift. unfold todo_line. simpl.
    unfold bind at 1, echo. rewrite IH. now rewrite add_lines_cons.
Qed.

(** Listing without a filter, on the lines of a text file. *)
Lemma list_todos_all_lines cfg w w1 lines :
  StorageType cfg = Some "txt" ->
  load_todos cfg "txt" w = (Ok (VList (List.map VStr lines)), w1) ->
  list_todos cfg None w
  = (Ok tt, add_log (Info "Listed todos successfully.")
              (add_lines (List.map (fun p => "(" ++ str_of_Z (Z.of_nat (fst p)) ++ ") - " ++ snd p)
                            (List.combine (seq 0 (List.length lines)) lines)) w1)).
Proof.
  intros Hc Hl. rewrite (list_todos_loaded _ _ _ _ _ _ Hc Hl). simpl.
  unfold bind at 1. unfold ret at 1. unfold bind at 1. unfold lift at 1, iter.
  unfold bind at 1. now rewrite echo_todos_txt.
Qed.

(** C2, as the code has it: from a store with no file, in each of the three
    encodings, [add-todo h -n X -d Y] followed by [list-todos] echoes exactly
    the line [(0) - X: Y [Priority: High]]; the key [h] stands for High. *)
Theorem add_then_list_from_empty cfg format w path :
  In format ["json"; "csv"; "txt"] ->
  StorageType cfg = Some format ->
  filename_of cfg w = (Ok path, w) ->
  fs w !! path = None ->
  let r := list_todos_cli cfg None (snd (add_todo_cli cfg (Some "h") "X" "Y" w)) in
  fst r = Ok tt
  /\ terminal (snd r) = (terminal w ++ ["(0) - X: Y [Priority: High]"])%list.
Proof.
  intros Hin Hc Hf Hnone.
  pose (w1 := add_log (Info "No todo file found, starting a new one.") w).
  assert (Hl : load_todos cfg format w = (Ok (VList []), w1))
    by (rewrite (load_todos_eq _ _ _ _ Hf), Hnone; reflexivity).
  assert (Hadd : forall text,
            encode format (VList [new_entry format "X" "Y" "High"]) = (text, None) ->
            add_todo_cli cfg (Some "h") "X" "Y" w
            = (Ok tt, add_log (Info "Added new todo.")
                        (set_fs (<[path := File text]> (fs w)) w1))).
  { intros text He. unfold add_todo_cli. change (is_choice "h") with true. cbv iota.
    apply (add_todo_saved cfg format w w1 [] "X" "Y" "h" "High" path text); auto.
    unfold writable. now rewrite Hnone. }
  assert (Hload2 : forall text v,
            decode format text = Ok v ->
            load_todos cfg format
              (add_log (Info "Added new todo.") (set_fs (<[path := File text]> (fs w)) w1))
            = (Ok v, add_log (Info "Added new todo.")
                       (set_fs (<[path := File text]> (fs w)) w1))).
  { intros text v Hd.
    apply (load_todos_file cfg format _ path text); [|apply lookup_insert_eq|exact Hd].
    eapply filename_of_stable; eauto. }
  unfold list_todos_cli.
  destruct Hin as [<-|[<-|[<-|[]]]].
  - rewrite (Hadd _ eq_refl). simpl snd.
    erewrite list_todos_all_records; [| exact Hc | apply Hload2; vm_compute; reflexivity
                                      | reflexivity | reflexivity ].
    split; reflexivity.
  - rewrite (Hadd _ eq_refl). simpl snd.
    erewrite list_todos_all_records; [| exact Hc | apply Hload2; vm_compute; reflexivity
                                      | reflexivity | reflexivity ].
    split; reflexivity.
  - rewrite (Hadd _ eq_refl). simpl snd.
    erewrite (list_todos_all_lines _ _ _ ["X: Y [Priority: High]"]);
      [| exact Hc | apply Hload2; vm_compute; reflexivity ].
    split; reflexivity.
Qed.

Lemma add_then_list_from_empty_witness :
  terminal (snd (list_todos_cli (sample_cfg "csv") None
                   (snd (add_todo_cli (sample_cfg "csv") (Some "h") "X" "Y" empty_world))))
  = ["(0) - X: Y [Priority: High]"].
Proof.
  refine (proj2 (add_then_list_from_empty (sample_cfg "csv") "csv" empty_world "todos" _ _ _ _)).
  - simpl. auto.
  - reflexivity.
  - reflexivity.
  - reflexivity.
Defined.

(** C2 as the specification words it fails: the line echoed in each encoding
    names the priority High, not Crucial. *)
Lemma add_then_list_not_crucial :
  (terminal (snd (list_todos_cli (sample_cfg "json") None
                    (snd (add_todo_cli (sample_cfg "json") (Some "h") "X" "Y" empty_world))))
   = ["(0) - X: Y [Priority: High]"]
   /\ terminal (snd (list_todos_cli (sample_cfg "json") None
                       (snd (add_todo_cli (sample_cfg "json") (Some "h") "X" "Y" empty_world))))
      <> ["(0) - X: Y [Priority: Crucial]"])
  /\ (terminal (snd (list_todos_cli (sample_cfg "csv") None
                       (snd (add_todo_cli (sample_cfg "csv") (Some "h") "X" "Y" empty_world))))
      <> ["(0) - X: Y [Priority: Crucial]"])
  /\ (terminal (snd (list_todos_cli (sample_cfg "txt") None
                       (snd (add_todo_cli (sample_cfg "txt") (Some "h") "X" "Y" empty_world))))
      <> ["(0) - X: Y [Priority: Crucial]"]).
Proof. vm_compute. repeat split; discriminate. Qed.

(** ** Round trip of the line-oriented encoding *)

Lemma string_forallb_app p a b :
  string_forallb p (a ++ b) = string_forallb p a && string_forallb p b.
Proof. induction a as [|c a IH]; simpl; [reflexivity|]. now rewrite IH, andb_assoc. Qed.

Lemma string_forallb_impl (p q : ascii -> bool) s :
  (forall c, p c = true -> q c = true) ->
  string_forallb p s = true -> string_forallb q s = true.
Proof.
  intros Hpq. induction s as [|c s IH]; simpl; [reflexivity|].
  intros [Hc Hs]%andb_true_iff. now rewrite (Hpq _ Hc), IH.
Qed.

Lemma universal_newlines_no_cr s :
  string_forallb (fun c => negb (Ascii.eqb c CR)) s = true ->
  universal_newlines false s = s.
Proof.
  induction s as [|c s IH]; simpl; [reflexivity|].
  intros [Hc Hs]%andb_true_iff. apply negb_true_iff in Hc. rewrite Hc.
  now rewrite IH.
Qed.

Lemma no_break_no_cr c : negb (is_linebreak c) = true -> negb (Ascii.eqb c CR) = true.
Proof.
  destruct (Ascii.eqb_spec c CR) as [->|]; [vm_compute; congruence|reflexivity].
Qed.

Lemma soft_break_no_cr c : no_hard_break c = true -> negb (Ascii.eqb c CR) = true.
Proof.
  destruct (Ascii.eqb_spec c CR) as [->|]; [vm_compute; congruence|reflexivity].
Qed.

(** A line without break characters, followed by a line feed, is split off
    whole. *)
Lemma splitlines_from_line l : forall acc rest,
  no_break l = true ->
  splitlines_from acc false (l ++ String LF rest)
  = (acc ++ l) :: splitlines_from "" false rest.
Proof.
  induction l as [|c l IH]; intros acc rest H; simpl in *.
  - now rewrite append_nil_r.
  - apply andb_true_iff in H as [Hc Hl]. apply negb_true_iff in Hc. rewrite Hc.
    rewrite (IH _ _ Hl), append_assoc. reflexivity.
Qed.

Lemma lines_text_cons l items :
  lines_text (VStr l :: items) = l ++ String LF (lines_text items).
Proof. simpl. now rewrite append_assoc. Qed.

Lemma splitlines_lines_text lines :
  forallb no_break lines = true ->
  splitlines (lines_text (List.map VStr lines)) = lines.
Proof.
  unfold splitlines. induction lines as [|l lines IH]; intros H; [reflexivity|].
  simpl in H. apply andb_true_iff in H as [Hl Hr].
  cbn [List.map]. rewrite lines_text_cons, (splitlines_from_line _ _ _ Hl).
  simpl. now rewrite IH.
Qed.

Lemma lines_text_forallb p lines :
  p LF = true ->
  forallb (string_forallb p) lines = true ->
  string_forallb p (lines_text (List.map VStr lines)) = true.
Proof.
  intros HLF. induction lines as [|l lines IH]; intros H; [reflexivity|].
  simpl in H. apply andb_true_iff in H as [Hl Hr].
  cbn [List.map]. rewrite lines_text_cons, string_forallb_app, Hl. simpl.
  now rewrite HLF, IH.
Qed.

Lemma forallb_impl {A} (p q : A -> bool) l :
  (forall x, p x = true -> q x = true) -> forallb p l = true -> forallb q l = true.
Proof.
  intros Hpq. induction l as [|x l IH]; simpl; [reflexivity|].
  intros [Hx Hl]%andb_true_iff. now rewrite (Hpq _ Hx), IH.
Qed.

(** Lines without break characters come back as they were saved. *)
Lemma decode_txt_lines lines :
  forallb no_break lines = true ->
  decode "txt" (lines_text (List.map VStr lines)) = Ok (VList (List.map VStr lines)).
Proof.
  intros H. unfold decode. simpl.
  rewrite universal_newlines_no_cr, (splitlines_lines_text _ H); [reflexivity|].
  apply lines_text_forallb; [reflexivity|].
  revert H. apply forallb_impl. intros l. apply string_forallb_impl, no_break_no_cr.
Qed.

(** What [splitlines] returns has no break character left. *)
Lemma splitlines_from_no_break s : forall acc after_cr,
  no_break acc = true ->
  forallb no_break (splitlines_from acc after_cr s) = true.
Proof.
  induction s as [|c s IH]; intros acc after_cr Hacc; simpl.
  - destruct (String.eqb acc ""); simpl; [reflexivity|now rewrite Hacc].
  - destruct (after_cr && Ascii.eqb c LF); [now apply IH|].
    destruct (is_linebreak c) eqn:Hc; simpl.
    + rewrite Hacc. now apply IH.
    + apply IH. unfold no_break. rewrite string_forallb_app. simpl.
      fold (no_break acc). rewrite Hacc, Hc. reflexivity.
Qed.

Lemma splitlines_no_break s : forallb no_break (splitlines s) = true.
Proof. now apply splitlines_from_no_break. Qed.

(** Text whose only break character is the line feed is rebuilt from its
    lines. *)
Lemma lines_text_splitlines_from s : forall acc rest,
  string_forallb no_hard_break s = true ->
  lines_text (List.map VStr (splitlines_from acc false (s ++ String LF rest)))
  = acc ++ s ++ String LF (lines_text (List.map VStr (splitlines_from "" false rest))).
Proof.
  induction s as [|c s IH]; intros acc rest H.
  - simpl. now rewrite append_assoc.
  - simpl in H. apply andb_true_iff in H as [Hc Hs].
    cbn [String.append splitlines_from andb].
    unfold no_hard_break in Hc.
    destruct (is_linebreak c) eqn:Hb.
    + simpl in Hc. apply Ascii.eqb_eq in Hc. subst c.
      cbn [List.map]. rewrite lines_text_cons. change (Ascii.eqb LF CR) with false.
      rewrite (IH _ _ Hs). reflexivity.
    + rewrite (IH _ _ Hs), append_assoc. reflexivity.
Qed.

Lemma lines_text_splitlines lines :
  forallb (string_forallb no_hard_break) lines = true ->
  lines_text (List.map VStr (splitlines (lines_text (List.map VStr lines))))
  = lines_text (List.map VStr lines).
Proof.
  unfold splitlines. induction lines as [|l lines IH]; intros H; [reflexivity|].
  simpl in H. apply andb_true_iff in H as [Hl Hr].
  cbn [List.map]. rewrite lines_text_cons, (lines_text_splitlines_from _ _ _ Hl).
  now rewrite (IH Hr).
Qed.

(** ** Round trip of the tabular encoding *)

Lemma feed_chars_app a : forall p b,
  feed_chars p (a ++ b)
  = match feed_chars p a with
    | Ok p' => feed_chars p' b
    | Raise e => Raise e
    end.
Proof.
  induction a as [|c a IH]; intros p b; simpl; [reflexivity|].
  destruct (parse_process_char p (Some c)); [apply IH|reflexivity].
Qed.

Lemma process_char_ok p c :
  state p <> EAT_CRNL -> exists p', parse_process_char p c = Ok p'.
Proof.
  intros H. unfold parse_process_char.
  destruct (state p), c as [a|]; try congruence; eauto;
    repeat match goal with
           | |- context [if ?b then _ else _] => destruct b
           end; eauto.
Qed.

Lemma process_char_plain p c p' :
  is_newline c = false ->
  state p <> EAT_CRNL ->
  parse_process_char p (Some c) = Ok p' ->
  state p' <> EAT_CRNL.
Proof.
  intros Hc Hs. unfold parse_process_char, start_field.
  destruct (state p); try congruence; rewrite ?Hc;
    repeat match goal with
           | |- context [if ?b then _ else _] => destruct b
           end; intros [= <-]; simpl; congruence.
Qed.

Lemma process_eol_state p p' :
  parse_process_char p None = Ok p' -> state p' <> EAT_CRNL.
Proof.
  unfold parse_process_char, start_field.
  destruct (state p) eqn:E; intros [= <-]; simpl; congruence.
Qed.

Lemma status_of_snoc line c : status_of (line ++ char c) = Mid.
Proof. destruct line; reflexivity. Qed.

Lemma run_not_after_cr p st c s :
  st <> AfterCR ->
  run p st (String c s)
  = match parse_process_char p (Some c) with
    | Raise e => Raise e
    | Ok p1 =>
        if Ascii.eqb c LF then end_line p1 (fun p' => run p' Fresh s)
        else run p1 (status_after c) s
    end.
Proof. destruct st; [reflexivity..|congruence]. Qed.

Lemma status_of_not_after_cr line : status_of line <> AfterCR.
Proof. unfold status_of. destruct (String.eqb line ""); discriminate. Qed.

(** Feeding a complete line, then going on with the lines of [s]. *)
Lemma read_records_line p0 line p1 s :
  feed_chars p0 line = Ok p1 ->
  reads_as_run s ->
  read_records p0 (line :: lines_keepends_from "" s)
  = end_line p1 (fun p' => run p' Fresh s).
Proof.
  intros Hfeed IH. cbn [read_records]. unfold feed_line, end_line. rewrite Hfeed.
  destruct (parse_process_char p1 None) as [p2|e] eqn:E; [|reflexivity].
  pose proof (process_eol_state _ _ E) as Hs.
  destruct (state_eqb (state p2) START_RECORD).
  - rewrite (IH parse_reset "" parse_reset eq_refl); [reflexivity|discriminate].
  - now rewrite (IH p2 "" p2 eq_refl Hs).
Qed.

Lemma reads_as_run_nil : reads_as_run "".
Proof.
  intros p0 line p Hfeed Hs. unfold status_of. cbn [lines_keepends_from run].
  destruct (String.eqb_spec line "") as [->|Hne].
  - simpl in Hfeed. now injection Hfeed as ->.
  - cbn [read_records]. unfold feed_line, end_line. rewrite Hfeed.
    destruct (parse_process_char p None) as [p2|e]; [|reflexivity].
    destruct (state_eqb (state p2) START_RECORD); reflexivity.
Qed.

Lemma reads_as_run_step c s :
  reads_as_run s ->
  (forall s', s = String LF s' -> reads_as_run s') ->
  reads_as_run (String c s).
Proof.
  intros IH IH2 p0 line p Hfeed Hs.
  rewrite run_not_after_cr by apply status_of_not_after_cr.
  destruct (process_char_ok p (Some c) Hs) as [p1 Hp1]. rewrite Hp1.
  assert (Hfeed1 : feed_chars p0 (line ++ char c) = Ok p1).
  { rewrite feed_chars_app, Hfeed. simpl. now rewrite Hp1. }
  cbn [lines_keepends_from].
  destruct (Ascii.eqb_spec c LF) as [->|HnLF].
  - now apply read_records_line.
  - unfold status_after. destruct (Ascii.eqb_spec c CR) as [->|HnCR].
    + destruct s as [|c' s'].
      * cbn [read_records run]. unfold feed_line, end_line. rewrite Hfeed1.
        destruct (parse_process_char p1 None) as [p2|e]; [|reflexivity].
        destruct (state_eqb (state p2) START_RECORD); reflexivity.
      * destruct (Ascii.eqb_spec c' LF) as [->|HnLF'].
        -- cbn [run]. change (Ascii.eqb LF LF) with true. cbn iota.
           assert (Hs1 : parse_process_char p1 (Some LF) = parse_process_char p1 (Some LF))
             by reflexivity.
           destruct (parse_process_char p1 (Some LF)) as [p2|e] eqn:Hp2.
           ++ apply read_records_line; [|now apply IH2].
              change (line ++ CRLF) with (line ++ (char CR ++ char LF)).
              rewrite <- append_assoc, feed_chars_app, Hfeed1. simpl. now rewrite Hp2.
           ++ cbn [read_records]. unfold feed_line.
              change (line ++ CRLF) with (line ++ (char CR ++ char LF)).
              rewrite <- append_assoc, feed_chars_app, Hfeed1. simpl. now rewrite Hp2.
        -- cbn [run]. apply Ascii.eqb_neq in HnLF'. rewrite HnLF'.
           rewrite (read_records_line p0 _ p1 _ Hfeed1 IH).
           unfold end_line. destruct (parse_process_char p1 None) as [p2|e]; [|reflexivity].
           destruct (state_eqb (state p2) START_RECORD); cbn [run]; rewrite HnLF'; reflexivity.
    + rewrite (IH p0 (line ++ char c) p1 Hfeed1), status_of_snoc; [reflexivity|].
      eapply process_char_plain; eauto.
      unfold is_newline. apply Ascii.eqb_neq in HnLF, HnCR. now rewrite HnLF, HnCR.
Qed.

Lemma reads_as_run_all s : reads_as_run s /\ forall c, reads_as_run (String c s).
Proof.
  induction s as [|a s [IH1 IH2]].
  - split; [apply reads_as_run_nil|].
    intros c. apply reads_as_run_step; [apply reads_as_run_nil|discriminate].
  - split; [apply IH2|].
    intros c. apply reads_as_run_step; [apply IH2|].
    intros s' [= _ <-]. exact IH1.
Qed.

(** The reader on the lines of a text is the one-pass reader on the text. *)
Lemma read_records_run text : csv_reader text = run parse_reset Fresh text.
Proof.
  unfold csv_reader, lines_keepends.
  apply (proj1 (reads_as_run_all text) parse_reset "" parse_reset); [reflexivity|discriminate].
Qed.

Lemma end_line_quoted acc fs k :
  end_line {| state := IN_QUOTED_FIELD; field := acc; fields := fs |} k
  = k {| state := IN_QUOTED_FIELD; field := acc; fields := fs |}.
Proof. reflexivity. Qed.

Lemma run_after_cr p c s :
  run p AfterCR (String c s)
  = if Ascii.eqb c LF then run p Mid (String c s)
    else end_line p (fun p0 => run p0 Mid (String c s)).
Proof. reflexivity. Qed.

(** One character inside a quoted field, whatever the status of the line. *)
Lemma run_quoted_char acc fs st c s :
  Ascii.eqb c DQUOTE = false ->
  run {| state := IN_QUOTED_FIELD; field := acc; fields := fs |} st (String c s)
  = run {| state := IN_QUOTED_FIELD; field := acc ++ char c; fields := fs |}
      (if Ascii.eqb c LF then Fresh else status_after c) s.
Proof.
  intros Hc.
  assert (E : run {| state := IN_QUOTED_FIELD; field := acc; fields := fs |} Mid (String c s)
              = run {| state := IN_QUOTED_FIELD; field := acc ++ char c; fields := fs |}
                  (if Ascii.eqb c LF then Fresh else status_after c) s).
  { cbn [run]. unfold parse_process_char. cbn [state]. rewrite Hc.
    unfold parse_add_char. cbn [field fields].
    destruct (Ascii.eqb c LF); [apply end_line_quoted|reflexivity]. }
  destruct st; try exact E.
  rewrite run_after_cr, end_line_quoted. destruct (Ascii.eqb c LF); exact E.
Qed.

Lemma run_quoted_quote acc fs st s :
  run {| state := IN_QUOTED_FIELD; field := acc; fields := fs |} st (String DQUOTE s)
  = run {| state := QUOTE_IN_QUOTED_FIELD; field := acc; fields := fs |} Mid s.
Proof.
  destruct st; try reflexivity.
Qed.

(** The body of a quoted field and its closing quote. *)
Lemma run_quoted_body f : forall acc fs st rest,
  run {| state := IN_QUOTED_FIELD; field := acc; fields := fs |} st
    (double_quotes f ++ String DQUOTE rest)
  = run {| state := QUOTE_IN_QUOTED_FIELD; field := acc ++ f; fields := fs |} Mid rest.
Proof.
  induction f as [|c f IH]; intros acc fs st rest.
  - cbn [double_quotes String.append]. now rewrite run_quoted_quote, append_nil_r.
  - cbn [double_quotes]. destruct (Ascii.eqb c DQUOTE) eqn:Hc.
    + apply Ascii.eqb_eq in Hc. subst c. cbn [String.append].
      rewrite run_quoted_quote.
      change (run {| state := QUOTE_IN_QUOTED_FIELD; field := acc; fields := fs |} Mid
                (String DQUOTE (double_quotes f ++ String DQUOTE rest)))
        with (run {| state := IN_QUOTED_FIELD; field := acc ++ char DQUOTE; fields := fs |} Mid
                (double_quotes f ++ String DQUOTE rest)).
      rewrite IH, append_assoc. reflexivity.
    + cbn [String.append]. rewrite (run_quoted_char _ _ _ _ _ Hc), IH, append_assoc.
      reflexivity.
Qed.

Lemma plain_char c :
  negb (csv_special c) = true ->
  Ascii.eqb c "," = false /\ Ascii.eqb c DQUOTE = false
  /\ Ascii.eqb c CR = false /\ Ascii.eqb c LF = false.
Proof.
  unfold csv_special. rewrite negb_true_iff, !orb_false_iff. tauto.
Qed.

(** The characters of an unquoted field, once the field has begun. *)
Lemma run_plain f : forall acc fs rest,
  string_forallb (fun c => negb (csv_special c)) f = true ->
  run {| state := IN_FIELD; field := acc; fields := fs |} Mid (f ++ rest)
  = run {| state := IN_FIELD; field := acc ++ f; fields := fs |} Mid rest.
Proof.
  induction f as [|c f IH]; intros acc fs rest H.
  - now rewrite append_nil_r.
  - simpl in H. apply andb_true_iff in H as [Hc Hf].
    destruct (plain_char _ Hc) as (H1 & H2 & H3 & H4).
    cbn [String.append run]. unfold parse_process_char, is_newline. cbn [state].
    rewrite H1, H3, H4. cbn [orb]. unfold status_after. rewrite H3.
    unfold parse_add_char. cbn [field fields]. rewrite (IH _ _ _ Hf), append_assoc.
    reflexivity.
Qed.

(** A field at the start of a record or after a delimiter, up to the
    character that ends it: the automaton holds the field, unless the field
    is empty and unquoted, which leaves it where it was. *)
Lemma run_field f st0 fs st rest :
  st0 = START_RECORD \/ st0 = START_FIELD ->
  st <> AfterCR ->
  run {| state := st0; field := ""; fields := fs |} st (csv_field f ++ rest)
  = if String.eqb f "" then run {| state := st0; field := ""; fields := fs |} st rest
    else if string_forallb (fun c => negb (csv_special c)) f
    then run {| state := IN_FIELD; field := f; fields := fs |} Mid rest
    else run {| state := QUOTE_IN_QUOTED_FIELD; field := f; fields := fs |} Mid rest.
Proof.
  intros Hst0 Hst. unfold csv_field.
  destruct (string_forallb (fun c => negb (csv_special c)) f) eqn:Hplain.
  - destruct f as [|c f]; [reflexivity|].
    change (String.eqb (String c f) "") with false. cbv iota.
    simpl in Hplain. apply andb_true_iff in Hplain as [Hc Hf].
    destruct (plain_char _ Hc) as (H1 & H2 & H3 & H4).
    cbn [String.append]. rewrite (run_not_after_cr _ _ _ _ Hst).
    assert (E : parse_process_char {| state := st0; field := ""; fields := fs |} (Some c)
                = Ok {| state := IN_FIELD; field := char c; fields := fs |}).
    { unfold parse_process_char, start_field, is_newline. cbn [state].
      destruct Hst0 as [-> | ->]; rewrite ?H1, ?H2, ?H3, ?H4; reflexivity. }
    rewrite E, H4. unfold status_after. rewrite H3.
    now rewrite (run_plain _ _ _ _ Hf).
  - destruct f as [|c f]; [discriminate|].
    change (String.eqb (String c f) "") with false. cbv iota.
    cbn [String.append]. rewrite (run_not_after_cr _ _ _ _ Hst).
    assert (E : parse_process_char {| state := st0; field := ""; fields := fs |} (Some DQUOTE)
                = Ok {| state := IN_QUOTED_FIELD; field := ""; fields := fs |}).
    { destruct Hst0 as [-> | ->]; reflexivity. }
    rewrite E. change (Ascii.eqb DQUOTE LF) with false. cbv iota.
    rewrite append_assoc. change (char DQUOTE ++ rest) with (String DQUOTE rest).
    now rewrite run_quoted_body.
Qed.

(** A field and the delimiter after it. *)
Lemma run_field_sep f st0 fs st rest :
  st0 = START_RECORD \/ st0 = START_FIELD ->
  st <> AfterCR ->
  run {| state := st0; field := ""; fields := fs |} st (csv_field f ++ String "," rest)
  = run {| state := START_FIELD; field := ""; fields := fs ++ [f] |} Mid rest.
Proof.
  intros Hst0 Hst. rewrite (run_field _ _ _ _ _ Hst0 Hst).
  destruct (String.eqb_spec f "") as [->|].
  - rewrite (run_not_after_cr _ _ _ _ Hst). destruct Hst0 as [-> | ->]; reflexivity.
  - destruct (string_forallb _ f); reflexivity.
Qed.

(** The last field of a record of several fields, and the line end. *)
Lemma run_field_end f fs st rest :
  st <> AfterCR ->
  run {| state := START_FIELD; field := ""; fields := fs |} st (csv_field f ++ CRLF ++ rest)
  = cons_record (fs ++ [f]) (run parse_reset Fresh rest).
Proof.
  intros Hst. rewrite (run_field _ START_FIELD _ _ _ (or_intror eq_refl) Hst).
  unfold CRLF, char. cbn [String.append].
  destruct (String.eqb_spec f "") as [->|].
  - rewrite (run_not_after_cr _ _ _ _ Hst). reflexivity.
  - destruct (string_forallb _ f); reflexivity.
Qed.

Lemma csv_row_three a b c rest :
  csv_row [a; b; c] ++ rest
  = csv_field a ++ String "," (csv_field b ++ String "," (csv_field c ++ CRLF ++ rest)).
Proof.
  unfold csv_row. cbn [List.map join].
  assert (E : forall x y z t : string, ((x ++ "," ++ y ++ "," ++ z) ++ CRLF) ++ t
                                      = x ++ String "," (y ++ String "," (z ++ CRLF ++ t))).
  { intros. rewrite !append_assoc. reflexivity. }
  destruct a; apply E.
Qed.

(** A written record of three fields is read back, whatever the fields. *)
Lemma run_row a b c rest :
  run parse_reset Fresh (csv_row [a; b; c] ++ rest)
  = cons_record [a; b; c] (run parse_reset Fresh rest).
Proof.
  rewrite csv_row_three. unfold parse_reset.
  rewrite run_field_sep by (auto; discriminate).
  rewrite run_field_sep by (auto; discriminate).
  rewrite run_field_end by discriminate. reflexivity.
Qed.

Lemma run_table rows :
  run parse_reset Fresh (table_text rows) = Ok (List.map cells_of rows).
Proof.
  induction rows as [|[[a b] c] rows IH]; [reflexivity|].
  cbn [table_text List.map]. unfold cells_of at 1. cbn [fst snd].
  rewrite run_row, IH. reflexivity.
Qed.

Lemma csv_rows_text_records rows :
  csv_rows_text (List.map record_of rows) = (table_text rows, None).
Proof.
  induction rows as [|[[a b] c] rows IH]; [reflexivity|].
  cbn [List.map csv_rows_text table_text].
  change (dict_to_list (record_of (a, b, c))) with (Ok [VStr a; VStr b; VStr c]).
  cbv iota. rewrite IH. reflexivity.
Qed.

Lemma filter_cells rows :
  List.filter (fun r => negb (is_blank r)) (List.map cells_of rows) = List.map cells_of rows.
Proof. induction rows as [|r rows IH]; simpl; [reflexivity|]. now rewrite IH. Qed.

Lemma row_dict_cells rows :
  List.map (row_dict fieldnames) (List.map cells_of rows) = List.map record_of rows.
Proof.
  induction rows as [|[[a b] c] rows IH]; [reflexivity|].
  cbn [List.map]. rewrite IH. reflexivity.
Qed.

(** A table written from records is read back as the same records. *)
Lemma dict_reader_table rows :
  dict_reader (csv_row fieldnames ++ table_text rows) = Ok (List.map record_of rows).
Proof.
  unfold dict_reader. rewrite read_records_run. unfold fieldnames at 1.
  rewrite run_row, run_table. cbn [cons_record].
  now rewrite filter_cells, row_dict_cells.
Qed.

Lemma csv_record_inv v : csv_record v = true -> exists cells, v = record_of cells.
Proof.
  destruct v as [| | | | |d]; try discriminate.
  destruct d as [|[[|k1] [| | |a| |]] [|[[|k2] [| | |b| |]] [|[[|k3] [| | |c| |]] [|]]]];
    try discriminate.
  cbn [csv_record]. rewrite !andb_true_iff, !String.eqb_eq. intros [[-> ->] ->].
  now exists (a, b, c).
Qed.

Lemma csv_records_inv items :
  forallb csv_record items = true -> exists rows, items = List.map record_of rows.
Proof.
  induction items as [|v items IH]; intros H.
  - now exists [].
  - simpl in H. apply andb_true_iff in H as [Hv Hr].
    destruct (csv_record_inv _ Hv) as [cells ->]. destruct (IH Hr) as [rows ->].
    now exists (cells :: rows).
Qed.

Lemma encode_csv_records rows :
  encode "csv" (VList (List.map record_of rows))
  = (csv_row fieldnames ++ table_text rows, None).
Proof. unfold encode. simpl. now rewrite csv_rows_text_records. Qed.

Lemma decode_csv_table rows :
  decode "csv" (csv_row fieldnames ++ table_text rows)
  = Ok (VList (List.map record_of rows)).
Proof.
  unfold decode. change (String.eqb "csv" "json") with false.
  change (String.eqb "csv" "csv") with true. cbv iota.
  now rewrite dict_reader_table.
Qed.

(** ** Round trip of the structured-record encoding *)

(** Induction on values, with the hypothesis for every item of a list and
    every value of a dict. *)
Lemma value_ind' (P : value -> Prop) :
  P VNone ->
  (forall b, P (VBool b)) ->
  (forall z, P (VInt z)) ->
  (forall s, P (VStr s)) ->
  (forall items, Forall P items -> P (VList items)) ->
  (forall d, Forall (fun kv => P (snd kv)) d -> P (VDict d)) ->
  forall v, P v.
Proof.
  intros HN HB HI HS HL HD.
  fix IH 1. intros [| b | z | s | items | d].
  - exact HN.
  - apply HB.
  - apply HI.
  - apply HS.
  - apply HL. induction items as [|x items IHitems]; constructor; [apply IH|exact IHitems].
  - apply HD. induction d as [|[k x] d IHd]; constructor; [apply IH|exact IHd].
Qed.

(** *** Strings *)

Lemma scan_string_escape c t :
  scan_string (json_escape c ++ t) = cons_char c (scan_string t).
Proof.
  each_char c; reflexivity.
Qed.

Lemma scan_string_escaped s rest :
  scan_string (json_escape_all s ++ String DQUOTE rest) = Some (s, rest).
Proof.
  induction s as [|c s IH]; [reflexivity|].
  cbn [json_escape_all]. rewrite append_assoc, scan_string_escape, IH. reflexivity.
Qed.

Lemma scan_string_json_string s rest :
  scan_string (tail (json_string s ++ rest)) = Some (s, rest).
Proof.
  unfold json_string. cbn [String.append tail].
  rewrite append_assoc. apply scan_string_escaped.
Qed.

(** *** Integers *)

Lemma uint_of_char_nondigit c d :
  is_digit c = false -> DecimalString.uint_of_char c (Some d) = None.
Proof.
  each_char c; intros H; try reflexivity;
    vm_compute in H; discriminate H.
Qed.

Lemma ends_number_digit c rest : ends_number (String c rest) = true -> is_digit c = false.
Proof. simpl. intros [H _]%andb_true_iff. now apply negb_true_iff in H. Qed.

Lemma ends_number_float rest : ends_number rest = true -> float_follows rest = false.
Proof.
  destruct rest as [|c rest]; [reflexivity|].
  unfold ends_number. intros [_ H]%andb_true_iff. now apply negb_true_iff in H.
Qed.

Lemma take_digits_uint d : forall rest,
  ends_number rest = true ->
  take_digits (NilEmpty.string_of_uint d ++ rest) = (d, rest).
Proof.
  induction d as [|d IH|d IH|d IH|d IH|d IH|d IH|d IH|d IH|d IH|d IH]; intros rest H;
    try (cbn [NilEmpty.string_of_uint String.append take_digits]; rewrite (IH _ H);
         reflexivity).
  cbn [NilEmpty.string_of_uint String.append].
  destruct rest as [|c rest]; [reflexivity|].
  cbn [take_digits]. destruct (take_digits rest) as [d' rest'].
  now rewrite (uint_of_char_nondigit _ _ (ends_number_digit _ _ H)).
Qed.

Lemma to_uint_normal n d : N.to_uint n = Decimal.D0 d -> d = Decimal.Nil.
Proof.
  intros H. pose proof (DecimalN.Unsigned.to_of (N.to_uint n)) as E.
  rewrite DecimalN.Unsigned.of_to, H in E.
  unfold Decimal.unorm in E. cbn [Decimal.nzhead] in E.
  destruct (Decimal.nzhead d) eqn:Hd; try congruence.
  exfalso. eapply DecimalFacts.nzhead_nonzero. rewrite Hd. symmetry. exact E.
Qed.

Lemma to_uint_nonnil n : N.to_uint n <> Decimal.Nil.
Proof. destruct n; [discriminate|apply DecimalPos.Unsigned.to_uint_nonnil]. Qed.

(** The numeral of a number is a single zero or begins with a nonzero
    digit. *)
Lemma str_of_N_head n :
  str_of_N n = "0"
  \/ exists c s, str_of_N n = String c s /\ is_digit c = true /\ Ascii.eqb c "0" = false.
Proof.
  unfold str_of_N. pose proof (to_uint_nonnil n) as Hnil.
  pose proof (to_uint_normal n) as Hnorm.
  destruct (N.to_uint n) as [|d|d|d|d|d|d|d|d|d|d]; [congruence| |right..];
    cbn [NilEmpty.string_of_uint]; try (do 2 eexists; split; [reflexivity|split; reflexivity]).
  left. now rewrite (Hnorm d eq_refl).
Qed.

Lemma scan_digits_numeral negative n rest :
  ends_number rest = true ->
  scan_digits negative (str_of_N n ++ rest)
  = Some (if negative then - Z.of_N n else Z.of_N n, rest).
Proof.
  intros H. pose proof (ends_number_float _ H) as Hf.
  destruct (str_of_N_head n) as [E|(c & s & E & Hd & H0)].
  - assert (n = 0%N) as ->.
    { apply DecimalN.Unsigned.to_uint_inj. unfold str_of_N in E.
      destruct (N.to_uint n) as [|d|d|d|d|d|d|d|d|d|d]; try discriminate E.
      cbn in E. destruct d; try discriminate E. reflexivity. }
    cbn. rewrite Hf. now destruct negative.
  - pose proof (take_digits_uint (N.to_uint n) rest H) as Ht.
    fold (str_of_N n) in Ht. rewrite E in *. cbn [String.append] in *.
    unfold scan_digits. rewrite H0, Hd, Ht, Hf, DecimalN.Unsigned.of_to. reflexivity.
Qed.

Lemma digit_not_minus c : is_digit c = true -> Ascii.eqb c "-" = false.
Proof.
  each_char c; intros H; try reflexivity;
    vm_compute in H; discriminate H.
Qed.

Lemma scan_int_numeral z rest :
  ends_number rest = true ->
  scan_int (str_of_Z z ++ rest) = Some (z, rest).
Proof.
  intros H. unfold str_of_Z. destruct (z <? 0) eqn:Hz.
  - cbn [String.append scan_int]. change (Ascii.eqb "-" "-") with true. cbv iota.
    rewrite (scan_digits_numeral _ _ _ H). apply Z.ltb_lt in Hz.
    rewrite N2Z.inj_abs_N. do 2 f_equal. lia.
  - apply Z.ltb_ge in Hz.
    pose proof (scan_digits_numeral false (Z.to_N z) rest H) as E.
    rewrite Z2N.id in E by assumption.
    destruct (str_of_N_head (Z.to_N z)) as [E0|(c & s & E0 & Hd & H0)]; rewrite E0 in *.
    + exact E.
    + cbn [String.append scan_int] in *. now rewrite (digit_not_minus _ Hd).
Qed.

(** The first character of a numeral. *)
Lemma str_of_Z_head z :
  exists c s, str_of_Z z = String c s /\ number_start c = true.
Proof.
  unfold str_of_Z. destruct (z <? 0); [do 2 eexists; split; reflexivity|].
  destruct (str_of_N_head (Z.to_N z)) as [E0|(c & s & E0 & Hd & H0)]; rewrite E0.
  - do 2 eexists; split; reflexivity.
  - exists c, s. split; [reflexivity|]. unfold number_start. now rewrite Hd.
Qed.

Lemma number_start_facts c :
  number_start c = true ->
  Ascii.eqb c DQUOTE = false /\ Ascii.eqb c "{" = false /\ Ascii.eqb c "[" = false
  /\ Ascii.eqb "n" c = false /\ Ascii.eqb "t" c = false /\ Ascii.eqb "f" c = false
  /\ is_ws c = false /\ Ascii.eqb c "]" = false /\ Ascii.eqb c CR = false.
Proof.
  each_char c; intros H; vm_compute in H;
    try discriminate H; repeat split.
Qed.

Lemma scan_literal_numeral z rest :
  ends_number rest = true ->
  scan_literal (str_of_Z z ++ rest) = Some (VInt z, rest).
Proof.
  intros H. pose proof (scan_int_numeral z rest H) as E.
  destruct (str_of_Z_head z) as (c & s & Ez & Hc). rewrite Ez in *.
  destruct (number_start_facts c Hc) as (_ & _ & _ & Hn & Ht & Hf & _).
  unfold scan_literal. cbn [String.append strip_prefix] in *.
  now rewrite Hn, Ht, Hf, E.
Qed.

(** *** White space and the first character of a value *)

Lemma skip_ws_spaces n s : skip_ws (spaces n ++ s) = skip_ws s.
Proof. induction n as [|n IH]; [reflexivity|]. cbn [spaces String.append skip_ws]. exact IH. Qed.

Lemma skip_ws_newline_indent level s : skip_ws (newline_indent level ++ s) = skip_ws s.
Proof. unfold newline_indent. cbn [String.append skip_ws]. apply skip_ws_spaces. Qed.

Lemma skip_ws_head c s : is_ws c = false -> skip_ws (String c s) = String c s.
Proof. intros H. cbn [skip_ws]. now rewrite H. Qed.

Lemma json_encode_list level x xs :
  json_encode level (VList (x :: xs))
  = "[" ++ newline_indent (S level)
        ++ join (item_separator (S level)) (List.map (json_encode (S level)) (x :: xs))
        ++ newline_indent level ++ "]".
Proof. reflexivity. Qed.

Lemma json_encode_dict level kv d :
  json_encode level (VDict (kv :: d))
  = "{" ++ newline_indent (S level)
        ++ join (item_separator (S level)) (List.map (json_member (S level)) (kv :: d))
        ++ newline_indent level ++ "}".
Proof. reflexivity. Qed.

(** An encoded value begins with a character that is no white space and
    closes no array. *)
Lemma json_encode_head level v :
  exists c s, json_encode level v = String c s
              /\ is_ws c = false /\ Ascii.eqb c "]" = false.
Proof.
  destruct v as [| [] | z | s | [|x xs] | [|kv d]];
    try (do 2 eexists; split; [reflexivity|split; reflexivity]).
  cbn [json_encode]. destruct (str_of_Z_head z) as (c & s & -> & Hc).
  destruct (number_start_facts c Hc) as (_ & _ & _ & _ & _ & _ & Hw & Hb & _).
  eauto.
Qed.

Lemma json_encode_length level v : (1 <= String.length (json_encode level v))%nat.
Proof.
  destruct (json_encode_head level v) as (c & s & -> & _). simpl. lia.
Qed.

Lemma skip_ws_json_encode level v rest :
  skip_ws (json_encode level v ++ rest) = json_encode level v ++ rest.
Proof.
  destruct (json_encode_head level v) as (c & s & -> & Hw & _).
  cbn [String.append]. now apply skip_ws_head.
Qed.

Lemma starts_with_json_encode level v rest :
  starts_with "]" (json_encode level v ++ rest) = false.
Proof.
  destruct (json_encode_head level v) as (c & s & -> & _ & Hb). exact Hb.
Qed.

(** *** Dicts with distinct keys *)

Lemma key_eqb_sym a b : key_eqb a b = key_eqb b a.
Proof. destruct a, b; simpl; try reflexivity. apply String.eqb_sym. Qed.

Lemma dict_set_fresh d k v :
  existsb (fun kv' => key_eqb (fst kv') k) d = false ->
  dict_set d k v = (d ++ [(k, v)])%list.
Proof.
  induction d as [|[k' v'] d IH]; simpl; [reflexivity|].
  intros [Hk Hd]%orb_false_iff. rewrite Hk, (IH Hd). reflexivity.
Qed.

Lemma dict_of_pairs_from d : forall acc,
  unique_keys (acc ++ d)%list = true ->
  fold_left (fun d kv => dict_set d (fst kv) (snd kv)) d acc = (acc ++ d)%list.
Proof.
  induction d as [|[k v] d IH]; intros acc H; cbn [fold_left fst snd].
  - now rewrite List.app_nil_r.
  - rewrite dict_set_fresh.
    + rewrite IH; rewrite <- List.app_assoc; [reflexivity|exact H].
    + clear IH. induction acc as [|[k' v'] acc IHacc]; [reflexivity|].
      cbn [List.app unique_keys fst] in H. apply andb_true_iff in H as [Hk H].
      cbn [existsb fst]. rewrite (IHacc H), orb_false_r.
      apply negb_true_iff in Hk. rewrite existsb_app in Hk.
      apply orb_false_iff in Hk as [_ Hk]. cbn [existsb fst] in Hk.
      apply orb_false_iff in Hk as [Hk _]. now rewrite key_eqb_sym.
Qed.

Lemma dict_of_pairs_unique d : unique_keys d = true -> dict_of_pairs d = d.
Proof. intros H. unfold dict_of_pairs. now rewrite dict_of_pairs_from. Qed.

(** *** Values *)

Lemma scan_once_string fuel s :
  scan_once (S fuel) (String DQUOTE s)
  = match scan_string s with
    | Some (t, rest) => Some (VStr t, rest)
    | None => None
    end.
Proof. reflexivity. Qed.

Lemma scan_once_array fuel s :
  scan_once (S fuel) (String "[" s)
  = if starts_with "]" (skip_ws s) then Some (VList [], tail (skip_ws s))
    else match scan_items fuel (skip_ws s) with
         | Some (items, rest) => Some (VList items, rest)
         | None => None
         end.
Proof. reflexivity. Qed.

Lemma scan_once_object fuel s :
  scan_once (S fuel) (String "{" s)
  = if starts_with "}" (skip_ws s) then Some (VDict [], tail (skip_ws s))
    else match scan_members fuel (skip_ws s) with
         | Some (pairs, rest) => Some (VDict (dict_of_pairs pairs), rest)
         | None => None
         end.
Proof. reflexivity. Qed.

Lemma scan_items_eq fuel s :
  scan_items (S fuel) s
  = match scan_once fuel s with
    | Some (v, rest) =>
        if starts_with "," (skip_ws rest) then
          match scan_items fuel (skip_ws (tail (skip_ws rest))) with
          | Some (items, rest') => Some (v :: items, rest')
          | None => None
          end
        else if starts_with "]" (skip_ws rest) then Some ([v], tail (skip_ws rest))
        else None
    | None => None
    end.
Proof. reflexivity. Qed.

Lemma scan_members_eq fuel s :
  scan_members (S fuel) s
  = if starts_with DQUOTE s then
      match scan_string (tail s) with
      | Some (k, rest) =>
          if starts_with ":" (skip_ws rest) then
            match scan_once fuel (skip_ws (tail (skip_ws rest))) with
            | Some (v, rest') =>
                if starts_with "," (skip_ws rest') then
                  match scan_members fuel (skip_ws (tail (skip_ws rest'))) with
                  | Some (pairs, rest'') => Some ((KStr k, v) :: pairs, rest'')
                  | None => None
                  end
                else if starts_with "}" (skip_ws rest') then
                  Some ([(KStr k, v)], tail (skip_ws rest'))
                else None
            | None => None
            end
          else None
      | None => None
      end
    else None.
Proof. reflexivity. Qed.

Lemma join_cons sep a b l : join sep (a :: b :: l) = a ++ sep ++ join sep (b :: l).
Proof. reflexivity. Qed.

(** The items of an array, from the first item to the closing bracket. *)
Lemma scan_items_encode level rest : forall items,
  items <> [] ->
  Forall scans_back items ->
  forallb json_clean items = true ->
  forall fuel,
    (String.length (join (item_separator (S level))
                      (List.map (json_encode (S level)) items)) < fuel)%nat ->
    scan_items fuel
      (join (item_separator (S level)) (List.map (json_encode (S level)) items)
         ++ newline_indent level ++ String "]" rest)
    = Some (items, rest).
Proof.
  induction items as [|x items IH]; [congruence|].
  intros _ Hall Hclean fuel Hfuel.
  inversion Hall as [|? ? Hx Hitems]; subst.
  cbn [forallb] in Hclean. apply andb_true_iff in Hclean as [Hcx Hcitems].
  destruct fuel as [|fuel]; [lia|]. rewrite scan_items_eq.
  destruct items as [|y more].
  - cbn [List.map join] in *.
    rewrite (Hx (S level) _ fuel Hcx) by (reflexivity || lia).
    rewrite skip_ws_newline_indent. reflexivity.
  - cbn [List.map] in *. rewrite join_cons in *.
    rewrite append_length in Hfuel.
    pose proof (json_encode_length (S level) x).
    rewrite !append_assoc. unfold item_separator at 1. cbn [String.append].
    rewrite (Hx (S level) _ fuel Hcx) by (reflexivity || lia).
    rewrite (skip_ws_head "," _ eq_refl). cbn [starts_with tail].
    change (Ascii.eqb "," ",") with true. cbv iota.
    rewrite skip_ws_newline_indent.
    assert (Hskip : forall t, skip_ws (join (item_separator (S level))
                                  (json_encode (S level) y :: List.map (json_encode (S level)) more) ++ t)
                              = join (item_separator (S level))
                                  (json_encode (S level) y :: List.map (json_encode (S level)) more) ++ t).
    { intros t. destruct more; cbn [List.map join];
        rewrite ?append_assoc; apply skip_ws_json_encode. }
    rewrite Hskip.
    rewrite (IH ltac:(discriminate) Hitems Hcitems fuel); [reflexivity|].
    rewrite append_length in Hfuel. lia.
Qed.

Lemma skip_ws_json_member level kv rest :
  skip_ws (json_member level kv ++ rest) = json_member level kv ++ rest.
Proof. unfold json_member, json_string. cbn [String.append]. now apply skip_ws_head. Qed.

Lemma json_member_length level kv :
  (String.length (json_encode level (snd kv)) < String.length (json_member level kv))%nat.
Proof.
  unfold json_member, json_string. cbn [String.append String.length].
  rewrite !append_length. cbn [String.length]. lia.
Qed.

(** The members of an object, from the first key to the closing brace. *)
Lemma scan_members_encode level rest : forall d,
  d <> [] ->
  Forall (fun kv => scans_back (snd kv)) d ->
  forallb (fun kv => is_str_key (fst kv) && json_clean (snd kv)) d = true ->
  forall fuel,
    (String.length (join (item_separator (S level))
                      (List.map (json_member (S level)) d)) < fuel)%nat ->
    scan_members fuel
      (join (item_separator (S level)) (List.map (json_member (S level)) d)
         ++ newline_indent level ++ String "}" rest)
    = Some (d, rest).
Proof.
  induction d as [|[k x] d IH]; [congruence|].
  intros _ Hall Hclean fuel Hfuel.
  inversion Hall as [|? ? Hx Hd]; subst. cbn [snd] in Hx.
  cbn [forallb fst snd] in Hclean. apply andb_true_iff in Hclean as [Hkx Hcd].
  apply andb_true_iff in Hkx as [Hk Hcx].
  destruct k as [|k]; [discriminate|]. clear Hk.
  destruct fuel as [|fuel]; [lia|]. rewrite scan_members_eq.
  pose proof (json_member_length (S level) (KStr k, x)) as Hlen. cbn [snd] in Hlen.
  assert (Hmember : forall t,
            json_member (S level) (KStr k, x) ++ t
            = json_string k ++ String ":" (String " " (json_encode (S level) x ++ t))).
  { intros t. unfold json_member. cbn [fst snd json_key]. rewrite !append_assoc. reflexivity. }
  assert (Hstart : forall t, starts_with DQUOTE (json_string k ++ t) = true) by reflexivity.
  destruct d as [|[k' y] more].
  - cbn [List.map join] in *. rewrite Hmember, Hstart, scan_string_json_string.
    rewrite (skip_ws_head ":" _ eq_refl). cbn [starts_with tail].
    change (Ascii.eqb ":" ":") with true. cbv iota.
    change (skip_ws (String " " ?s)) with (skip_ws s).
    rewrite skip_ws_json_encode.
    rewrite (Hx (S level) _ fuel Hcx) by (reflexivity || lia).
    rewrite skip_ws_newline_indent. reflexivity.
  - cbn [List.map] in *. rewrite join_cons in *.
    rewrite append_length in Hfuel.
    rewrite append_assoc, Hmember, Hstart, scan_string_json_string.
    rewrite (skip_ws_head ":" _ eq_refl). cbn [starts_with tail].
    change (Ascii.eqb ":" ":") with true. cbv iota.
    change (skip_ws (String " " ?s)) with (skip_ws s).
    rewrite skip_ws_json_encode.
    rewrite !append_assoc. unfold item_separator at 1. cbn [String.append].
    rewrite (Hx (S level) _ fuel Hcx) by (reflexivity || lia).
    rewrite (skip_ws_head "," _ eq_refl). cbn [starts_with tail].
    change (Ascii.eqb "," ",") with true. cbv iota.
    rewrite skip_ws_newline_indent.
    assert (Hskip : forall t, skip_ws (join (item_separator (S level))
                                  (json_member (S level) (k', y)
                                   :: List.map (json_member (S level)) more) ++ t)
                              = join (item_separator (S level))
                                  (json_member (S level) (k', y)
                                   :: List.map (json_member (S level)) more) ++ t).
    { intros t. destruct more; cbn [List.map join];
        rewrite ?append_assoc; apply skip_ws_json_member. }
    rewrite Hskip.
    rewrite (IH ltac:(discriminate) Hd Hcd fuel); [reflexivity|].
    rewrite append_length in Hfuel. lia.
Qed.

Lemma scan_once_literal fuel c s :
  Ascii.eqb c DQUOTE = false -> Ascii.eqb c "{" = false -> Ascii.eqb c "[" = false ->
  scan_once (S fuel) (String c s) = scan_literal (String c s).
Proof. intros H1 H2 H3. cbn [scan_once]. now rewrite H1, H2, H3. Qed.

(** Every clean value is read back from its text. *)
Lemma scan_once_encode v : scans_back v.
Proof.
  induction v as [| b | z | s | items IH | d IH] using value_ind';
    intros level rest fuel Hclean Hrest Hfuel;
    (destruct fuel as [|fuel];
     [match type of Hfuel with
      | (String.length (json_encode _ ?v) <= _)%nat =>
          pose proof (json_encode_length level v); lia
      end|]).
  - reflexivity.
  - destruct b; reflexivity.
  - cbn [json_encode]. pose proof (scan_literal_numeral z rest Hrest) as E.
    destruct (str_of_Z_head z) as (c & t & Ez & Hc). rewrite Ez in *.
    destruct (number_start_facts c Hc) as (H1 & H2 & H3 & _).
    cbn [String.append] in *. now rewrite scan_once_literal.
  - cbn [json_encode]. unfold json_string. cbn [String.append].
    rewrite scan_once_string, append_assoc.
    change (char DQUOTE ++ rest) with (String DQUOTE rest).
    now rewrite scan_string_escaped.
  - destruct items as [|x xs]; [reflexivity|].
    rewrite json_encode_list in *. cbn [String.append String.length] in *.
    rewrite scan_once_array, !append_assoc, skip_ws_newline_indent.
    assert (Hhead : exists t, join (item_separator (S level))
                         (List.map (json_encode (S level)) (x :: xs))
                       = json_encode (S level) x ++ t).
    { destruct xs; cbn [List.map join]; [exists ""; now rewrite append_nil_r|eauto]. }
    destruct Hhead as [t Hhead].
    assert (Hskip : skip_ws (join (item_separator (S level))
                               (List.map (json_encode (S level)) (x :: xs))
                             ++ newline_indent level ++ "]" ++ rest)
                    = join (item_separator (S level))
                        (List.map (json_encode (S level)) (x :: xs))
                      ++ newline_indent level ++ "]" ++ rest).
    { rewrite Hhead, append_assoc. apply skip_ws_json_encode. }
    rewrite Hskip.
    assert (Hstart : starts_with "]" (join (item_separator (S level))
                                        (List.map (json_encode (S level)) (x :: xs))
                                      ++ newline_indent level ++ "]" ++ rest) = false).
    { rewrite Hhead, append_assoc. apply starts_with_json_encode. }
    rewrite Hstart.
    change ("]" ++ rest) with (String "]" rest).
    rewrite (scan_items_encode level rest (x :: xs)); try reflexivity; try assumption.
    + discriminate.
    + rewrite !append_length in Hfuel. cbn [String.length] in Hfuel. lia.
  - destruct d as [|kv d]; [reflexivity|].
    cbn [json_clean] in Hclean. apply andb_true_iff in Hclean as [Hclean Huniq].
    rewrite json_encode_dict in *. cbn [String.append String.length] in *.
    rewrite scan_once_object, !append_assoc, skip_ws_newline_indent.
    assert (Hhead : exists t, join (item_separator (S level))
                         (List.map (json_member (S level)) (kv :: d))
                       = json_member (S level) kv ++ t).
    { destruct d; cbn [List.map join]; [exists ""; now rewrite append_nil_r|eauto]. }
    destruct Hhead as [t Hhead].
    assert (Hskip : skip_ws (join (item_separator (S level))
                               (List.map (json_member (S level)) (kv :: d))
                             ++ newline_indent level ++ "}" ++ rest)
                    = join (item_separator (S level))
                        (List.map (json_member (S level)) (kv :: d))
                      ++ newline_indent level ++ "}" ++ rest).
    { rewrite Hhead, append_assoc. apply skip_ws_json_member. }
    rewrite Hskip.
    assert (Hstart : starts_with "}" (join (item_separator (S level))
                                        (List.map (json_member (S level)) (kv :: d))
                                      ++ newline_indent level ++ "}" ++ rest) = false).
    { rewrite Hhead. reflexivity. }
    rewrite Hstart.
    change ("}" ++ rest) with (String "}" rest).
    rewrite (scan_members_encode level rest (kv :: d)); try assumption.
    + now rewrite (dict_of_pairs_unique _ Huniq).
    + discriminate.
    + rewrite !append_length in Hfuel. cbn [String.length] in Hfuel. lia.
Qed.

(** *** The text has no carriage return *)

Lemma no_cr_app a b : no_cr (a ++ b) = no_cr a && no_cr b.
Proof. apply string_forallb_app. Qed.

Lemma json_escape_no_cr c : no_cr (json_escape c) = true.
Proof. each_char c; reflexivity. Qed.

Lemma json_string_no_cr s : no_cr (json_string s) = true.
Proof.
  unfold json_string. change (no_cr (String DQUOTE ?t)) with (no_cr t).
  rewrite no_cr_app, andb_true_r.
  induction s as [|c s IH]; [reflexivity|].
  cbn [json_escape_all]. now rewrite no_cr_app, json_escape_no_cr, IH.
Qed.

Lemma string_of_uint_no_cr d : no_cr (NilEmpty.string_of_uint d) = true.
Proof. induction d; [reflexivity|exact IHd..]. Qed.

Lemma str_of_Z_no_cr z : no_cr (str_of_Z z) = true.
Proof. unfold str_of_Z, str_of_N. destruct (z <? 0); apply string_of_uint_no_cr. Qed.

Lemma newline_indent_no_cr level : no_cr (newline_indent level) = true.
Proof.
  unfold newline_indent. change (no_cr (String LF ?t)) with (no_cr t).
  induction (4 * level)%nat as [|n IH]; [reflexivity|exact IH].
Qed.

Lemma join_no_cr sep parts :
  no_cr sep = true -> forallb no_cr parts = true -> no_cr (join sep parts) = true.
Proof.
  intros Hsep. induction parts as [|a [|b parts] IH]; intros H; [reflexivity| |].
  - simpl in *. now rewrite andb_true_r in H.
  - rewrite join_cons, !no_cr_app, Hsep.
    cbn [forallb] in H. apply andb_true_iff in H as [Ha H].
    rewrite Ha. now apply IH.
Qed.

Lemma item_separator_no_cr level : no_cr (item_separator level) = true.
Proof. unfold item_separator. cbn [String.append]. apply newline_indent_no_cr. Qed.

Lemma forallb_map_Forall {A} (P : A -> Prop) (f : A -> string) l :
  Forall P l -> (forall x, P x -> no_cr (f x) = true) ->
  forallb no_cr (List.map f l) = true.
Proof.
  intros H Hf. induction H as [|x l Hx _ IH]; [reflexivity|].
  cbn [List.map forallb]. now rewrite (Hf _ Hx), IH.
Qed.

Lemma json_encode_no_cr v : forall level, no_cr (json_encode level v) = true.
Proof.
  induction v as [| b | z | s | items IH | d IH] using value_ind'; intros level.
  - reflexivity.
  - destruct b; reflexivity.
  - apply str_of_Z_no_cr.
  - apply json_string_no_cr.
  - destruct items as [|x xs]; [reflexivity|].
    rewrite json_encode_list. change (no_cr ("[" ++ ?t)) with (no_cr t).
    rewrite !no_cr_app, !newline_indent_no_cr, join_no_cr; try reflexivity.
    + apply item_separator_no_cr.
    + apply (forallb_map_Forall _ _ _ IH). auto.
  - destruct d as [|kv d]; [reflexivity|].
    rewrite json_encode_dict. change (no_cr ("{" ++ ?t)) with (no_cr t).
    rewrite !no_cr_app, !newline_indent_no_cr, join_no_cr; try reflexivity.
    + apply item_separator_no_cr.
    + apply (forallb_map_Forall _ _ _ IH). intros x Hx. unfold json_member.
      now rewrite !no_cr_app, json_string_no_cr, Hx.
Qed.

(** A clean value written as JSON is loaded back unchanged. *)
Lemma json_loads_dumps v : json_clean v = true -> json_loads (json_dumps v) = Ok v.
Proof.
  intros H. unfold json_loads, json_dumps.
  pose proof (skip_ws_json_encode 0%nat v "") as Hs. rewrite append_nil_r in Hs. rewrite Hs.
  pose proof (scan_once_encode v 0%nat ""
                (2 * String.length (json_encode 0 v) + 1)%nat H eq_refl) as E.
  rewrite append_nil_r in E. rewrite E by lia. reflexivity.
Qed.

Lemma decode_json_dumps v : json_clean v = true -> decode "json" (json_dumps v) = Ok v.
Proof.
  intros H. unfold decode. change (String.eqb "json" "json") with true. cbv iota.
  rewrite universal_newlines_no_cr by apply json_encode_no_cr.
  now apply json_loads_dumps.
Qed.

(** *** What the decoder returns is clean *)

Lemma key_eqb_eq a b : key_eqb a b = true <-> a = b.
Proof.
  destruct a, b; simpl; try (split; congruence).
  rewrite String.eqb_eq. split; congruence.
Qed.

Lemma key_eqb_refl a : key_eqb a a = true.
Proof. now apply key_eqb_eq. Qed.

Lemma dict_set_has d k v k0 :
  existsb (fun kv' => key_eqb (fst kv') k0) (dict_set d k v)
  = existsb (fun kv' => key_eqb (fst kv') k0) d || key_eqb k k0.
Proof.
  induction d as [|[k' v'] d IH]; cbn [dict_set existsb fst].
  - now rewrite orb_false_r.
  - destruct (key_eqb k' k) eqn:E; cbn [existsb fst].
    + apply key_eqb_eq in E. subst k'.
      destruct (key_eqb k k0); [reflexivity|now rewrite orb_false_r].
    + rewrite IH, orb_assoc. reflexivity.
Qed.

Lemma dict_set_unique d k v :
  unique_keys d = true -> unique_keys (dict_set d k v) = true.
Proof.
  induction d as [|[k' v'] d IH]; cbn [dict_set unique_keys fst]; [reflexivity|].
  intros [Hk Hd]%andb_true_iff.
  destruct (key_eqb k' k) eqn:E; cbn [unique_keys fst].
  - now rewrite Hk, Hd.
  - rewrite dict_set_has, (IH Hd), andb_true_r.
    apply negb_true_iff in Hk. rewrite Hk, key_eqb_sym, E. reflexivity.
Qed.

Lemma dict_set_clean d k v :
  forallb clean_member d = true ->
  clean_member (k, v) = true ->
  forallb clean_member (dict_set d k v) = true.
Proof.
  intros Hd Hkv. induction d as [|[k' v'] d IH]; cbn [dict_set forallb].
  - now rewrite Hkv.
  - cbn [forallb] in Hd. apply andb_true_iff in Hd as [Hk' Hd].
    destruct (key_eqb k' k) eqn:E; cbn [forallb].
    + apply key_eqb_eq in E. subst k'. now rewrite Hkv, Hd.
    + now rewrite Hk', (IH Hd).
Qed.

Lemma dict_of_pairs_clean pairs :
  forallb clean_member pairs = true ->
  json_clean (VDict (dict_of_pairs pairs)) = true.
Proof.
  intros H. cbn [json_clean]. fold clean_member. unfold dict_of_pairs.
  assert (G : forall acc,
            forallb clean_member acc = true -> unique_keys acc = true ->
            forallb clean_member
              (fold_left (fun d kv => dict_set d (fst kv) (snd kv)) pairs acc) = true
            /\ unique_keys
                 (fold_left (fun d kv => dict_set d (fst kv) (snd kv)) pairs acc) = true).
  { induction pairs as [|[k v] pairs IH]; intros acc Hacc Hu; cbn [fold_left fst snd].
    - auto.
    - cbn [forallb] in H. apply andb_true_iff in H as [Hkv H].
      apply (IH H); [now apply dict_set_clean|now apply dict_set_unique]. }
  destruct (G [] eq_refl eq_refl) as [G1 G2]. now rewrite G1, G2.
Qed.

Lemma scan_literal_clean s v rest : scan_literal s = Some (v, rest) -> json_clean v = true.
Proof.
  unfold scan_literal.
  repeat match goal with
         | |- context [match ?x with _ => _ end] => destruct x as [?|]
         | p : (_ * _)%type |- _ => destruct p
         end; intros [= <- _]; reflexivity.
Qed.

Lemma scan_clean fuel :
  (forall s v rest, scan_once fuel s = Some (v, rest) -> json_clean v = true)
  /\ (forall s items rest,
        scan_items fuel s = Some (items, rest) -> forallb json_clean items = true)
  /\ (forall s pairs rest,
        scan_members fuel s = Some (pairs, rest) -> forallb clean_member pairs = true).
Proof.
  induction fuel as [|fuel (IH1 & IH2 & IH3)]; [repeat split; discriminate|].
  repeat split.
  - intros [|c s] v rest; [discriminate|]. cbn [scan_once].
    destruct (Ascii.eqb c DQUOTE).
    { destruct (scan_string s) as [[t r]|]; intros [= <- _]; reflexivity. }
    destruct (Ascii.eqb c "{").
    { cbv zeta. destruct (starts_with "}" (skip_ws s)); [intros [= <- _]; reflexivity|].
      destruct (scan_members fuel (skip_ws s)) as [[pairs r]|] eqn:E; intros [= <- _].
      apply dict_of_pairs_clean. eapply IH3, E. }
    destruct (Ascii.eqb c "[").
    { cbv zeta. destruct (starts_with "]" (skip_ws s)); [intros [= <- _]; reflexivity|].
      destruct (scan_items fuel (skip_ws s)) as [[items r]|] eqn:E; intros [= <- _].
      cbn [json_clean]. eapply IH2, E. }
    apply scan_literal_clean.
  - intros s items rest. rewrite scan_items_eq.
    destruct (scan_once fuel s) as [[v r]|] eqn:E; [|discriminate].
    pose proof (IH1 _ _ _ E) as Hv.
    destruct (starts_with "," (skip_ws r)).
    + destruct (scan_items fuel _) as [[items' r']|] eqn:E'; intros [= <- _].
      cbn [forallb]. rewrite Hv. eapply IH2, E'.
    + destruct (starts_with "]" (skip_ws r)); intros [= <- _].
      cbn [forallb]. now rewrite Hv.
  - intros s pairs rest. rewrite scan_members_eq.
    destruct (starts_with DQUOTE s); [|discriminate].
    destruct (scan_string (tail s)) as [[k r]|]; [|discriminate].
    destruct (starts_with ":" (skip_ws r)); [|discriminate].
    destruct (scan_once fuel _) as [[v r']|] eqn:E; [|discriminate].
    pose proof (IH1 _ _ _ E) as Hv.
    destruct (starts_with "," (skip_ws r')).
    + destruct (scan_members fuel _) as [[pairs' r'']|] eqn:E'; intros [= <- _].
      cbn [forallb]. unfold clean_member at 1. cbn [fst snd is_str_key].
      rewrite Hv. eapply IH3, E'.
    + destruct (starts_with "}" (skip_ws r')); intros [= <- _].
      cbn [forallb]. unfold clean_member. cbn [fst snd is_str_key]. now rewrite Hv.
Qed.

Lemma json_loads_clean text v : json_loads text = Ok v -> json_clean v = true.
Proof.
  unfold json_loads. destruct (scan_once _ _) as [[v' rest]|] eqn:E; [|discriminate].
  destruct (skip_ws rest); intros [= <-]. eapply (proj1 (scan_clean _)), E.
Qed.

(** ** Saving, loading and saving again *)

Lemma fs_log_failure message e w : fs (log_failure message e w) = fs w.
Proof. now destruct e. Qed.

Lemma current_file_path_log_failure message e w :
  current_file_path (log_failure message e w) = current_file_path w.
Proof. now destruct e. Qed.

(** *** The structured-record encoding *)

Lemma unique_keys_fst (d1 d2 : list (key * value)) :
  List.map fst d1 = List.map fst d2 -> unique_keys d1 = unique_keys d2.
Proof.
  revert d2. induction d1 as [|kv d1 IH]; intros [|kv' d2] H; try discriminate; [reflexivity|].
  cbn [List.map] in H. injection H as Hk Hd. cbn [unique_keys]. rewrite Hk, (IH _ Hd).
  f_equal. f_equal. clear IH. revert d2 Hd.
  induction d1 as [|x d1 IH]; intros [|y d2] Hd; try discriminate; [reflexivity|].
  cbn [List.map] in Hd. injection Hd as Hx Hd. cbn [existsb]. now rewrite Hx, (IH _ Hd).
Qed.

(** The text of a value is the text of what is read back from it. *)
Lemma json_encode_reread v : forall level,
  json_encode level (json_reread v) = json_encode level v.
Proof.
  induction v as [| | | |items IH|d IH] using value_ind'; intros level; try reflexivity.
  - destruct items as [|x xs]; [reflexivity|].
    change (json_reread (VList (x :: xs))) with (VList (List.map json_reread (x :: xs))).
    change (List.map json_reread (x :: xs))
      with (json_reread x :: List.map json_reread xs) at 1.
    rewrite !json_encode_list. do 4 f_equal.
    change (json_reread x :: List.map json_reread xs) with (List.map json_reread (x :: xs)).
    rewrite List.map_map. apply List.map_ext_Forall.
    eapply List.Forall_impl; [|exact IH]. intros v Hv. apply Hv.
  - destruct d as [|kv d]; [reflexivity|].
    change (json_reread (VDict (kv :: d)))
      with (VDict ((key_reread (fst kv), json_reread (snd kv))
                     :: List.map (fun kv => (key_reread (fst kv), json_reread (snd kv))) d)).
    rewrite !json_encode_dict. do 4 f_equal.
    change ((key_reread (fst kv), json_reread (snd kv))
              :: List.map (fun kv => (key_reread (fst kv), json_reread (snd kv))) d)
      with (List.map (fun kv => (key_reread (fst kv), json_reread (snd kv))) (kv :: d)).
    rewrite List.map_map. apply List.map_ext_Forall.
    eapply List.Forall_impl; [|exact IH]. intros x Hx. cbn beta in *.
    unfold json_member. cbn [fst snd key_reread json_key]. now rewrite Hx.
Qed.

(** What is read back is clean when no two keys were written alike. *)
Lemma json_reread_clean v : json_distinct v = true -> json_clean (json_reread v) = true.
Proof.
  induction v as [| | | |items IH|d IH] using value_ind'; intros H; try reflexivity.
  - cbn [json_reread json_clean]. cbn [json_distinct] in H.
    induction IH as [|x xs Hx _ IHxs]; [reflexivity|].
    cbn [forallb] in H. apply andb_true_iff in H as [H1 H2].
    cbn [List.map forallb]. now rewrite (Hx H1), (IHxs H2).
  - cbn [json_reread json_clean]. cbn [json_distinct] in H.
    apply andb_true_iff in H as [H1 H2]. apply andb_true_iff. split.
    + clear H2. induction IH as [|x xs Hx _ IHxs]; [reflexivity|].
      cbn [forallb] in H1. apply andb_true_iff in H1 as [Ha Hb].
      cbn [List.map forallb fst snd is_str_key key_reread]. now rewrite (Hx Ha), (IHxs Hb).
    + rewrite <- H2. apply unique_keys_fst. rewrite !List.map_map. reflexivity.
Qed.

(** A clean value is read back as it is. *)
Lemma json_reread_id v : json_clean v = true -> json_reread v = v.
Proof.
  induction v as [| | | |items IH|d IH] using value_ind'; intros H; try reflexivity.
  - cbn [json_reread]. f_equal. cbn [json_clean] in H.
    induction IH as [|x xs Hx _ IHxs]; [reflexivity|].
    cbn [forallb] in H. apply andb_true_iff in H as [H1 H2].
    cbn [List.map]. now rewrite (Hx H1), (IHxs H2).
  - cbn [json_reread]. f_equal. cbn [json_clean] in H.
    apply andb_true_iff in H as [H _].
    induction IH as [|[k x] xs Hx _ IHxs]; [reflexivity|].
    cbn [forallb fst snd] in H. apply andb_true_iff in H as [H1 H2].
    apply andb_true_iff in H1 as [Hk Hv].
    cbn [List.map fst snd] in *. rewrite (Hx Hv), (IHxs H2).
    destruct k; [discriminate|reflexivity].
Qed.

Lemma decode_json_reread v :
  json_distinct v = true -> decode "json" (json_dumps v) = Ok (json_reread v).
Proof.
  intros H. unfold json_dumps. rewrite <- (json_encode_reread v 0%nat).
  apply decode_json_dumps, json_reread_clean, H.
Qed.

(** *** The tabular encoding *)

Lemma dict_to_list_three row vals :
  dict_to_list row = Ok vals -> exists a b c, vals = [a; b; c].
Proof.
  unfold dict_to_list. destruct row; try discriminate.
  destruct (forallb _ _); [|discriminate]. intros [= <-]. unfold fieldnames.
  cbn [List.map]. eauto.
Qed.

(** Whatever the rows are, the text that gets onto the file is a table: the
    three cells of each row before the first that is refused. *)
Lemma csv_rows_text_table rows :
  exists cells, fst (csv_rows_text rows) = table_text cells.
Proof.
  induction rows as [|row rows [cells IH]]; [now exists []|].
  cbn [csv_rows_text]. destruct (dict_to_list row) as [vals|e] eqn:E; [|now exists []].
  destruct (dict_to_list_three _ _ E) as (a & b & c & ->).
  destruct (csv_rows_text rows) as [text e]. cbn [fst] in *.
  exists ((csv_text a, csv_text b, csv_text c) :: cells).
  cbn [table_text]. now rewrite IH.
Qed.

Lemma csv_rows_text_accepted rows :
  forallb csv_accepted rows = true ->
  csv_rows_text rows = (table_text (List.map csv_cells rows), None).
Proof.
  induction rows as [|row rows IH]; intros H; [reflexivity|].
  cbn [forallb] in H. apply andb_true_iff in H as [Hr H].
  cbn [csv_rows_text List.map table_text]. unfold csv_accepted in Hr. unfold csv_cells at 1.
  destruct (dict_to_list row) as [vals|e] eqn:E; [|discriminate].
  destruct (dict_to_list_three _ _ E) as (a & b & c & ->).
  now rewrite (IH H).
Qed.

Lemma encode_csv_table todos :
  exists cells, fst (encode "csv" todos) = csv_row fieldnames ++ table_text cells.
Proof.
  unfold encode. change (String.eqb "csv" "json") with false.
  change (String.eqb "csv" "csv") with true. cbv iota.
  destruct (iter todos) as [rows|e].
  - destruct (csv_rows_text_table rows) as [cells H]. exists cells.
    destruct (csv_rows_text rows) as [text e]. cbn [fst] in *. now rewrite H.
  - exists []. cbn [fst table_text]. now rewrite append_nil_r.
Qed.

(** *** The line-oriented encoding *)

Lemma soft_lines_inv items :
  forallb soft_line items = true ->
  exists lines, items = List.map VStr lines
                /\ forallb (string_forallb no_hard_break) lines = true.
Proof.
  induction items as [|v items IH]; intros H.
  - now exists [].
  - cbn [forallb] in H. apply andb_true_iff in H as [Hv Hr].
    destruct v; try discriminate. destruct (IH Hr) as (lines & -> & Hl).
    exists (s :: lines). cbn [List.map forallb]. cbn [soft_line] in Hv.
    now rewrite Hv, Hl.
Qed.

Lemma lines_text_str items :
  lines_text items = lines_text (List.map VStr (List.map str items)).
Proof. induction items as [|v items IH]; cbn [List.map lines_text str]; congruence. Qed.

Lemma soft_entries_lines items :
  forallb soft_entry items = true ->
  forallb (string_forallb no_hard_break) (List.map str items) = true.
Proof.
  induction items as [|v items IH]; [reflexivity|]. cbn [forallb List.map].
  intros [Hv H]%andb_true_iff. unfold soft_entry in Hv. now rewrite Hv, IH.
Qed.

Lemma decode_lines_text format lines :
  String.eqb format "json" = false -> String.eqb format "csv" = false ->
  forallb (string_forallb no_hard_break) lines = true ->
  decode format (lines_text (List.map VStr lines))
  = Ok (VList (List.map VStr (splitlines (lines_text (List.map VStr lines))))).
Proof.
  intros Ej Ec Hl. unfold decode. rewrite Ej, Ec.
  rewrite universal_newlines_no_cr; [reflexivity|].
  apply lines_text_forallb; [reflexivity|].
  revert Hl. apply forallb_impl. intros l. apply string_forallb_impl, soft_break_no_cr.
Qed.

(** *** The three together *)

(** The text of the first save is decoded, and what it is decoded to is
    written whole, as the same text. *)
Lemma encode_decode_again format todos :
  resaved_alike format todos = true ->
  exists v,
    decode format (fst (encode format todos)) = Ok v
    /\ encode format v = (fst (encode format todos), None).
Proof.
  unfold resaved_alike. intros H.
  destruct (String.eqb format "json") eqn:Ej; [|destruct (String.eqb format "csv") eqn:Ec].
  - apply String.eqb_eq in Ej. subst format. apply andb_true_iff in H as [H _].
    exists (json_reread todos). split.
    + now apply decode_json_reread.
    + unfold encode. cbn [String.eqb Ascii.eqb Bool.eqb fst]. unfold json_dumps.
      now rewrite json_encode_reread.
  - apply String.eqb_eq in Ec. subst format.
    destruct (encode_csv_table todos) as [cells ->].
    exists (VList (List.map record_of cells)).
    now rewrite decode_csv_table, encode_csv_records.
  - unfold encode. rewrite Ej, Ec.
    destruct (iter todos) as [items|e].
    + cbn [fst]. rewrite (lines_text_str items).
      pose proof (soft_entries_lines _ H) as Hl.
      rewrite (decode_lines_text _ _ Ej Ec Hl). eexists. split; [reflexivity|].
      cbn [iter]. now rewrite (lines_text_splitlines _ Hl).
    + cbn [fst]. exists (VList []). split; [|reflexivity].
      unfold decode. now rewrite Ej, Ec.
Qed.

(** The text of a storable collection, and what loading that text and
    encoding the result again gives. *)
Lemma encode_decode_encode format todos :
  In format ["json"; "csv"; "txt"] ->
  storable format todos = true ->
  exists text v,
    encode format todos = (text, None)
    /\ decode format text = Ok v
    /\ encode format v = (text, None)
    /\ (format <> "txt" -> v = todos).
Proof.
  intros [<-|[<-|[<-|[]]]] H; unfold storable in H; cbn [String.eqb Ascii.eqb Bool.eqb] in H.
  - exists (json_dumps todos), todos.
    rewrite (decode_json_dumps _ H). repeat split; reflexivity.
  - destruct todos as [| | | |items|]; try discriminate.
    destruct (csv_records_inv _ H) as [rows ->].
    exists (csv_row fieldnames ++ table_text rows), (VList (List.map record_of rows)).
    rewrite encode_csv_records, decode_csv_table. repeat split; reflexivity.
  - destruct todos as [| | | |items|]; try discriminate.
    destruct (soft_lines_inv _ H) as (lines & -> & Hl).
    exists (lines_text (List.map VStr lines)),
           (VList (List.map VStr (splitlines (lines_text (List.map VStr lines))))).
    repeat split.
    + now apply decode_lines_text.
    + unfold encode. cbn [String.eqb Ascii.eqb Bool.eqb iter].
      now rewrite (lines_text_splitlines _ Hl).
    + congruence.
Qed.

(** The load of a resolved file returns, and leaves the files alone. *)
Lemma load_todos_returns cfg format w path :
  filename_of cfg w = (Ok path, w) ->
  exists v w1, load_todos cfg format w = (Ok v, w1)
               /\ fs w1 = fs w /\ current_file_path w1 = current_file_path w.
Proof.
  intros Hf. rewrite (load_todos_eq _ _ _ _ Hf).
  destruct (read_node (fs w !! path)) as [text|[]]; [destruct (decode format text)|..];
    eauto 6.
Qed.

(** C7, as the code has it: once the file name is resolved, saving a
    collection, loading and saving what was loaded leaves every file as the
    first save left it.  This holds in the tabular encoding for every
    collection with no cell beyond the limit of the reader; in the
    structured-record encoding for the collections in which no two keys of a
    mapping are written alike (within the limits of the interpreter); in the
    line-oriented encoding, where only the text of an entry is kept, for the
    collections whose entries have no break character but the line feed.
    When the file can be written and the collection is within the limits,
    the file holds the text of the collection and the load returns what that
    text decodes to: in the first two encodings, for a storable collection,
    the collection itself. *)
Theorem save_load_save cfg format w path todos :
  filename_of cfg w = (Ok path, w) ->
  resaved_alike format todos = true ->
  let w1 := snd (save_todos cfg todos format w) in
  exists v w2,
    load_todos cfg format w1 = (Ok v, w2)
    /\ fs (snd (save_todos cfg v format w2)) = fs w1
    /\ (writable w path ->
        within_limits todos = true ->
        fs w1 !! path = Some (File (fst (encode format todos)))
        /\ decode format (fst (encode format todos)) = Ok v
        /\ (format = "json" \/ format = "csv" -> storable format todos = true -> v = todos)).
Proof.
  intros Hf Hr w1.
  destruct (write_error (fs w !! path)) as [e|] eqn:Hw.
  - assert (Hw1 : w1 = add_log (Error "Failed to save todos: " (Some e)) w)
      by (unfold w1; now rewrite (save_todos_eq _ _ _ _ _ Hf), Hw).
    assert (Hf1 : filename_of cfg w1 = (Ok path, w1))
      by (eapply filename_of_stable; [exact Hf|now rewrite Hw1]).
    destruct (load_todos_returns cfg format w1 path Hf1) as (v & w2 & Hl & Hfs & Hp).
    exists v, w2. split; [exact Hl|]. split.
    + assert (Hf2 : filename_of cfg w2 = (Ok path, w2))
        by (eapply filename_of_stable; [exact Hf1|exact Hp]).
      assert (Hfs2 : fs w2 = fs w) by (rewrite Hfs, Hw1; reflexivity).
      rewrite (save_todos_eq _ _ _ _ _ Hf2), Hfs2, Hw. cbn [snd fs add_log].
      now rewrite Hfs2, Hw1.
    + unfold writable. rewrite Hw. discriminate.
  - destruct (encode_decode_again format todos Hr) as (v & Hd & He).
    assert (Hw1 : w1 = log_failure "Failed to save todos: " (snd (encode format todos))
                         (set_fs (<[path := File (fst (encode format todos))]> (fs w)) w))
      by (unfold w1; now rewrite (save_todos_eq _ _ _ _ _ Hf), Hw).
    assert (Hf1 : filename_of cfg w1 = (Ok path, w1)).
    { eapply filename_of_stable; [exact Hf|]. now rewrite Hw1, current_file_path_log_failure. }
    assert (Hl1 : fs w1 !! path = Some (File (fst (encode format todos)))).
    { rewrite Hw1, fs_log_failure. cbn [fs set_fs]. apply lookup_insert_eq. }
    exists v, w1. split; [exact (load_todos_file _ _ _ _ _ _ Hf1 Hl1 Hd)|]. split.
    + rewrite (save_todos_eq _ _ _ _ _ Hf1), Hl1, He. cbn [write_error snd fst log_failure fs set_fs].
      apply insert_id. exact Hl1.
    + intros _ _. split; [exact Hl1|]. split; [exact Hd|].
      intros Hfmt Hst.
      assert (Hin : In format ["json"; "csv"; "txt"])
        by (destruct Hfmt as [->| ->]; simpl; auto).
      destruct (encode_decode_encode format todos Hin Hst) as (text & v' & He' & Hd' & _ & Hv).
      rewrite He' in Hd. cbn [fst] in Hd. rewrite Hd' in Hd. injection Hd as <-.
      apply Hv. destruct Hfmt as [->| ->]; discriminate.
Qed.

Lemma save_load_save_witness :
  exists v w2,
    load_todos (sample_cfg "csv") "csv"
      (snd (save_todos (sample_cfg "csv") (VList sample_records) "csv" empty_world))
    = (Ok v, w2)
    /\ fs (snd (save_todos (sample_cfg "csv") v "csv" w2))
       = fs (snd (save_todos (sample_cfg "csv") (VList sample_records) "csv" empty_world)).
Proof.
  destruct (save_load_save (sample_cfg "csv") "csv" empty_world "todos"
              (VList sample_records) eq_refl eq_refl) as (v & w2 & Hl & Hfs & _).
  exists v, w2. split; [exact Hl|exact Hfs].
Defined.

(** C7 as the specification words it fails in the line-oriented encoding:
    an entry with a carriage return inside is saved as one line, loaded as
    two entries, and saved again with a line feed where the carriage return
    was. *)
Lemma save_load_save_carriage_return :
  fs (snd (save_todos (sample_cfg "txt") cr_entry "txt" empty_world)) !! "todos"
  = Some (File ("a" ++ char CR ++ "b" ++ char LF))
  /\ fst (load_todos (sample_cfg "txt") "txt"
            (snd (save_todos (sample_cfg "txt") cr_entry "txt" empty_world)))
     = Ok (VList [VStr "a"; VStr "b"])
  /\ fs (snd (save_todos (sample_cfg "txt") (VList [VStr "a"; VStr "b"]) "txt"
                (snd (load_todos (sample_cfg "txt") "txt"
                        (snd (save_todos (sample_cfg "txt") cr_entry "txt" empty_world))))))
       !! "todos"
     = Some (File ("a" ++ char LF ++ "b" ++ char LF))
  /\ "a" ++ char CR ++ "b" ++ char LF <> "a" ++ char LF ++ "b" ++ char LF.
Proof. vm_compute. repeat split. discriminate. Qed.

(** ** Adding, then loading *)

Lemma load_todos_json_clean cfg w v w1 :
  load_todos cfg "json" w = (Ok v, w1) -> json_clean v = true.
Proof.
  intros Hl. destruct (load_todos_inv _ _ _ _ _ Hl) as (path & Hf & _).
  rewrite (load_todos_eq _ _ _ _ Hf) in Hl.
  destruct (read_node (fs w !! path)) as [text|[]]; try (injection Hl as <- _; reflexivity).
  destruct (decode "json" text) as [v'|e] eqn:Hd; injection Hl as <- _; [|reflexivity].
  unfold decode in Hd. cbn [String.eqb Ascii.eqb Bool.eqb] in Hd.
  eapply json_loads_clean, Hd.
Qed.

Lemma load_todos_txt_lines cfg w w1 items :
  load_todos cfg "txt" w = (Ok (VList items), w1) ->
  exists lines, items = List.map VStr lines /\ forallb no_break lines = true.
Proof.
  intros Hl. destruct items as [|x items]; [now exists []|].
  destruct (load_todos_entries _ _ _ _ _ Hl) as (_ & path & text & _ & _ & Hd);
    [discriminate|].
  unfold decode in Hd. cbn [String.eqb Ascii.eqb Bool.eqb] in Hd. injection Hd as Hd.
  eexists. split; [symmetry; exact Hd|]. apply splitlines_no_break.
Qed.

Lemma priorities_get_label k label :
  priorities_get k = Ok label ->
  In label ["Optional"; "Low"; "Medium"; "High"; "Crucial"].
Proof.
  unfold priorities_get, PRIORITIES, List.find, fst, snd.
  repeat (destruct (String.eqb _ k); [intros [= <-]; simpl; tauto|]). discriminate.
Qed.

Lemma priorities_get_label_no_break k label :
  priorities_get k = Ok label -> no_break label = true.
Proof.
  intros H. apply priorities_get_label in H.
  simpl in H. destruct H as [<-|[<-|[<-|[<-|[<-|[]]]]]]; reflexivity.
Qed.

Lemma no_break_app a b : no_break (a ++ b) = no_break a && no_break b.
Proof. apply string_forallb_app. Qed.

Lemma forallb_snoc {A} (p : A -> bool) l x :
  forallb p (l ++ [x])%list = forallb p l && p x.
Proof. rewrite forallb_app. simpl. now rewrite andb_true_r. Qed.

Lemma one_lines_inv items :
  forallb one_line items = true ->
  exists lines, items = List.map VStr lines /\ forallb no_break lines = true.
Proof.
  induction items as [|v items IH]; intros H.
  - now exists [].
  - cbn [forallb] in H. apply andb_true_iff in H as [Hv Hr].
    destruct v; try discriminate. destruct (IH Hr) as (lines & -> & Hl).
    exists (s :: lines). cbn [List.map forallb]. cbn [one_line] in Hv.
    now rewrite Hv, Hl.
Qed.

(** Outside the tabular encoding an entry is reread as it is. *)
Lemma map_reread_other format items :
  String.eqb format "csv" = false -> List.map (reread format) items = items.
Proof.
  intros E. unfold reread. rewrite E. induction items as [|v items IH]; [reflexivity|].
  cbn [List.map]. now rewrite IH.
Qed.

(** A record of the three text fields is accepted, and reread as it is. *)
Lemma csv_record_accepted v : csv_record v = true -> csv_accepted v = true.
Proof. intros H. destruct (csv_record_inv _ H) as [[[a b] c] ->]. reflexivity. Qed.

Lemma csv_record_reread v : csv_record v = true -> reread "csv" v = v.
Proof. intros H. destruct (csv_record_inv _ H) as [[[a b] c] ->]. reflexivity. Qed.

Lemma map_reread_records format items :
  forallb csv_record items = true -> List.map (reread format) items = items.
Proof.
  intros H. destruct (String.eqb format "csv") eqn:E; [|now apply map_reread_other].
  apply String.eqb_eq in E. subst format.
  induction items as [|v items IH]; [reflexivity|].
  cbn [forallb] in H. apply andb_true_iff in H as [Hv H].
  cbn [List.map]. now rewrite (csv_record_reread _ Hv), IH.
Qed.

(** Savable entries are written whole and decoded as they are reread. *)
Lemma savable_round_trip format items :
  In format ["json"; "csv"; "txt"] ->
  savable format items = true ->
  exists text,
    encode format (VList items) = (text, None)
    /\ decode format text = Ok (VList (List.map (reread format) items)).
Proof.
  intros [<-|[<-|[<-|[]]]] H; unfold savable in H; cbn [String.eqb Ascii.eqb Bool.eqb] in H.
  - exists (json_dumps (VList items)). split; [reflexivity|].
    rewrite map_reread_other by reflexivity. now apply decode_json_dumps.
  - exists (csv_row fieldnames ++ table_text (List.map csv_cells items)). split.
    + unfold encode. cbn [String.eqb Ascii.eqb Bool.eqb iter].
      now rewrite (csv_rows_text_accepted _ H).
    + rewrite decode_csv_table, List.map_map. reflexivity.
  - destruct (one_lines_inv _ H) as (lines & -> & Hl).
    eexists. split; [reflexivity|].
    rewrite map_reread_other by reflexivity. now apply decode_txt_lines.
Qed.

(** Reloadable entries are savable, and reread as they are. *)
Lemma reloadable_savable format items :
  reloadable format items = true -> savable format items = true.
Proof.
  unfold reloadable, savable.
  destruct (String.eqb format "json"); [auto|]. destruct (String.eqb format "csv"); [|auto].
  apply forallb_impl, csv_record_accepted.
Qed.

Lemma reloadable_reread format items :
  reloadable format items = true -> List.map (reread format) items = items.
Proof.
  unfold reloadable. destruct (String.eqb format "csv") eqn:E.
  - apply String.eqb_eq in E. subst format. cbn [String.eqb Ascii.eqb Bool.eqb].
    apply map_reread_records.
  - intros _. now apply map_reread_other.
Qed.

(** Reloadable entries are written whole and decoded as they were. *)
Lemma reloadable_round_trip format items :
  In format ["json"; "csv"; "txt"] ->
  reloadable format items = true ->
  exists text,
    encode format (VList items) = (text, None)
    /\ decode format text = Ok (VList items).
Proof.
  intros Hin H.
  destruct (savable_round_trip format items Hin (reloadable_savable _ _ H)) as (text & He & Hd).
  exists text. split; [exact He|]. now rewrite (reloadable_reread _ _ H) in Hd.
Qed.

(** What [load_todos] returns is savable; in the tabular encoding, when no
    row has a field outside the three. *)
Lemma load_todos_savable cfg format w w1 items :
  In format ["json"; "csv"; "txt"] ->
  load_todos cfg format w = (Ok (VList items), w1) ->
  (format = "csv" -> forallb csv_accepted items = true) ->
  savable format items = true.
Proof.
  intros [<-|[<-|[<-|[]]]] Hl Hcsv; unfold savable; cbn [String.eqb Ascii.eqb Bool.eqb].
  - apply (load_todos_json_clean _ _ _ _ Hl).
  - now apply Hcsv.
  - destruct (load_todos_txt_lines _ _ _ _ Hl) as (lines & -> & Hlines).
    clear Hl. induction lines as [|l lines IH]; [reflexivity|].
    cbn [forallb] in Hlines. apply andb_true_iff in Hlines as [Hl Hlines].
    cbn [List.map forallb one_line]. now rewrite Hl, IH.
Qed.

(** What [load_todos] returns is reloadable; in the tabular encoding, when
    the rows have exactly the three fields. *)
Lemma load_todos_reloadable cfg format w w1 items :
  In format ["json"; "csv"; "txt"] ->
  load_todos cfg format w = (Ok (VList items), w1) ->
  (format = "csv" -> forallb csv_record items = true) ->
  reloadable format items = true.
Proof.
  intros Hin Hl Hcsv.
  destruct (String.eqb format "csv") eqn:E.
  - apply String.eqb_eq in E. subst format. unfold reloadable.
    cbn [String.eqb Ascii.eqb Bool.eqb]. now apply Hcsv.
  - assert (Hs : savable format items = true).
    { apply (load_todos_savable cfg format w w1); auto.
      intros ->. discriminate. }
    unfold savable in Hs. unfold reloadable. now rewrite E in *.
Qed.


Lemma reloadable_new_entry format items name description k label :
  In format ["json"; "csv"; "txt"] ->
  reloadable format items = true ->
  (format = "txt" -> no_break name = true /\ no_break description = true) ->
  priorities_get k = Ok label ->
  reloadable format (items ++ [new_entry format name description label]) = true.
Proof.
  intros [<-|[<-|[<-|[]]]] H Htxt Hk; unfold reloadable in *;
    cbn [String.eqb Ascii.eqb Bool.eqb] in *; rewrite forallb_snoc, H.
  - reflexivity.
  - reflexivity.
  - destruct (Htxt eq_refl) as [Hn Hd]. cbn [new_entry String.eqb Ascii.eqb Bool.eqb one_line].
    rewrite !no_break_app, Hn, Hd, (priorities_get_label_no_break _ _ Hk). reflexivity.
Qed.


Lemma forallb_remove_nth p i : forall items,
  forallb p items = true -> forallb p (remove_nth i items) = true.
Proof.
  induction i as [|i IH]; intros [|x items] H; cbn [remove_nth]; try reflexivity.
  - cbn [forallb] in H. now apply andb_true_iff in H as [_ H].
  - cbn [forallb] in *. apply andb_true_iff in H as [Hx H]. now rewrite Hx, IH.
Qed.

Lemma savable_remove_nth format i items :
  savable format items = true -> savable format (remove_nth i items) = true.
Proof.
  unfold savable.
  destruct (String.eqb format "json"); [|destruct (String.eqb format "csv")];
    apply forallb_remove_nth.
Qed.

Lemma reloadable_remove_nth format i items :
  reloadable format items = true -> reloadable format (remove_nth i items) = true.
Proof.
  unfold reloadable.
  destruct (String.eqb format "json"); [|destruct (String.eqb format "csv")];
    apply forallb_remove_nth.
Qed.

(** Once savable entries have been saved over a file that can be written,
    the next load returns them as they are reread. *)
Lemma save_then_load_reread cfg format w path items w' :
  In format ["json"; "csv"; "txt"] ->
  filename_of cfg w = (Ok path, w) ->
  writable w path ->
  savable format items = true ->
  current_file_path w' = current_file_path w ->
  fs w' = fs (snd (save_todos cfg (VList items) format w)) ->
  load_todos cfg format w' = (Ok (VList (List.map (reread format) items)), w').
Proof.
  intros Hin Hf Hw Hs Hp Hfs.
  destruct (savable_round_trip format items Hin Hs) as (text & He & Hd).
  rewrite (save_todos_written _ _ _ _ _ Hf Hw), He in Hfs. cbn [snd fst log_failure fs set_fs] in Hfs.
  apply (load_todos_file cfg format w' path text).
  - eapply filename_of_stable; eauto.
  - rewrite Hfs. apply lookup_insert_eq.
  - exact Hd.
Qed.

(** Once a reloadable collection has been saved over a file that can be
    written, the next load returns it. *)
Lemma save_then_load cfg format w path items w' :
  In format ["json"; "csv"; "txt"] ->
  filename_of cfg w = (Ok path, w) ->
  writable w path ->
  reloadable format items = true ->
  current_file_path w' = current_file_path w ->
  fs w' = fs (snd (save_todos cfg (VList items) format w)) ->
  load_todos cfg format w' = (Ok (VList items), w').
Proof.
  intros Hin Hf Hw Hr Hp Hfs.
  rewrite <- (reloadable_reread _ _ Hr) at 1.
  apply (save_then_load_reread cfg format w path); auto using reloadable_savable.
Qed.





(** The hypothesis of C8 is needed: with no file name configured and none
    signed in, the lookup in the configuration raises before the [try]. *)
Lemma load_todos_unconfigured cfg format w :
  FileName cfg = None ->
  current_file_path w = None ->
  load_todos cfg format w = (Raise KeyError, w).
Proof.
  intros Hc Hp. unfold load_todos. apply bind_raise.
  unfold filename_of. now rewrite Hp, Hc.
Qed.

(** ** Deleting, then loading *)

Lemma list_pop_kept items idx kept :
  list_pop items idx = Ok kept -> exists i, kept = remove_nth i items.
Proof.
  unfold list_pop. destruct (_ || _); [discriminate|]. intros [= <-]. eauto.
Qed.

Lemma list_pop_in_range items idx :
  0 <= idx < Z.of_nat (List.length items) ->
  list_pop items idx = Ok (remove_nth (Z.to_nat idx) items).
Proof.
  intros Hi. unfold list_pop.
  destruct (idx <? 0) eqn:E1; [apply Z.ltb_lt in E1; lia|].
  destruct ((idx <? 0) || (Z.of_nat (List.length items) <=? idx)) eqn:E2; [|reflexivity].
  apply orb_true_iff in E2 as [E2|E2]; [apply Z.ltb_lt in E2|apply Z.leb_le in E2]; lia.
Qed.

Lemma list_pop_negative items idx :
  - Z.of_nat (List.length items) <= idx <= -1 ->
  list_pop items idx
  = Ok (remove_nth (Z.to_nat (Z.of_nat (List.length items) + idx)) items).
Proof.
  intros Hi. unfold list_pop.
  destruct (idx <? 0) eqn:E1; [|apply Z.ltb_ge in E1; lia].
  destruct ((idx + _ <? 0) || _) eqn:E2; [|now rewrite Z.add_comm].
  apply orb_true_iff in E2 as [E2|E2]; [apply Z.ltb_lt in E2|apply Z.leb_le in E2]; lia.
Qed.

(** The world after [delete_todo] popped an entry of a savable collection
    and wrote the rest, and what the text of the file is decoded to. *)
Lemma delete_todo_saved cfg format w w1 items path idx kept :
  In format ["json"; "csv"; "txt"] ->
  StorageType cfg = Some format ->
  load_todos cfg format w = (Ok (VList items), w1) ->
  filename_of cfg w = (Ok path, w) ->
  writable w path ->
  savable format items = true ->
  (idx <? Z.of_nat (List.length items)) = true ->
  list_pop items idx = Ok kept ->
  exists text,
    delete_todo cfg idx w
    = (Ok tt, add_log (Info ("Deleted todo at index " ++ str_of_Z idx))
                (set_fs (<[path := File text]> (fs w)) w1))
    /\ encode format (VList kept) = (text, None)
    /\ decode format text = Ok (VList (List.map (reread format) kept)).
Proof.
  intros Hin Hc Hl Hf Hw Hs Hlt Hpop.
  destruct (list_pop_kept _ _ _ Hpop) as [i Hi].
  assert (Hk : savable format kept = true) by (subst kept; now apply savable_remove_nth).
  destruct (savable_round_trip format kept Hin Hk) as (text & He & Hd).
  exists text. split; [|split; assumption].
  rewrite (delete_todo_popped cfg format w w1 items Hc Hl kept idx Hlt Hpop).
  destruct (load_todos_inv _ _ _ _ _ Hl) as (path' & _ & Hfs & Hp & _).
  assert (Hf1 : filename_of cfg w1 = (Ok path, w1))
    by (eapply filename_of_stable; eauto).
  assert (Hw1 : writable w1 path) by (unfold writable in *; now rewrite Hfs).
  unfold bind. rewrite (save_todos_written _ _ _ _ _ Hf1 Hw1), Hfs, He. reflexivity.
Qed.

(** What [delete_todo] leaves after it popped an entry of a savable
    collection: the command ends normally, only its own record is logged,
    nothing is echoed, and the next load returns what was kept, as it is
    reread. *)
Lemma delete_todo_stored cfg format w w1 items path idx kept :
  In format ["json"; "csv"; "txt"] ->
  StorageType cfg = Some format ->
  load_todos cfg format w = (Ok (VList items), w1) ->
  filename_of cfg w = (Ok path, w) ->
  writable w path ->
  savable format items = true ->
  items <> [] ->
  (idx <? Z.of_nat (List.length items)) = true ->
  list_pop items idx = Ok kept ->
  let r := delete_todo cfg idx w in
  fst r = Ok tt
  /\ log (snd r) = (log w ++ [Info ("Deleted todo at index " ++ str_of_Z idx)])%list
  /\ terminal (snd r) = terminal w
  /\ fs (snd r) !! path = Some (File (fst (encode format (VList kept))))
  /\ snd (encode format (VList kept)) = None
  /\ load_todos cfg format (snd r) = (Ok (VList (List.map (reread format) kept)), snd r).
Proof.
  intros Hin Hc Hl Hf Hw Hs Hne Hlt Hpop r.
  destruct (delete_todo_saved cfg format w w1 items path idx kept) as (text & Hdel & He & Hd);
    auto.
  destruct (load_todos_entries _ _ _ _ _ Hl) as (-> & _).
  { intros [= ->]. congruence. }
  unfold r. rewrite Hdel, He. cbn [fst snd log terminal fs add_log set_fs].
  repeat split; try reflexivity.
  - apply lookup_insert_eq.
  - apply (load_todos_file cfg format _ path text).
    + eapply filename_of_stable; [exact Hf|reflexivity].
    + apply lookup_insert_eq.
    + exact Hd.
Qed.

(** C4, as the code has it: for a loaded collection of [n] entries and an
    index [0 <= idx < n], when the file can be written and, in the tabular
    encoding, no row has a field outside the three, [delete_todo] pops the
    entry at [idx] (the collection shrinks by one, the other entries keep
    their order) and saves the result: the command ends normally with no
    error logged, the file holds the whole text of the shortened collection,
    and the next load returns it, each entry as it is reread (outside the
    tabular encoding, and for rows of exactly the three text fields, as it
    was). *)
Theorem delete_todo_in_range cfg format w w1 items path idx :
  In format ["json"; "csv"; "txt"] ->
  StorageType cfg = Some format ->
  load_todos cfg format w = (Ok (VList items), w1) ->
  filename_of cfg w = (Ok path, w) ->
  writable w path ->
  (format = "csv" -> forallb csv_accepted items = true) ->
  0 <= idx < Z.of_nat (List.length items) ->
  let kept := remove_nth (Z.to_nat idx) items in
  let r := delete_todo cfg idx w in
  List.length kept = (List.length items - 1)%nat
  /\ kept = (firstn (Z.to_nat idx) items ++ skipn (S (Z.to_nat idx)) items)%list
  /\ fst r = Ok tt
  /\ log (snd r) = (log w ++ [Info ("Deleted todo at index " ++ str_of_Z idx)])%list
  /\ terminal (snd r) = terminal w
  /\ fs (snd r) !! path = Some (File (fst (encode format (VList kept))))
  /\ snd (encode format (VList kept)) = None
  /\ load_todos cfg format (snd r) = (Ok (VList (List.map (reread format) kept)), snd r)
  /\ (format <> "csv" \/ forallb csv_record items = true ->
      List.map (reread format) kept = kept).
Proof.
  intros Hin Hc Hl Hf Hw Hcsv Hi kept r.
  split; [apply remove_nth_length; lia|].
  split; [apply remove_nth_split|].
  assert (H : fst r = Ok tt
              /\ log (snd r) = (log w ++ [Info ("Deleted todo at index " ++ str_of_Z idx)])%list
              /\ terminal (snd r) = terminal w
              /\ fs (snd r) !! path = Some (File (fst (encode format (VList kept))))
              /\ snd (encode format (VList kept)) = None
              /\ load_todos cfg format (snd r)
                 = (Ok (VList (List.map (reread format) kept)), snd r)).
  { apply (delete_todo_stored cfg format w w1 items path idx kept); auto.
    - now apply (load_todos_savable cfg format w w1).
    - intros ->. simpl in Hi. lia.
    - apply Z.ltb_lt. lia.
    - now apply list_pop_in_range. }
  destruct H as (H1 & H2 & H3 & H4 & H5 & H6). repeat split; try assumption.
  intros [Hne|Hrec].
  - apply map_reread_other. now apply String.eqb_neq.
  - apply map_reread_records. now apply forallb_remove_nth.
Qed.

Lemma delete_todo_in_range_witness :
  load_todos (sample_cfg "txt") "txt"
    (snd (delete_todo (sample_cfg "txt") 1 (sample_world three_lines)))
  = (Ok (VList (List.map (reread "txt") [VStr "a"; VStr "c"])),
     snd (delete_todo (sample_cfg "txt") 1 (sample_world three_lines))).
Proof.
  refine (proj1 (proj2 (proj2 (proj2 (proj2 (proj2 (proj2 (proj2
            (delete_todo_in_range (sample_cfg "txt") "txt"
               (sample_world three_lines) (sample_world three_lines)
               [VStr "a"; VStr "b"; VStr "c"] "todos" 1 _ _ _ _ _ _ _))))))))).
  - simpl. auto.
  - reflexivity.
  - vm_compute. reflexivity.
  - reflexivity.
  - vm_compute. reflexivity.
  - discriminate.
  - simpl. lia.
Defined.

(** C4 as the specification words it fails.  In the tabular encoding, on a
    store of two rows of which the first has a fourth field, [delete_todo]
    at index 1 pops the second row, but the save is cut short at the first:
    the file is left with the header alone and the next load returns no
    entry.  On a file that cannot be opened for writing nothing is saved:
    the next load returns the three entries. *)
Lemma delete_todo_in_range_not_saved :
  (fst (load_todos (sample_cfg "csv") "csv" (sample_world wide_table))
   = Ok (VList [row_dict fieldnames ["a"; "b"; "c"; "d"]; record_of ("e", "f", "g")])
   /\ fs (snd (delete_todo (sample_cfg "csv") 1 (sample_world wide_table))) !! "todos"
      = Some (File (csv_row fieldnames))
   /\ fst (load_todos (sample_cfg "csv") "csv"
             (snd (delete_todo (sample_cfg "csv") 1 (sample_world wide_table))))
      = Ok (VList []))
  /\ (fst (load_todos (sample_cfg "txt") "txt" (read_only_world three_lines))
      = Ok (VList [VStr "a"; VStr "b"; VStr "c"])
      /\ fst (delete_todo (sample_cfg "txt") 1 (read_only_world three_lines)) = Ok tt
      /\ fst (load_todos (sample_cfg "txt") "txt"
                (snd (delete_todo (sample_cfg "txt") 1 (read_only_world three_lines))))
         = Ok (VList [VStr "a"; VStr "b"; VStr "c"])).
Proof. vm_compute. repeat split; reflexivity. Qed.

(** C9, as the code has it: for a loaded collection of [n >= 1] entries and
    a negative index [-n <= idx <= -1], the only check being [idx < n],
    [delete_todo] pops the entry at position [n + idx] and, when the file
    can be written and, in the tabular encoding, no row has a field outside
    the three, saves the shortened collection: the command ends normally
    with no error logged and nothing echoed, the file holds the whole text
    of the shortened collection, and the next load returns it, each entry as
    it is reread. *)
Theorem delete_todo_negative_index cfg format w w1 items path idx :
  In format ["json"; "csv"; "txt"] ->
  StorageType cfg = Some format ->
  load_todos cfg format w = (Ok (VList items), w1) ->
  filename_of cfg w = (Ok path, w) ->
  writable w path ->
  (format = "csv" -> forallb csv_accepted items = true) ->
  (1 <= List.length items)%nat ->
  - Z.of_nat (List.length items) <= idx <= -1 ->
  let kept := remove_nth (Z.to_nat (Z.of_nat (List.length items) + idx)) items in
  let r := delete_todo cfg idx w in
  List.length kept = (List.length items - 1)%nat
  /\ fst r = Ok tt
  /\ log (snd r) = (log w ++ [Info ("Deleted todo at index " ++ str_of_Z idx)])%list
  /\ terminal (snd r) = terminal w
  /\ fs (snd r) !! path = Some (File (fst (encode format (VList kept))))
  /\ snd (encode format (VList kept)) = None
  /\ load_todos cfg format (snd r) = (Ok (VList (List.map (reread format) kept)), snd r)
  /\ (format <> "csv" \/ forallb csv_record items = true ->
      List.map (reread format) kept = kept).
Proof.
  intros Hin Hc Hl Hf Hw Hcsv Hn Hi kept r.
  split; [apply remove_nth_length; lia|].
  assert (H : fst r = Ok tt
              /\ log (snd r) = (log w ++ [Info ("Deleted todo at index " ++ str_of_Z idx)])%list
              /\ terminal (snd r) = terminal w
              /\ fs (snd r) !! path = Some (File (fst (encode format (VList kept))))
              /\ snd (encode format (VList kept)) = None
              /\ load_todos cfg format (snd r)
                 = (Ok (VList (List.map (reread format) kept)), snd r)).
  { apply (delete_todo_stored cfg format w w1 items path idx kept); auto.
    - now apply (load_todos_savable cfg format w w1).
    - intros E. rewrite E in Hn. simpl in Hn. lia.
    - apply Z.ltb_lt. lia.
    - now apply list_pop_negative. }
  destruct H as (H1 & H2 & H3 & H4 & H5 & H6). repeat split; try assumption.
  intros [Hne|Hrec].
  - apply map_reread_other. now apply String.eqb_neq.
  - apply map_reread_records. now apply forallb_remove_nth.
Qed.

Lemma delete_todo_negative_index_witness :
  load_todos (sample_cfg "txt") "txt"
    (snd (delete_todo (sample_cfg "txt") (-1) (sample_world three_lines)))
  = (Ok (VList (List.map (reread "txt") [VStr "a"; VStr "b"])),
     snd (delete_todo (sample_cfg "txt") (-1) (sample_world three_lines))).
Proof.
  refine (proj1 (proj2 (proj2 (proj2 (proj2 (proj2 (proj2
            (delete_todo_negative_index (sample_cfg "txt") "txt"
               (sample_world three_lines) (sample_world three_lines)
               [VStr "a"; VStr "b"; VStr "c"] "todos" (-1) _ _ _ _ _ _ _ _)))))))).
  - simpl. auto.
  - reflexivity.
  - vm_compute. reflexivity.
  - reflexivity.
  - vm_compute. reflexivity.
  - discriminate.
  - simpl. lia.
  - simpl. lia.
Defined.

(** C9 as it was stated fails.  In the tabular encoding, on a store of two
    rows of which the first has a fourth field, [delete_todo] at index [-1]
    pops the second row, but the save is cut short at the first: the file
    is left with the header alone and the next load returns no entry.  On a
    file that cannot be opened for writing nothing is saved: the next load
    returns the three entries. *)
Lemma delete_todo_negative_index_not_saved :
  (fst (load_todos (sample_cfg "csv") "csv" (sample_world wide_table))
   = Ok (VList [row_dict fieldnames ["a"; "b"; "c"; "d"]; record_of ("e", "f", "g")])
   /\ fs (snd (delete_todo (sample_cfg "csv") (-1) (sample_world wide_table))) !! "todos"
      = Some (File (csv_row fieldnames))
   /\ fst (load_todos (sample_cfg "csv") "csv"
             (snd (delete_todo (sample_cfg "csv") (-1) (sample_world wide_table))))
      = Ok (VList []))
  /\ (fst (load_todos (sample_cfg "txt") "txt" (read_only_world three_lines))
      = Ok (VList [VStr "a"; VStr "b"; VStr "c"])
      /\ fst (delete_todo (sample_cfg "txt") (-1) (read_only_world three_lines)) = Ok tt
      /\ fst (load_todos (sample_cfg "txt") "txt"
                (snd (delete_todo (sample_cfg "txt") (-1) (read_only_world three_lines))))
         = Ok (VList [VStr "a"; VStr "b"; VStr "c"])).
Proof. vm_compute. repeat split; reflexivity. Qed.

(** After a delete that popped an entry of a reloadable collection, the
    next load returns what was kept. *)
Lemma delete_todo_popped_then_load cfg format w w1 items path idx kept :
  In format ["json"; "csv"; "txt"] ->
  StorageType cfg = Some format ->
  load_todos cfg format w = (Ok (VList items), w1) ->
  filename_of cfg w = (Ok path, w) ->
  writable w path ->
  (format = "csv" -> forallb csv_record items = true) ->
  items <> [] ->
  (idx <? Z.of_nat (List.length items)) = true ->
  list_pop items idx = Ok kept ->
  load_todos cfg format (snd (delete_todo cfg idx w))
  = (Ok (VList kept), snd (delete_todo cfg idx w)).
Proof.
  intros Hin Hc Hl Hf Hw Hcsv Hne Hlt Hpop.
  pose proof (load_todos_reloadable _ _ _ _ _ Hin Hl Hcsv) as Hr.
  destruct (delete_todo_stored cfg format w w1 items path idx kept)
    as (_ & _ & _ & _ & _ & H); auto using reloadable_savable.
  rewrite H. f_equal. f_equal. f_equal. apply reloadable_reread.
  destruct (list_pop_kept _ _ _ Hpop) as [i ->]. now apply reloadable_remove_nth.
Qed.

(** After a delete within range, the next load returns the shortened
    collection (when the file can be written and, in the tabular encoding,
    the rows have exactly the three fields). *)
Lemma delete_todo_then_load cfg format w w1 items path idx :
  In format ["json"; "csv"; "txt"] ->
  StorageType cfg = Some format ->
  load_todos cfg format w = (Ok (VList items), w1) ->
  filename_of cfg w = (Ok path, w) ->
  writable w path ->
  (format = "csv" -> forallb csv_record items = true) ->
  0 <= idx < Z.of_nat (List.length items) ->
  load_todos cfg format (snd (delete_todo cfg idx w))
  = (Ok (VList (remove_nth (Z.to_nat idx) items)), snd (delete_todo cfg idx w)).
Proof.
  intros Hin Hc Hl Hf Hw Hcsv Hi.
  apply (delete_todo_popped_then_load cfg format w w1 items path); auto.
  - intros ->. simpl in Hi. lia.
  - apply Z.ltb_lt. lia.
  - now apply list_pop_in_range.
Qed.

(** * Further properties of the commands *)

(** ** What the commands leave alone

    A computation [preserves] a relation between the world before and the
    world after when every step does; the relation is instantiated with
    [files_kept] and with [others_kept]. *)

Section Preserving.

Variable R : World -> World -> Prop.
Hypothesis R_refl : forall w, R w w.
Hypothesis R_trans : forall w1 w2 w3, R w1 w2 -> R w2 w3 -> R w1 w3.

Lemma preserves_ret {A} (a : A) : preserves R (ret a).
Proof. intros w. apply R_refl. Qed.

Lemma preserves_raise {A} e : preserves R (@raise A e).
Proof. intros w. apply R_refl. Qed.

Lemma preserves_lift {A} (r : result A) : preserves R (lift r).
Proof. intros w. apply R_refl. Qed.

Lemma preserves_bind {A B} (m : M A) (f : A -> M B) :
  preserves R m -> (forall a, preserves R (f a)) -> preserves R (bind m f).
Proof.
  intros Hm Hf w. unfold bind. specialize (Hm w).
  destruct (m w) as [[a|e] w1]; simpl in *; [|exact Hm].
  eapply R_trans; [exact Hm|apply Hf].
Qed.

Lemma preserves_try_except {A} (body : M A) handler :
  preserves R body -> (forall e, preserves R (handler e)) ->
  preserves R (try_except body handler).
Proof.
  intros Hm Hf w. unfold try_except. specialize (Hm w).
  destruct (body w) as [[a|e] w1]; simpl in *; [exact Hm|].
  eapply R_trans; [exact Hm|apply Hf].
Qed.

Lemma preserves_for_each {A} (items : list A) body :
  (forall x, preserves R (body x)) -> preserves R (for_each items body).
Proof.
  intros Hb. induction items as [|x items IH]; simpl.
  - apply preserves_ret.
  - apply preserves_bind; auto.
Qed.

End Preserving.

Lemma preserves_impl {A} (R S : World -> World -> Prop) (m : M A) :
  (forall w w', R w w' -> S w w') -> preserves R m -> preserves S m.
Proof. intros H Hm w. apply H, Hm. Qed.

Lemma files_kept_refl w : files_kept w w.
Proof. split; reflexivity. Qed.

Lemma files_kept_trans w1 w2 w3 : files_kept w1 w2 -> files_kept w2 w3 -> files_kept w1 w3.
Proof. unfold files_kept. intros [-> ->] [-> ->]. auto. Qed.

Lemma filename_of_same cfg w w' :
  current_file_path w' = current_file_path w ->
  fst (filename_of cfg w') = fst (filename_of cfg w).
Proof.
  unfold filename_of, config_get. intros ->.
  destruct (current_file_path w) as [[|c p]|]; destruct (FileName cfg); reflexivity.
Qed.

Lemma filename_of_fst cfg w : filename_of cfg w = (fst (filename_of cfg w), w).
Proof.
  destruct (filename_of cfg w) as [r w'] eqn:E.
  now rewrite (filename_of_world _ _ _ _ E).
Qed.

Lemma others_kept_refl cfg w : others_kept cfg w w.
Proof. split; auto. Qed.

Lemma others_kept_trans cfg w1 w2 w3 :
  others_kept cfg w1 w2 -> others_kept cfg w2 w3 -> others_kept cfg w1 w3.
Proof.
  intros [Hp H] [Hp' H']. split; [congruence|].
  intros p Hne. rewrite H', H; auto.
  now rewrite (filename_of_same cfg w1 w2 Hp).
Qed.

Lemma files_kept_others cfg w w' : files_kept w w' -> others_kept cfg w w'.
Proof. intros [Hfs Hp]. split; [exact Hp|]. intros p _. now rewrite Hfs. Qed.

(** The steps of a computation that keeps the files. *)
Ltac keeps :=
  repeat first
    [ apply (preserves_ret files_kept files_kept_refl)
    | apply (preserves_raise files_kept files_kept_refl)
    | apply (preserves_lift files_kept files_kept_refl)
    | apply (preserves_bind files_kept files_kept_trans); [|intros ?]
    | apply (preserves_try_except files_kept files_kept_refl files_kept_trans); [|intros ?]
    | intros ?; split; reflexivity ].

Lemma keeps_echo line : preserves files_kept (echo line).
Proof. keeps. Qed.

Lemma keeps_logging_info message : preserves files_kept (logging_info message).
Proof. keeps. Qed.

Lemma keeps_logging_error message cause : preserves files_kept (logging_error message cause).
Proof. keeps. Qed.

Lemma keeps_config_get entry : preserves files_kept (config_get entry).
Proof. destruct entry; keeps. Qed.

Lemma keeps_load_todos cfg format : preserves files_kept (load_todos cfg format).
Proof.
  intros w. destruct (filename_of cfg w) as [[path|e] w'] eqn:Hf;
    pose proof (filename_of_world _ _ _ _ Hf) as ->.
  - rewrite (load_todos_eq _ _ _ _ Hf).
    destruct (read_node (fs w !! path)) as [text|[]]; [destruct (decode format text)|..];
      split; reflexivity.
  - unfold load_todos. rewrite (bind_raise _ _ _ _ _ Hf). split; reflexivity.
Qed.

Lemma keeps_echo_todos format : forall items idx,
  preserves files_kept (echo_todos format idx items).
Proof.
  induction items as [|todo items IH]; intros idx; simpl.
  - keeps.
  - apply (preserves_bind files_kept files_kept_trans); [keeps|intros line].
    apply (preserves_bind files_kept files_kept_trans); [keeps|intros _]. apply IH.
Qed.

Lemma keeps_list_todos cfg priority : preserves files_kept (list_todos cfg priority).
Proof.
  unfold list_todos.
  apply (preserves_bind files_kept files_kept_trans); [apply keeps_config_get|intros format].
  apply (preserves_bind files_kept files_kept_trans); [apply keeps_load_todos|intros todos].
  apply (preserves_bind files_kept files_kept_trans).
  { destruct (given priority); keeps. }
  intros filtered.
  apply (preserves_bind files_kept files_kept_trans); [keeps|intros items].
  apply (preserves_bind files_kept files_kept_trans); [apply keeps_echo_todos|intros _].
  keeps.
Qed.

Lemma keeps_list_todos_cli cfg priority : preserves files_kept (list_todos_cli cfg priority).
Proof.
  unfold list_todos_cli. destruct priority as [k|]; [destruct (is_choice k)|];
    try apply keeps_list_todos. keeps.
Qed.

Lemma keeps_hello name : preserves files_kept (hello name).
Proof. unfold hello. keeps. Qed.

(** [save_todos] writes no file but the resolved one. *)
Lemma save_todos_others cfg todos format :
  preserves (others_kept cfg) (save_todos cfg todos format).
Proof.
  intros w. destruct (fst (filename_of cfg w)) as [path|e] eqn:E.
  - pose proof (filename_of_fst cfg w) as Hf. rewrite E in Hf.
    rewrite (save_todos_eq _ _ _ _ _ Hf).
    destruct (write_error (fs w !! path)); [|destruct (snd (encode format todos))];
      (split; [reflexivity|]); intros p Hp; try reflexivity;
      simpl; apply lookup_insert_ne; congruence.
  - pose proof (filename_of_fst cfg w) as Hf. rewrite E in Hf.
    unfold save_todos. rewrite (bind_raise _ _ _ _ _ Hf). apply others_kept_refl.
Qed.

Lemma keeps_others {A} cfg (m : M A) :
  preserves files_kept m -> preserves (others_kept cfg) m.
Proof. apply preserves_impl, files_kept_others. Qed.

Lemma add_todo_others cfg name description k :
  preserves (others_kept cfg) (add_todo cfg name description k).
Proof.
  unfold add_todo.
  apply (preserves_bind _ (others_kept_trans cfg));
    [apply keeps_others, keeps_config_get|intros format].
  apply (preserves_bind _ (others_kept_trans cfg));
    [apply keeps_others, keeps_load_todos|intros todos].
  apply (preserves_bind _ (others_kept_trans cfg)); [apply keeps_others; keeps|intros label].
  apply (preserves_bind _ (others_kept_trans cfg));
    [destruct (String.eqb format "txt"); apply keeps_others; keeps|intros todos'].
  apply (preserves_bind _ (others_kept_trans cfg)); [apply save_todos_others|intros _].
  apply keeps_others; keeps.
Qed.

Lemma delete_todo_others cfg idx : preserves (others_kept cfg) (delete_todo cfg idx).
Proof.
  unfold delete_todo.
  apply (preserves_bind _ (others_kept_trans cfg));
    [apply keeps_others, keeps_config_get|intros format].
  apply (preserves_bind _ (others_kept_trans cfg));
    [apply keeps_others, keeps_load_todos|intros todos].
  apply (preserves_bind _ (others_kept_trans cfg)); [apply keeps_others; keeps|intros n].
  destruct (idx <? n).
  - apply (preserves_bind _ (others_kept_trans cfg)); [apply keeps_others; keeps|intros todos'].
    apply (preserves_bind _ (others_kept_trans cfg)); [apply save_todos_others|intros _].
    apply keeps_others; keeps.
  - apply keeps_others; keeps.
Qed.

(** X4: [list_todos] never writes: whatever the priority option and whatever
    the outcome, an exception included, the files and the signed-in path are
    as they were before the command. *)
Theorem list_todos_never_writes cfg priority w :
  fs (snd (list_todos_cli cfg priority w)) = fs w
  /\ current_file_path (snd (list_todos_cli cfg priority w)) = current_file_path w.
Proof. apply keeps_list_todos_cli. Qed.

(** X5: no command writes a file other than the one the file name resolves
    to (the signed-in path, or else the configured [FileName]): at every
    other path the file system is as it was. *)
Theorem mycommands_other_files cfg c w p :
  fst (filename_of cfg w) <> Ok p ->
  fs (snd (mycommands cfg c w)) !! p = fs w !! p.
Proof.
  intros Hp. destruct c as [answer|name|priority name description|idx|priority]; cbn [mycommands].
  - reflexivity.
  - now destruct (keeps_hello name w) as [-> _].
  - unfold add_todo_cli. cbv zeta. destruct (is_choice _); [|reflexivity].
    now apply add_todo_others.
  - now apply delete_todo_others.
  - now destruct (keeps_list_todos_cli cfg priority w) as [-> _].
Qed.

Lemma mycommands_other_files_witness :
  fs (snd (mycommands (sample_cfg "txt") (AddTodo (Some "h") "X" "Y") (busy_world three_lines)))
    !! "notes"
  = fs (busy_world three_lines) !! "notes".
Proof.
  refine (mycommands_other_files (sample_cfg "txt") (AddTodo (Some "h") "X" "Y")
            (busy_world three_lines) "notes" _).
  intros H. vm_compute in H. discriminate H.
Defined.

Lemma save_then_log_ok cfg todos format message w path :
  filename_of cfg w = (Ok path, w) ->
  fst ((save_todos cfg todos format ;;; logging_info message) w) = Ok tt.
Proof.
  intros Hf. unfold bind. rewrite (save_todos_eq _ _ _ _ _ Hf).
  destruct (write_error (fs w !! path)); reflexivity.
Qed.

Lemma load_todos_outcome cfg format w :
  (exists v w1 path, load_todos cfg format w = (Ok v, w1)
                     /\ fs w1 = fs w /\ filename_of cfg w1 = (Ok path, w1))
  \/ load_todos cfg format w = (Raise KeyError, w).
Proof.
  destruct (filename_of cfg w) as [[path|e] w'] eqn:Hf;
    pose proof (filename_of_world _ _ _ _ Hf) as ->.
  - left. destruct (load_todos cfg format w) as [[v|e] w1] eqn:Hl.
    + destruct (load_todos_inv _ _ _ _ _ Hl) as (path' & Hf' & Hfs & Hp & _).
      exists v, w1, path'. repeat split; auto. eapply filename_of_stable; eauto.
    + rewrite (load_todos_eq _ _ _ _ Hf) in Hl.
      destruct (read_node (fs w !! path)) as [text|[]]; [destruct (decode format text)|..];
        discriminate.
  - right. unfold load_todos. rewrite (bind_raise _ _ _ _ _ Hf).
    unfold filename_of, config_get in Hf.
    destruct (current_file_path w) as [[|c p]|]; destruct (FileName cfg);
      unfold ret, raise in Hf; congruence.
Qed.

Lemma add_todo_outcome cfg name description k w r :
  add_todo cfg name description k w = r ->
  fst r = Ok tt \/ fs (snd r) = fs w.
Proof.
  unfold add_todo, config_get.
  destruct (StorageType cfg) as [format|]; [|intros <-; right; reflexivity].
  unfold bind at 1. unfold ret at 1. cbv beta iota.
  destruct (load_todos_outcome cfg format w) as [(todos & w1 & path & Hl & Hfs & Hf)|Hl].
  2: { rewrite (bind_raise _ _ _ _ _ Hl). intros <-. now right. }
  rewrite (bind_ok _ _ _ _ _ Hl).
  unfold bind at 1, lift at 1.
  destruct (priorities_get k) as [label|e]; [|intros <-; right; exact Hfs].
  destruct (String.eqb format "txt"); unfold bind at 1, lift at 1;
    (destruct (append todos _) as [todos'|e]; [|intros <-; right; exact Hfs]);
    intros <-; left; eapply save_then_log_ok; eauto.
Qed.

Lemma delete_todo_outcome cfg idx w r :
  delete_todo cfg idx w = r ->
  fst r = Ok tt \/ fs (snd r) = fs w.
Proof.
  unfold delete_todo, config_get.
  destruct (StorageType cfg) as [format|]; [|intros <-; right; reflexivity].
  unfold bind at 1. unfold ret at 1. cbv beta iota.
  destruct (load_todos_outcome cfg format w) as [(todos & w1 & path & Hl & Hfs & Hf)|Hl].
  2: { rewrite (bind_raise _ _ _ _ _ Hl). intros <-. now right. }
  rewrite (bind_ok _ _ _ _ _ Hl).
  unfold bind at 1, lift at 1. destruct (len todos) as [n|e]; [|intros <-; right; exact Hfs].
  destruct (idx <? n); [|intros <-; left; reflexivity].
  unfold bind at 1, lift at 1.
  destruct (pop todos idx) as [todos'|e]; [|intros <-; right; exact Hfs].
  intros <-; left; eapply save_then_log_ok; eauto.
Qed.

(** X6: a command that ends in an exception has written nothing: the
    lookups, the load, [len], [pop] and [append] all come before the save,
    and [save_todos] itself reports its failures to the log. *)
Theorem mycommands_raise_writes_nothing cfg c w e :
  fst (mycommands cfg c w) = Raise e ->
  fs (snd (mycommands cfg c w)) = fs w.
Proof.
  destruct c as [answer|name|priority name description|idx|priority]; cbn [mycommands].
  - reflexivity.
  - intros _. apply keeps_hello.
  - unfold add_todo_cli. cbv zeta. destruct (is_choice _); [|reflexivity].
    destruct (add_todo_outcome cfg name description (priority_argument priority) w _ eq_refl) as [H|H];
      [rewrite H; discriminate|auto].
  - unfold delete_todo_cli.
    destruct (delete_todo_outcome cfg idx w _ eq_refl) as [H|H]; [rewrite H; discriminate|auto].
  - intros _. apply keeps_list_todos_cli.
Qed.

Lemma mycommands_raise_writes_nothing_witness :
  fs (snd (mycommands (sample_cfg "txt") (DeleteTodo (-5)) (sample_world three_lines)))
  = fs (sample_world three_lines).
Proof.
  refine (mycommands_raise_writes_nothing (sample_cfg "txt") (DeleteTodo (-5))
            (sample_world three_lines) IndexError _).
  vm_compute. reflexivity.
Defined.

(** ** What depends on the store alone *)

Lemma respects_ret {A} (a : A) : respects (ret a).
Proof. intros w w' H. split; [reflexivity|exact H]. Qed.

Lemma respects_raise {A} e : respects (@raise A e).
Proof. intros w w' H. split; [reflexivity|exact H]. Qed.

Lemma respects_lift {A} (r : result A) : respects (lift r).
Proof. intros w w' H. split; [reflexivity|exact H]. Qed.

Lemma respects_bind {A B} (m : M A) (f : A -> M B) :
  respects m -> (forall a, respects (f a)) -> respects (bind m f).
Proof.
  intros Hm Hf w w' Hs. unfold bind. destruct (Hm w w' Hs) as [E Hs'].
  destruct (m w) as [[a|e] w1], (m w') as [[a'|e'] w1']; simpl in *; try discriminate.
  - injection E as <-. now apply Hf.
  - injection E as <-. auto.
Qed.

Lemma respects_try_except {A} (body : M A) handler :
  respects body -> (forall e, respects (handler e)) -> respects (try_except body handler).
Proof.
  intros Hm Hf w w' Hs. unfold try_except. destruct (Hm w w' Hs) as [E Hs'].
  destruct (body w) as [[a|e] w1], (body w') as [[a'|e'] w1']; simpl in *; try discriminate.
  - injection E as <-. auto.
  - injection E as <-. now apply Hf.
Qed.

Lemma respects_for_each {A} (items : list A) body :
  (forall x, respects (body x)) -> respects (for_each items body).
Proof.
  intros Hb. induction items as [|x items IH]; simpl.
  - apply respects_ret.
  - apply respects_bind; auto.
Qed.

Lemma respects_echo line : respects (echo line).
Proof. intros w w' H. split; [reflexivity|exact H]. Qed.

Lemma respects_logging_info message : respects (logging_info message).
Proof. intros w w' H. split; [reflexivity|exact H]. Qed.

Lemma respects_logging_error message cause : respects (logging_error message cause).
Proof. intros w w' H. split; [reflexivity|exact H]. Qed.

Lemma respects_config_get entry : respects (config_get entry).
Proof. destruct entry; [apply respects_ret|apply respects_raise]. Qed.

Lemma respects_filename_of cfg : respects (filename_of cfg).
Proof.
  intros w w' Hs. unfold filename_of. destruct Hs as [Hp Hfs]. rewrite <- Hp.
  assert (Hs : same_store w w') by now split.
  destruct (current_file_path w) as [[|c p]|]; try (split; [reflexivity|exact Hs]);
    now apply respects_config_get.
Qed.

Lemma respects_read_file path : respects (read_file path).
Proof.
  intros w w' [Hp Hfs]. unfold read_file. rewrite <- Hfs. split; [reflexivity|now split].
Qed.

Lemma respects_open_write path : respects (open_write path).
Proof.
  intros w w' [Hp Hfs]. unfold open_write. rewrite <- Hfs.
  destruct (write_error (fs w !! path)); (split; [reflexivity|now split]).
Qed.

Lemma respects_write path text : respects (write path text).
Proof.
  intros w w' [Hp Hfs]. unfold write. rewrite <- Hfs.
  destruct (fs w !! path) as [[old| | |]|]; (split; [reflexivity|now split]).
Qed.

(** The steps of a computation that respects the store. *)
Ltac respect :=
  repeat first
    [ apply respects_ret | apply respects_raise | apply respects_lift
    | apply respects_echo | apply respects_logging_info | apply respects_logging_error
    | apply respects_config_get | apply respects_filename_of
    | apply respects_read_file | apply respects_open_write | apply respects_write
    | apply respects_bind; [|intros ?]
    | apply respects_try_except; [|intros ?]
    | apply respects_for_each; intros ?
    | match goal with
      | |- respects (if ?b then _ else _) => destruct b
      | |- respects (match ?x with _ => _ end) => destruct x
      end ].

Lemma respects_load_todos cfg format : respects (load_todos cfg format).
Proof. unfold load_todos. respect. Qed.

Lemma respects_save_todos cfg todos format : respects (save_todos cfg todos format).
Proof. unfold save_todos. respect. Qed.

Lemma respects_echo_todos format : forall items idx, respects (echo_todos format idx items).
Proof.
  induction items as [|todo items IH]; intros idx; simpl; [apply respects_ret|].
  apply respects_bind; [respect|intros line].
  apply respects_bind; [respect|intros _]. apply IH.
Qed.

Lemma respects_mycommands cfg c : respects (mycommands cfg c).
Proof.
  destruct c as [answer|name|priority name description|idx|priority]; cbn [mycommands].
  - intros w w' [Hp Hfs]. split; [reflexivity|]. now split.
  - unfold hello. respect.
  - unfold add_todo_cli, add_todo. cbv zeta. destruct (is_choice _); [|respect].
    apply respects_bind; [respect|intros format].
    apply respects_bind; [apply respects_load_todos|intros todos].
    apply respects_bind; [respect|intros label].
    apply respects_bind; [respect|intros todos'].
    apply respects_bind; [apply respects_save_todos|intros _]. respect.
  - unfold delete_todo_cli, delete_todo.
    apply respects_bind; [respect|intros format].
    apply respects_bind; [apply respects_load_todos|intros todos].
    apply respects_bind; [respect|intros n].
    destruct (idx <? n); [|respect].
    apply respects_bind; [respect|intros todos'].
    apply respects_bind; [apply respects_save_todos|intros _]. respect.
  - assert (H : respects (list_todos cfg priority)).
    { unfold list_todos.
      apply respects_bind; [respect|intros format].
      apply respects_bind; [apply respects_load_todos|intros todos].
      apply respects_bind; [respect|intros filtered].
      apply respects_bind; [respect|intros items].
      apply respects_bind; [apply respects_echo_todos|intros _]. respect. }
    unfold list_todos_cli. destruct priority as [k|]; [destruct (is_choice k)|]; try exact H.
    respect.
Qed.

(** ** Signing in *)

(** X7: what [signin] sets does not reach the next run of the program: the
    module sets [current_file_path] to [None] when it is loaded, so a command
    run after a [signin] run returns what it returns, and leaves the files it
    leaves, without that run. *)
Theorem signin_forgotten cfg answer c w :
  let w1 := snd (main cfg (Signin answer) w) in
  fst (main cfg c w1) = fst (main cfg c w)
  /\ fs (snd (main cfg c w1)) = fs (snd (main cfg c w)).
Proof.
  intros w1. unfold main.
  destruct (respects_mycommands cfg c
              {| current_file_path := None; fs := fs w1; log := log w1; terminal := terminal w1 |}
              {| current_file_path := None; fs := fs w; log := log w; terminal := terminal w |})
    as [E [_ Hfs]].
  - split; reflexivity.
  - auto.
Qed.

Lemma encode_new_entry format name description label :
  snd (encode format (VList [new_entry format name description label])) = None.
Proof.
  unfold encode, new_entry.
  destruct (String.eqb format "json") eqn:Ej; [reflexivity|].
  destruct (String.eqb format "csv") eqn:Ec; [|reflexivity].
  apply String.eqb_eq in Ec. subst format. reflexivity.
Qed.

(** X8: within one run, [signin] redirects the store.  After a non-empty
    answer that names a path with no file, [add_todo] ends normally and
    leaves every other path alone, the configured [FileName] included; where
    a file can be created at that path, it is created, holding the encoding
    of the one new entry; where none can be created (the directory of the
    path is missing), the files stay as they were and the refusal is
    logged. *)
Theorem signin_then_add cfg format w answer name description k label :
  answer <> "" ->
  StorageType cfg = Some format ->
  read_node (fs w !! answer) = Raise FileNotFoundError ->
  priorities_get k = Ok label ->
  let r := (signin answer ;;; add_todo_cli cfg (Some k) name description) w in
  fst r = Ok tt
  /\ (forall p, p <> answer -> fs (snd r) !! p = fs w !! p)
  /\ (fs w !! answer = None ->
      fs (snd r) !! answer
      = Some (File (fst (encode format (VList [new_entry format name description label])))))
  /\ (fs w !! answer = Some NoEntry ->
      fs (snd r) = fs w
      /\ In (Error "Failed to save todos: " (Some FileNotFoundError)) (log (snd r))).
Proof.
  intros Ha Hc Hnone Hk.
  pose (ws := add_log (Info ("File path set to " ++ answer))
                {| current_file_path := Some answer; fs := fs w;
                   log := log w; terminal := terminal w |}).
  assert (Hs : signin answer w = (Ok tt, ws)) by reflexivity.
  assert (Hf : filename_of cfg ws = (Ok answer, ws)).
  { unfold filename_of. simpl. destruct answer; [congruence|reflexivity]. }
  pose (w1 := add_log (Info "No todo file found, starting a new one.") ws).
  assert (Hl : load_todos cfg format ws = (Ok (VList []), w1)).
  { rewrite (load_todos_eq _ _ _ _ Hf). cbn [fs ws add_log]. now rewrite Hnone. }
  assert (Hf1 : filename_of cfg w1 = (Ok answer, w1))
    by (eapply filename_of_stable; [exact Hf|reflexivity]).
  assert (Hadd : add_todo_cli cfg (Some k) name description ws
                 = (save_todos cfg (VList [new_entry format name description label]) format ;;;
                    logging_info "Added new todo.") w1).
  { unfold add_todo_cli. cbv zeta. cbn [priority_argument].
    rewrite (priorities_get_choice _ _ Hk).
    apply (add_todo_eq cfg format ws w1 [] name description k label Hc Hl Hk). }
  pose proof (encode_new_entry format name description label) as He.
  assert (Hres : (save_todos cfg (VList [new_entry format name description label]) format ;;;
                  logging_info "Added new todo.") w1
                 = match write_error (fs w !! answer) with
                   | Some e =>
                       (Ok tt, add_log (Info "Added new todo.")
                                 (add_log (Error "Failed to save todos: " (Some e)) w1))
                   | None =>
                       (Ok tt, add_log (Info "Added new todo.")
                                 (set_fs (<[answer := File (fst (encode format
                                            (VList [new_entry format name description label])))]>
                                            (fs w)) w1))
                   end).
  { unfold bind. rewrite (save_todos_eq _ _ _ _ _ Hf1). change (fs w1) with (fs w).
    destruct (write_error (fs w !! answer)); [reflexivity|]. now rewrite He. }
  intros r. unfold r. rewrite (bind_ok _ _ _ _ _ Hs), Hadd, Hres.
  destruct (fs w !! answer) as [[t| |t|]|] eqn:El; cbn [read_node] in Hnone;
    try discriminate Hnone; cbn [write_error fst snd].
  - split; [reflexivity|]. split; [reflexivity|]. split; [discriminate|]. intros _.
    split; [reflexivity|]. cbn [log add_log]. apply in_or_app. left. apply in_or_app. right.
    now left.
  - split; [reflexivity|]. split.
    + intros p Hp. cbn [fs add_log set_fs]. apply lookup_insert_ne. congruence.
    + split; [|discriminate]. intros _. cbn [fs add_log set_fs]. apply lookup_insert_eq.
Qed.

Lemma signin_then_add_witness :
  fs (snd ((signin "mine" ;;; add_todo_cli (sample_cfg "txt") (Some "h") "X" "Y") empty_world))
    !! "mine"
  = Some (File ("X: Y [Priority: High]" ++ char LF))
  /\ fs (snd ((signin "nodir/mine" ;;; add_todo_cli (sample_cfg "txt") (Some "h") "X" "Y")
                missing_directory_world))
     = fs missing_directory_world.
Proof.
  split.
  - refine (proj1 (proj2 (proj2 (signin_then_add (sample_cfg "txt") "txt" empty_world "mine"
                                   "X" "Y" "h" "High" _ _ _ _))) _).
    + discriminate.
    + reflexivity.
    + reflexivity.
    + reflexivity.
    + reflexivity.
  - refine (proj1 (proj2 (proj2 (proj2 (signin_then_add (sample_cfg "txt") "txt"
                                          missing_directory_world "nodir/mine"
                                          "X" "Y" "h" "High" _ _ _ _))) _)).
    + discriminate.
    + reflexivity.
    + reflexivity.
    + reflexivity.
    + reflexivity.
Defined.

(** ** Loading and saving *)

(** X2: once a file name is resolved, [save_todos] never raises and echoes
    nothing.  When the file cannot be opened for writing (a directory, a
    file that is read-only, a place where no file can be created) the files
    stay as they were and the exception is logged; when it can, the file
    holds what [encode] produced, and an exception that cut the writing
    short is only logged. *)
Theorem save_todos_never_raises cfg todos format w path :
  filename_of cfg w = (Ok path, w) ->
  let r := save_todos cfg todos format w in
  fst r = Ok tt
  /\ terminal (snd r) = terminal w
  /\ (forall e,
        write_error (fs w !! path) = Some e ->
        fs (snd r) = fs w
        /\ log (snd r) = (log w ++ [Error "Failed to save todos: " (Some e)])%list)
  /\ (writable w path ->
      fs (snd r) !! path = Some (File (fst (encode format todos)))
      /\ log (snd r)
         = match snd (encode format todos) with
           | Some e => (log w ++ [Error "Failed to save todos: " (Some e)])%list
           | None => log w
           end).
Proof.
  intros Hf r. unfold r, writable. rewrite (save_todos_eq _ _ _ _ _ Hf).
  destruct (write_error (fs w !! path)) as [e|] eqn:El.
  - split; [reflexivity|]. split; [reflexivity|]. split; [|intros [=]].
    intros e' [= <-]. split; reflexivity.
  - destruct (snd (encode format todos));
      (split; [reflexivity|]); (split; [reflexivity|]);
      (split; [intros e' [=]|intros _]);
      (split; [apply lookup_insert_eq|reflexivity]).
Qed.

Lemma save_todos_never_raises_witness :
  (fs (snd (save_todos (sample_cfg "json") (VList sample_records) "json" directory_world))
   = fs directory_world
   /\ log (snd (save_todos (sample_cfg "json") (VList sample_records) "json" directory_world))
      = [Error "Failed to save todos: " (Some IsADirectoryError)])
  /\ (fs (snd (save_todos (sample_cfg "json") (VList sample_records) "json" no_entry_world))
      = fs no_entry_world
      /\ log (snd (save_todos (sample_cfg "json") (VList sample_records) "json" no_entry_world))
         = [Error "Failed to save todos: " (Some FileNotFoundError)])
  /\ (fs (snd (save_todos (sample_cfg "json") (VList sample_records) "json"
                 (read_only_world "[]")))
      = fs (read_only_world "[]")
      /\ log (snd (save_todos (sample_cfg "json") (VList sample_records) "json"
                     (read_only_world "[]")))
         = [Error "Failed to save todos: " (Some PermissionError)])
  /\ fs (snd (save_todos (sample_cfg "json") (VList sample_records) "json" empty_world))
       !! "todos"
     = Some (File (json_dumps (VList sample_records))).
Proof.
  split; [|split; [|split]].
  - exact (proj1 (proj2 (proj2 (save_todos_never_raises (sample_cfg "json")
             (VList sample_records) "json" directory_world "todos" eq_refl)))
             IsADirectoryError eq_refl).
  - exact (proj1 (proj2 (proj2 (save_todos_never_raises (sample_cfg "json")
             (VList sample_records) "json" no_entry_world "todos" eq_refl)))
             FileNotFoundError eq_refl).
  - exact (proj1 (proj2 (proj2 (save_todos_never_raises (sample_cfg "json")
             (VList sample_records) "json" (read_only_world "[]") "todos" eq_refl)))
             PermissionError eq_refl).
  - exact (proj1 (proj2 (proj2 (proj2 (save_todos_never_raises (sample_cfg "json")
             (VList sample_records) "json" empty_world "todos" eq_refl))) eq_refl)).
Defined.

(** X3: what [load_todos] returns depends on the signed-in path and on the
    file at the resolved path alone: other files, the log and the terminal
    do not matter. *)
Theorem load_todos_local cfg format w w' :
  current_file_path w' = current_file_path w ->
  (forall path, fst (filename_of cfg w) = Ok path -> fs w' !! path = fs w !! path) ->
  fst (load_todos cfg format w') = fst (load_todos cfg format w).
Proof.
  intros Hp Hfs. pose proof (filename_of_same cfg w w' Hp) as Hsame.
  pose proof (filename_of_fst cfg w) as Hf. pose proof (filename_of_fst cfg w') as Hf'.
  rewrite Hsame in Hf'.
  destruct (fst (filename_of cfg w)) as [path|e].
  - rewrite (load_todos_eq _ _ _ _ Hf), (load_todos_eq _ _ _ _ Hf'), (Hfs path eq_refl).
    destruct (read_node (fs w !! path)) as [text|[]]; [destruct (decode format text)|..];
      reflexivity.
  - unfold load_todos. now rewrite (bind_raise _ _ _ _ _ Hf), (bind_raise _ _ _ _ _ Hf').
Qed.

Lemma load_todos_local_witness :
  fst (load_todos (sample_cfg "txt") "txt" (busy_world three_lines))
  = fst (load_todos (sample_cfg "txt") "txt" (sample_world three_lines)).
Proof.
  refine (load_todos_local (sample_cfg "txt") "txt" (sample_world three_lines)
            (busy_world three_lines) _ _).
  - reflexivity.
  - intros path H. vm_compute in H. injection H as <-. vm_compute. reflexivity.
Defined.

Lemma csv_rows_text_refused rows bad rest e :
  dict_to_list bad = Raise e ->
  csv_rows_text (List.map record_of rows ++ bad :: rest) = (table_text rows, Some e).
Proof.
  intros Hb. induction rows as [|[[a b] c] rows IH].
  - cbn [List.map List.app csv_rows_text table_text]. now rewrite Hb.
  - cbn [List.map List.app csv_rows_text table_text].
    change (dict_to_list (record_of (a, b, c))) with (Ok [VStr a; VStr b; VStr c]).
    cbv iota. rewrite IH. reflexivity.
Qed.

(** X12: in the tabular encoding, on a file that can be written, a row
    that [DictWriter] refuses (a row with a key outside the three field
    names, or an entry that is no mapping) cuts the save short: the file
    keeps the header and the rows before it, the rows after it are lost, the
    exception is only logged, and the next load returns the rows before
    it. *)
Theorem save_todos_csv_refused_row cfg w path rows bad rest e :
  filename_of cfg w = (Ok path, w) ->
  writable w path ->
  dict_to_list bad = Raise e ->
  let r := save_todos cfg (VList (List.map record_of rows ++ bad :: rest)) "csv" w in
  fst r = Ok tt
  /\ fs (snd r) !! path = Some (File (csv_row fieldnames ++ table_text rows))
  /\ log (snd r) = (log w ++ [Error "Failed to save todos: " (Some e)])%list
  /\ fst (load_todos cfg "csv" (snd r)) = Ok (VList (List.map record_of rows)).
Proof.
  intros Hf Hdir Hb r.
  assert (He : encode "csv" (VList (List.map record_of rows ++ bad :: rest))
               = (csv_row fieldnames ++ table_text rows, Some e)).
  { unfold encode. simpl. now rewrite (csv_rows_text_refused _ _ _ _ Hb). }
  assert (Hr : r = (Ok tt, add_log (Error "Failed to save todos: " (Some e))
                             (set_fs (<[path := File (csv_row fieldnames ++ table_text rows)]>
                                        (fs w)) w))).
  { unfold r. now rewrite (save_todos_written _ _ _ _ _ Hf Hdir), He. }
  rewrite Hr. cbn [fst snd]. split; [reflexivity|]. split; [apply lookup_insert_eq|].
  split; [reflexivity|].
  erewrite (load_todos_file cfg "csv" _ path);
    [reflexivity| |apply lookup_insert_eq|apply decode_csv_table].
  eapply filename_of_stable; eauto.
Qed.

Lemma save_todos_csv_refused_row_witness :
  fst (load_todos (sample_cfg "csv") "csv"
         (snd (save_todos (sample_cfg "csv")
                 (VList (List.map record_of [("a", "b", "c")]
                           ++ wide_row :: [record_of ("d", "e", "f")]))
                 "csv" empty_world)))
  = Ok (VList (List.map record_of [("a", "b", "c")])).
Proof.
  refine (proj2 (proj2 (proj2 (save_todos_csv_refused_row (sample_cfg "csv") empty_world
                                 "todos" [("a", "b", "c")] wide_row
                                 [record_of ("d", "e", "f")] ValueError _ _ _)))).
  - reflexivity.
  - reflexivity.
  - vm_compute. reflexivity.
Defined.

(** ** Adding: the store is not a list, a directory, or undecodable *)

Lemma is_choice_label k : is_choice k = true -> exists label, priorities_get k = Ok label.
Proof. intros H. destruct (is_choice_inv k H) as [->|[->|[->|[->| ->]]]]; eexists; reflexivity. Qed.

(** X9: when the file decodes to a value that is no list (a JSON object,
    string or number), [add_todo] ends in [AttributeError] at [append], before
    any save: the files are as they were. *)
Theorem add_todo_not_a_list cfg format w w1 v priority name description :
  StorageType cfg = Some format ->
  load_todos cfg format w = (Ok v, w1) ->
  (forall items, v <> VList items) ->
  is_choice (priority_argument priority) = true ->
  add_todo_cli cfg priority name description w = (Raise AttributeError, w1)
  /\ fs w1 = fs w.
Proof.
  intros Hc Hl Hv Hk. split.
  - unfold add_todo_cli. cbv zeta. rewrite Hk. destruct (is_choice_label _ Hk) as [label Hg].
    unfold add_todo. rewrite Hc. unfold config_get.
    unfold bind at 1. unfold ret at 1. cbv beta iota.
    rewrite (bind_ok _ _ _ _ _ Hl).
    unfold bind at 1. unfold lift at 1. rewrite Hg.
    destruct v as [| | | |items|d]; try (destruct (String.eqb format "txt"); reflexivity).
    now elim (Hv items).
  - destruct (load_todos_inv _ _ _ _ _ Hl) as (path & _ & Hfs & _). exact Hfs.
Qed.

Lemma add_todo_not_a_list_witness :
  add_todo_cli (sample_cfg "json") None "X" "Y" (sample_world "{}")
  = (Raise AttributeError, sample_world "{}").
Proof.
  refine (proj1 (add_todo_not_a_list (sample_cfg "json") "json" (sample_world "{}")
                   (sample_world "{}") (VDict []) None "X" "Y" _ _ _ _)).
  - reflexivity.
  - vm_compute. reflexivity.
  - discriminate.
  - reflexivity.
Defined.

(** X10: when the resolved path is a directory, [add_todo] ends normally
    and logs [Added new todo.] although nothing was stored: the failures of
    the load and of the save are only logged. *)
Theorem add_todo_directory cfg format w path priority name description :
  StorageType cfg = Some format ->
  filename_of cfg w = (Ok path, w) ->
  fs w !! path = Some Directory ->
  is_choice (priority_argument priority) = true ->
  add_todo_cli cfg priority name description w
  = (Ok tt, add_log (Info "Added new todo.")
              (add_log (Error "Failed to save todos: " (Some IsADirectoryError))
                 (add_log (Error "Failed to load todos: " (Some IsADirectoryError)) w))).
Proof.
  intros Hc Hf Hdir Hk. unfold add_todo_cli. cbv zeta. rewrite Hk.
  destruct (is_choice_label _ Hk) as [label Hg].
  pose (w1 := add_log (Error "Failed to load todos: " (Some IsADirectoryError)) w).
  assert (Hl : load_todos cfg format w = (Ok (VList []), w1))
    by (rewrite (load_todos_eq _ _ _ _ Hf), Hdir; reflexivity).
  rewrite (add_todo_eq _ _ _ _ _ _ _ _ _ Hc Hl Hg).
  assert (Hf1 : filename_of cfg w1 = (Ok path, w1))
    by (eapply filename_of_stable; eauto).
  unfold bind. rewrite (save_todos_eq _ _ _ _ _ Hf1). cbn [fs w1 add_log].
  rewrite Hdir. reflexivity.
Qed.

Lemma add_todo_directory_witness :
  add_todo_cli (sample_cfg "csv") (Some "l") "X" "Y" directory_world
  = (Ok tt, add_log (Info "Added new todo.")
              (add_log (Error "Failed to save todos: " (Some IsADirectoryError))
                 (add_log (Error "Failed to load todos: " (Some IsADirectoryError))
                    directory_world))).
Proof.
  refine (add_todo_directory (sample_cfg "csv") "csv" directory_world "todos" (Some "l")
            "X" "Y" _ _ _ _).
  - reflexivity.
  - reflexivity.
  - reflexivity.
  - reflexivity.
Defined.

(** X11: when the file holds a text that cannot be decoded, [load_todos]
    hands [add_todo] the empty collection, so the command replaces the file
    by the encoding of the one new entry; the log keeps the load error,
    followed by [Added new todo.]. *)
Theorem add_todo_overwrites_undecodable cfg format w path text e priority name description label :
  StorageType cfg = Some format ->
  filename_of cfg w = (Ok path, w) ->
  fs w !! path = Some (File text) ->
  decode format text = Raise e ->
  priorities_get (priority_argument priority) = Ok label ->
  let r := add_todo_cli cfg priority name description w in
  fst r = Ok tt
  /\ fs (snd r) !! path
     = Some (File (fst (encode format (VList [new_entry format name description label]))))
  /\ log (snd r)
     = (log w ++ [Error "Failed to load todos: " (Some e); Info "Added new todo."])%list.
Proof.
  intros Hc Hf Hfile Hd Hk r. unfold r, add_todo_cli. cbv zeta.
  rewrite (priorities_get_choice _ _ Hk).
  pose (w1 := add_log (Error "Failed to load todos: " (Some e)) w).
  assert (Hl : load_todos cfg format w = (Ok (VList []), w1))
    by (rewrite (load_todos_eq _ _ _ _ Hf), Hfile; cbn [read_node]; rewrite Hd; reflexivity).
  pose proof (encode_new_entry format name description label) as He.
  destruct (encode format (VList [new_entry format name description label])) as [text' e'] eqn:Ee.
  simpl in He. subst e'.
  rewrite (add_todo_saved cfg format w w1 [] name description _ label path text'); auto.
  - cbn [fst snd]. split; [reflexivity|]. split.
    + simpl. apply lookup_insert_eq.
    + simpl. now rewrite <- List.app_assoc.
  - unfold writable. now rewrite Hfile.
Qed.

Lemma add_todo_overwrites_undecodable_witness :
  fs (snd (add_todo_cli (sample_cfg "json") (Some "c") "X" "Y" (sample_world "[1,")))
    !! "todos"
  = Some (File (json_dumps (VList [new_entry "json" "X" "Y" "Crucial"]))).
Proof.
  refine (proj1 (proj2 (add_todo_overwrites_undecodable (sample_cfg "json") "json"
                          (sample_world "[1,") "todos" "[1," JSONDecodeError (Some "c")
                          "X" "Y" "Crucial" _ _ _ _ _))).
  - reflexivity.
  - reflexivity.
  - reflexivity.
  - vm_compute. reflexivity.
  - reflexivity.
Defined.

(** ** Adding, then deleting or listing *)







Lemma csv_record_is_record v : csv_record v = true -> is_record v = true.
Proof. intros H. destruct (csv_record_inv _ H) as [[[a b] c] ->]. reflexivity. Qed.



(** ** Listing entries that are no records *)

Lemma getitem_raises v k e : getitem v k = Raise e -> e = KeyError \/ e = TypeError.
Proof.
  unfold getitem. destruct v; try (intros [= <-]; now right).
  destruct (dict_get _ _); [discriminate|]. intros [= <-]. now left.
Qed.

Lemma todo_line_not_record format todo :
  String.eqb format "txt" = false ->
  is_record todo = false ->
  exists e, (forall idx, todo_line format idx todo = Raise e)
            /\ (e = KeyError \/ e = TypeError).
Proof.
  intros Hf Hr. unfold todo_line. rewrite Hf. unfold is_record, has_field in Hr.
  destruct (getitem todo "name") as [n|e] eqn:E1;
    [|exists e; split; [reflexivity|eapply getitem_raises, E1]].
  destruct (getitem todo "description") as [d|e] eqn:E2;
    [|exists e; split; [reflexivity|eapply getitem_raises, E2]].
  destruct (getitem todo "priority") as [p|e] eqn:E3;
    [discriminate|exists e; split; [reflexivity|eapply getitem_raises, E3]].
Qed.

Lemma echo_todos_stops format bad rest e : forall good idx w,
  String.eqb format "txt" = false ->
  forallb is_record good = true ->
  (forall i, todo_line format i bad = Raise e) ->
  echo_todos format idx (good ++ bad :: rest) w
  = (Raise e, add_lines (record_lines idx good) w).
Proof.
  induction good as [|todo good IH]; intros idx w Hf Hr Hb.
  - cbn [List.app echo_todos record_lines]. unfold bind, lift. rewrite Hb.
    now rewrite add_lines_nil.
  - cbn [forallb] in Hr. apply andb_true_iff in Hr as [Ht Hr].
    cbn [List.app echo_todos record_lines].
    unfold bind at 1, lift. rewrite (todo_line_record _ _ _ Hf Ht).
    unfold bind at 1, echo. rewrite (IH _ _ Hf Hr Hb). now rewrite add_lines_cons.
Qed.

(** X15: outside line-text mode, [list_todos] without a filter echoes as it
    goes: on a collection whose first entry that is no record comes after
    the records [good], the lines of [good] are echoed, then the command
    ends in [KeyError] or [TypeError], and success is not logged. *)
Theorem list_todos_partial_output cfg format w w1 good bad rest :
  StorageType cfg = Some format ->
  format <> "txt" ->
  load_todos cfg format w = (Ok (VList (good ++ bad :: rest)), w1) ->
  forallb is_record good = true ->
  is_record bad = false ->
  exists e,
    list_todos_cli cfg None w = (Raise e, add_lines (record_lines 0 good) w1)
    /\ (e = KeyError \/ e = TypeError).
Proof.
  intros Hc Hf Hl Hg Hb. apply String.eqb_neq in Hf.
  destruct (todo_line_not_record format bad Hf Hb) as (e & He & Hcases).
  exists e. split; [|exact Hcases].
  unfold list_todos_cli. rewrite (list_todos_loaded _ _ _ _ _ _ Hc Hl). cbn [given].
  unfold bind at 1. unfold ret at 1. unfold bind at 1. unfold lift at 1, iter.
  unfold bind at 1. now rewrite (echo_todos_stops _ _ _ _ _ _ _ Hf Hg He).
Qed.

Lemma list_todos_partial_output_witness :
  exists e,
    list_todos_cli (sample_cfg "json") None (sample_world (json_dumps (VList partial_records)))
    = (Raise e, add_lines ["(0) - A: first [Priority: Low]"]
                  (sample_world (json_dumps (VList partial_records))))
    /\ (e = KeyError \/ e = TypeError).
Proof.
  refine (list_todos_partial_output (sample_cfg "json") "json"
            (sample_world (json_dumps (VList partial_records)))
            (sample_world (json_dumps (VList partial_records)))
            [new_entry "json" "A" "first" "Low"] (VDict [(KStr "name", VStr "B")])
            [new_entry "json" "C" "third" "High"] _ _ _ _ _).
  - reflexivity.
  - discriminate.
  - vm_compute. reflexivity.
  - reflexivity.
  - reflexivity.
Defined.

Lemma filter_priority_raises k label : forall items,
  priorities_get k = Ok label ->
  forallb (fun todo => has_field todo "priority") items = false ->
  exists e, filter_priority items k = Raise e /\ (e = KeyError \/ e = TypeError).
Proof.
  intros items Hk. induction items as [|todo items IH]; intros H; [discriminate|].
  cbn [forallb] in H. cbn [filter_priority]. unfold has_field in H at 1. rewrite Hk.
  destruct (getitem todo "priority") as [p|e] eqn:E.
  - simpl in H. destruct (IH H) as (e & -> & He). eauto.
  - exists e. split; [reflexivity|eapply getitem_raises, E].
Qed.

(** X16: with a priority filter, the whole collection is filtered before
    anything is echoed: when some entry has no [priority] field, [list_todos]
    ends in [KeyError] or [TypeError] and echoes nothing, whatever the other
    entries are. *)
Theorem list_todos_filter_missing_priority cfg format w w1 items k :
  StorageType cfg = Some format ->
  load_todos cfg format w = (Ok (VList items), w1) ->
  is_choice k = true ->
  forallb (fun todo => has_field todo "priority") items = false ->
  exists e,
    list_todos_cli cfg (Some k) w = (Raise e, w1)
    /\ (e = KeyError \/ e = TypeError)
    /\ terminal w1 = terminal w.
Proof.
  intros Hc Hl Hk Hm.
  destruct (is_choice_label _ Hk) as [label Hg].
  destruct (filter_priority_raises k label items Hg Hm) as (e & He & Hcases).
  exists e. split; [|split; [exact Hcases|]].
  - unfold list_todos_cli. rewrite Hk.
    rewrite (list_todos_loaded _ _ _ _ _ _ Hc Hl), (is_choice_given _ Hk).
    unfold bind at 1. unfold bind at 1. unfold lift at 1, iter.
    unfold bind at 1. unfold lift at 1. now rewrite He.
  - destruct (load_todos_inv _ _ _ _ _ Hl) as (path & _ & _ & _ & Ht). exact Ht.
Qed.

Lemma list_todos_filter_missing_priority_witness :
  exists e,
    list_todos_cli (sample_cfg "json") (Some "l")
      (sample_world (json_dumps (VList partial_records)))
    = (Raise e, sample_world (json_dumps (VList partial_records)))
    /\ (e = KeyError \/ e = TypeError)
    /\ terminal (sample_world (json_dumps (VList partial_records)))
       = terminal (sample_world (json_dumps (VList partial_records))).
Proof.
  refine (list_todos_filter_missing_priority (sample_cfg "json") "json"
            (sample_world (json_dumps (VList partial_records)))
            (sample_world (json_dumps (VList partial_records)))
            partial_records "l" _ _ _ _).
  - reflexivity.
  - vm_compute. reflexivity.
  - reflexivity.
  - reflexivity.
Defined.

(** X17: when [load_todos] returns the empty collection (no file, a
    directory, an undecodable or empty file), [list_todos] echoes nothing,
    with or without a filter and in every encoding, logs success and leaves
    the files alone. *)
Theorem list_todos_nothing_loaded cfg format w w1 priority :
  StorageType cfg = Some format ->
  load_todos cfg format w = (Ok (VList []), w1) ->
  (forall k, priority = Some k -> is_choice k = true) ->
  list_todos_cli cfg priority w = (Ok tt, add_log (Info "Listed todos successfully.") w1)
  /\ terminal w1 = terminal w /\ fs w1 = fs w.
Proof.
  intros Hc Hl Hk. split.
  - destruct priority as [k|].
    + now apply (list_todos_filter_line_text_empty cfg format); auto.
    + unfold list_todos_cli. now rewrite (list_todos_loaded _ _ _ _ _ _ Hc Hl).
  - destruct (load_todos_inv _ _ _ _ _ Hl) as (path & _ & Hfs & _ & Ht). auto.
Qed.

Lemma list_todos_nothing_loaded_witness :
  list_todos_cli (sample_cfg "csv") (Some "h") empty_world
  = (Ok tt, add_log (Info "Listed todos successfully.")
              (add_log (Info "No todo file found, starting a new one.") empty_world)).
Proof.
  refine (proj1 (list_todos_nothing_loaded (sample_cfg "csv") "csv" empty_world
                   (add_log (Info "No todo file found, starting a new one.") empty_world)
                   (Some "h") _ _ _)).
  - reflexivity.
  - reflexivity.
  - intros k [= <-]. reflexivity.
Defined.

(** ** A storage type that is none of the three

    [load_todos] and [save_todos] treat every format but [json] and [csv] as
    line text, while [add_todo] and [list_todos] test for [txt]. *)

Lemma splitlines_from_nonempty s : forall line,
  line <> "" -> splitlines_from line false s <> [].
Proof.
  induction s as [|c s IH]; intros line Hl; cbn [splitlines_from andb].
  - destruct (String.eqb line "") eqn:E; [apply String.eqb_eq in E; congruence|discriminate].
  - destruct (is_linebreak c); [discriminate|]. apply IH. now destruct line.
Qed.

Lemma splitlines_nonempty s : s <> "" -> splitlines s <> [].
Proof.
  destruct s as [|c s]; [congruence|]. intros _. unfold splitlines.
  cbn [splitlines_from andb]. destruct (is_linebreak c); [discriminate|].
  now apply splitlines_from_nonempty.
Qed.

Lemma universal_newlines_nonempty s : s <> "" -> universal_newlines false s <> "".
Proof.
  destruct s as [|c s]; [congruence|]. intros _. cbn [universal_newlines andb].
  destruct (Ascii.eqb c CR); discriminate.
Qed.

Lemma lines_text_nonempty items : items <> [] -> lines_text items <> "".
Proof.
  destruct items as [|todo items]; [congruence|]. intros _. cbn [lines_text].
  destruct (str todo); discriminate.
Qed.

(** With a storage type that is none of the three, the collection that
    [load_todos] returns is a list of lines. *)
Lemma load_todos_line_text cfg format w path :
  format <> "json" -> format <> "csv" ->
  filename_of cfg w = (Ok path, w) ->
  exists lines w1, load_todos cfg format w = (Ok (VList (List.map VStr lines)), w1).
Proof.
  intros Hj Hc Hf. rewrite (load_todos_eq _ _ _ _ Hf).
  destruct (read_node (fs w !! path)) as [text|[]]; try (now exists []; eauto).
  apply String.eqb_neq in Hj, Hc. unfold decode. rewrite Hj, Hc.
  eauto.
Qed.

Lemma lines_text_snoc items x :
  lines_text (items ++ [x]) = lines_text items ++ str x ++ char LF.
Proof.
  induction items as [|y items IH]; cbn [List.app lines_text].
  - now rewrite append_nil_r.
  - now rewrite IH, !append_assoc.
Qed.

(** X18: with a configured storage type other than [json], [csv] and
    [txt], on a file that can be written, [add_todo] appends the record and
    [save_todos] writes it as a line of text, the printed form of the dict;
    [list_todos] then ends in [TypeError] before echoing anything, since
    every loaded entry is a string. *)
Theorem unknown_format_add_then_list cfg format w path priority name description :
  StorageType cfg = Some format ->
  format <> "json" -> format <> "csv" -> format <> "txt" ->
  filename_of cfg w = (Ok path, w) ->
  writable w path ->
  is_choice (priority_argument priority) = true ->
  let r := add_todo_cli cfg priority name description w in
  fst r = Ok tt
  /\ (exists text label,
        priorities_get (priority_argument priority) = Ok label
        /\ fs (snd r) !! path
           = Some (File (text ++ repr (VDict [(KStr "name", VStr name);
                                              (KStr "description", VStr description);
                                              (KStr "priority", VStr label)])
                              ++ char LF)))
  /\ fst (list_todos_cli cfg None (snd r)) = Raise TypeError
  /\ terminal (snd (list_todos_cli cfg None (snd r))) = terminal w.
Proof.
  intros Hc Hj Hcsv Htxt Hf Hdir Hk r.
  destruct (is_choice_label _ Hk) as [label Hg].
  destruct (load_todos_line_text cfg format w path Hj Hcsv Hf) as (lines & w1 & Hl).
  pose proof Hj as Ej. pose proof Hcsv as Ec. pose proof Htxt as Et.
  apply String.eqb_neq in Ej, Ec, Et.
  assert (Hentry : new_entry format name description label
                   = VDict [(KStr "name", VStr name); (KStr "description", VStr description);
                            (KStr "priority", VStr label)])
    by (unfold new_entry; now rewrite Et).
  set (entry := VDict [(KStr "name", VStr name); (KStr "description", VStr description);
                       (KStr "priority", VStr label)]) in *.
  set (text := lines_text (List.map VStr lines ++ [entry])).
  assert (He : encode format (VList (List.map VStr lines
                                       ++ [new_entry format name description label]))
               = (text, None))
    by (unfold encode; rewrite Ej, Ec, Hentry; reflexivity).
  assert (Hadd : r = (Ok tt, add_log (Info "Added new todo.")
                               (set_fs (<[path := File text]> (fs w)) w1))).
  { unfold r, add_todo_cli. cbv zeta. rewrite Hk. eapply add_todo_saved; eauto. }
  destruct (load_todos_inv _ _ _ _ _ Hl) as (path' & _ & _ & Hp & Ht).
  assert (Hne : splitlines (universal_newlines false text) <> []).
  { apply splitlines_nonempty, universal_newlines_nonempty, lines_text_nonempty.
    now destruct lines. }
  destruct (splitlines (universal_newlines false text)) as [|l ls] eqn:Es; [congruence|].
  assert (Hl2 : load_todos cfg format (snd r)
                = (Ok (VList (List.map VStr (l :: ls))), snd r)).
  { rewrite Hadd. cbn [snd]. rewrite (load_todos_eq cfg format _ path).
    - cbn [fs add_log set_fs]. rewrite lookup_insert_eq. cbn [read_node]. unfold decode.
      rewrite Ej, Ec, Es. reflexivity.
    - eapply filename_of_stable; [exact Hf|exact Hp]. }
  assert (Hlist : list_todos_cli cfg None (snd r) = (Raise TypeError, snd r)).
  { unfold list_todos_cli. rewrite (list_todos_loaded _ _ _ _ _ _ Hc Hl2). cbn [given].
    unfold bind at 1. unfold ret at 1. unfold bind at 1. unfold lift at 1, iter.
    cbn [List.map echo_todos]. unfold bind at 1. unfold bind at 1. unfold lift at 1.
    unfold todo_line. rewrite Et. reflexivity. }
  split; [now rewrite Hadd|]. split; [|split].
  - exists (lines_text (List.map VStr lines)), label. split; [exact Hg|].
    rewrite Hadd. cbn [snd fs add_log set_fs]. rewrite lookup_insert_eq.
    unfold text. now rewrite lines_text_snoc.
  - now rewrite Hlist.
  - rewrite Hlist, Hadd. exact Ht.
Qed.

Lemma unknown_format_add_then_list_witness :
  fs (snd (add_todo_cli (sample_cfg "yaml") None "X" "Y" empty_world)) !! "todos"
  = Some (File ("{'name': 'X', 'description': 'Y', 'priority': 'Medium'}" ++ char LF))
  /\ fst (list_todos_cli (sample_cfg "yaml") None
            (snd (add_todo_cli (sample_cfg "yaml") None "X" "Y" empty_world)))
     = Raise TypeError.
Proof.
  pose proof (unknown_format_add_then_list (sample_cfg "yaml") "yaml" empty_world "todos"
                None "X" "Y" eq_refl) as H.
  destruct H as (_ & _ & H & _); try discriminate; try reflexivity.
  split; [vm_compute; reflexivity|exact H].
Defined.

(** ** Without a configuration *)

Lemma load_todos_no_filename cfg format w :
  fst (filename_of cfg w) = Raise KeyError ->
  load_todos cfg format w = (Raise KeyError, w).
Proof.
  intros H. pose proof (filename_of_fst cfg w) as Hf. rewrite H in Hf.
  unfold load_todos. now rewrite (bind_raise _ _ _ _ _ Hf).
Qed.

(** X19: when the configuration has no [StorageType], or has no [FileName]
    while no path is signed in, each of [add_todo], [delete_todo] and
    [list_todos] ends in [KeyError] before anything else happens: no file is
    read or written, nothing is echoed, nothing is logged. *)
Theorem commands_unconfigured cfg w :
  StorageType cfg = None \/ fst (filename_of cfg w) = Raise KeyError ->
  (forall priority name description,
     is_choice (priority_argument priority) = true ->
     add_todo_cli cfg priority name description w = (Raise KeyError, w))
  /\ (forall idx, delete_todo_cli cfg idx w = (Raise KeyError, w))
  /\ (forall priority,
        (forall k, priority = Some k -> is_choice k = true) ->
        list_todos_cli cfg priority w = (Raise KeyError, w)).
Proof.
  intros H.
  assert (Ha : forall name description k, add_todo cfg name description k w = (Raise KeyError, w)).
  { intros name description k. unfold add_todo.
    destruct (StorageType cfg) as [format|] eqn:Hc; [|reflexivity].
    destruct H as [H|H]; [discriminate|].
    unfold config_get. unfold bind at 1. unfold ret at 1. cbv beta iota.
    now rewrite (bind_raise _ _ _ _ _ (load_todos_no_filename cfg format w H)). }
  assert (Hd : forall idx, delete_todo cfg idx w = (Raise KeyError, w)).
  { intros idx. unfold delete_todo.
    destruct (StorageType cfg) as [format|] eqn:Hc; [|reflexivity].
    destruct H as [H|H]; [discriminate|].
    unfold config_get. unfold bind at 1. unfold ret at 1. cbv beta iota.
    now rewrite (bind_raise _ _ _ _ _ (load_todos_no_filename cfg format w H)). }
  assert (Hl : forall priority, list_todos cfg priority w = (Raise KeyError, w)).
  { intros priority. unfold list_todos.
    destruct (StorageType cfg) as [format|] eqn:Hc; [|reflexivity].
    destruct H as [H|H]; [discriminate|].
    unfold config_get. unfold bind at 1. unfold ret at 1. cbv beta iota.
    now rewrite (bind_raise _ _ _ _ _ (load_todos_no_filename cfg format w H)). }
  split; [|split].
  - intros priority name description Hk. unfold add_todo_cli. cbv zeta. rewrite Hk. apply Ha.
  - intros idx. apply Hd.
  - intros [k|] Hk; unfold list_todos_cli; [rewrite (Hk k eq_refl)|]; apply Hl.
Qed.

Lemma commands_unconfigured_witness :
  add_todo_cli no_config None "X" "Y" empty_world = (Raise KeyError, empty_world)
  /\ delete_todo_cli no_config 0 empty_world = (Raise KeyError, empty_world)
  /\ list_todos_cli no_config None empty_world = (Raise KeyError, empty_world).
Proof.
  destruct (commands_unconfigured no_config empty_world (or_introl eq_refl)) as (Ha & Hd & Hl).
  split; [apply Ha; reflexivity|]. split; [apply Hd|]. apply Hl. discriminate.
Defined.
